(** * RedSPN report generator: the risk-analysis core of [generate_report.py]

    A shallow embedding of [ADAuditReportGenerator.calculate_risk_scores],
    [get_overall_risk_score], [_get_member_of], the graph / attack-path
    part of [generate_graph_visualization], the selection and the order of
    the rows of [generate_user_table], the values [generate_krbtgt_info]
    shows and [generate_recommendations], together with the properties of
    the specification that concern them and further properties read off
    the code.

    The generator works on the value returned by [json.load]: a tree of
    dicts, lists, strings, numbers, booleans and [None], read with
    [dict.get] and Python's dynamic operations.  The embedding keeps that
    shape: snapshots are [json] values, every Python operation that can
    raise is a function into [result], and the generator's methods are
    written in the error monad, in the order in which Python evaluates.

    Limits of the model.  The numbers of a snapshot are integers: a
    snapshot in which a count or a day counter is written with a
    fraction or an exponent is outside the model, and nothing is stated
    about it.  A string is the sequence of the bytes of its UTF-8
    encoding; [str.lower] maps the ASCII capitals and the two code points
    outside ASCII whose lower-case form contains an ASCII letter (U+212A
    and U+0130), and leaves the other bytes as they are.  The true
    division [total_score / 10] is the division of binary64 floats:
    rounded to nearest, ties to even, with [OverflowError] beyond the
    range; a finite float is written as the rational it denotes.
    Display-only attributes of nodes and edges that are constants (shape,
    size, border colour) are left out. *)

From Stdlib Require Import ZArith QArith Qminmax String Ascii List DecimalString Lia.
From stdpp Require Import gmap strings list sorting.

Local Open Scope string_scope.
Local Open Scope list_scope.
Set Warnings "-register-all,-clear-no-such-hyp".

(** ** Python values and exceptions *)

Inductive json : Type :=
| JNull
| JBool (b : bool)
| JInt (z : Z)
| JStr (s : string)
| JList (l : list json)
| JObj (fields : list (string * json)).

Inductive exn : Type := TypeError | AttributeError | OverflowError.

Inductive result (A : Type) : Type :=
| Ok (a : A)
| Raise (e : exn).

Arguments Ok {A} a.
Arguments Raise {A} e.

#[global] Instance exn_eq_dec : EqDecision exn.
Proof. solve_decision. Defined.

#[global] Instance result_eq_dec {A : Type} `{EqDecision A} : EqDecision (result A).
Proof. solve_decision. Defined.

Definition bind {A B : Type} (m : result A) (k : A -> result B) : result B :=
  match m with
  | Ok a => k a
  | Raise e => Raise e
  end.

Notation "'let*' x ':=' m 'in' k" := (bind m (fun x => k))
  (at level 10, x name, m at level 100, k at level 200).

(** A [for] loop whose body updates the local state [S] and may raise. *)
Fixpoint for_each {A S : Type} (l : list A) (body : A -> S -> result S) (s : S)
  : result S :=
  match l with
  | [] => Ok s
  | x :: l' => let* s' := body x s in for_each l' body s'
  end.

(** A list comprehension [[x for x in l if cond(x)]]. *)
Fixpoint comprehension {A : Type} (cond : A -> result bool) (l : list A)
  : result (list A) :=
  match l with
  | [] => Ok []
  | x :: l' =>
      let* b := cond x in
      let* r := comprehension cond l' in
      Ok (if b then x :: r else r)
  end.

Module Py.

(** Truth value of an object. *)
Definition truthy (v : json) : bool :=
  match v with
  | JNull => false
  | JBool b => b
  | JInt z => negb (z =? 0)%Z
  | JStr EmptyString => false
  | JStr _ => true
  | JList [] => false
  | JList _ => true
  | JObj [] => false
  | JObj _ => true
  end.

Fixpoint assoc (k : string) (fields : list (string * json)) : option json :=
  match fields with
  | [] => None
  | (k', v) :: rest => if String.eqb k k' then Some v else assoc k rest
  end.

(** [v.get(k, dflt)]; only dicts have the method.  A [JObj] lists the
    items of a dict, whose keys are distinct. *)
Definition get (v : json) (k : string) (dflt : json) : result json :=
  match v with
  | JObj fields => Ok (default dflt (assoc k fields))
  | _ => Raise AttributeError
  end.

(** [len(v)]. *)
Definition len (v : json) : result Z :=
  match v with
  | JStr s => Ok (Z.of_nat (String.length s))
  | JList l => Ok (Z.of_nat (length l))
  | JObj fields => Ok (Z.of_nat (length fields))
  | _ => Raise TypeError
  end.

Definition chars (s : string) : list json :=
  (fun c => JStr (String c EmptyString)) <$> list_ascii_of_string s.

(** The items a [for] loop or a generator draws from [v]: the elements
    of a list, the characters of a string, the keys of a dict. *)
Definition iter (v : json) : result (list json) :=
  match v with
  | JList l => Ok l
  | JStr s => Ok (chars s)
  | JObj fields => Ok ((fun kv => JStr (fst kv)) <$> fields)
  | _ => Raise TypeError
  end.

(** [v == s] for a string literal [s]. *)
Definition eq_str (v : json) (s : string) : bool :=
  match v with
  | JStr t => String.eqb t s
  | _ => false
  end.

(** [v in [s1, s2, ...]] for string literals. *)
Definition in_strs (v : json) (ss : list string) : bool :=
  existsb (eq_str v) ss.

(** [s in l] for a string literal [s] and a list [l]. *)
Definition str_in (s : string) (l : list json) : bool :=
  existsb (fun v => eq_str v s) l.

(** [v > n] for an integer literal [n]; [bool] is a subclass of [int]. *)
Definition gt (v : json) (n : Z) : result bool :=
  match v with
  | JInt z => Ok (n <? z)%Z
  | JBool b => Ok (n <? (if b then 1 else 0))%Z
  | _ => Raise TypeError
  end.

(** [min(v * 2, 100)]: a string or a list can be doubled but not
    compared with 100; [None] and dicts cannot be multiplied. *)
Definition min_double_100 (v : json) : result Z :=
  match v with
  | JInt z => Ok (Z.min (z * 2) 100)
  | JBool b => Ok (Z.min ((if b then 1 else 0) * 2) 100)
  | _ => Raise TypeError
  end.

(** *** True division

    [a / b] on two [int]s is a [float]: CPython's [long_true_divide]
    returns the binary64 value nearest to the exact quotient, ties to
    even, and raises [OverflowError] when that value is not finite.  A
    finite binary64 value is written as the rational it denotes. *)

(** The integer nearest to [n / d], ties to even ([d > 0]). *)
Definition round_half_even (n d : Z) : Z :=
  let q := (n / d)%Z in
  let r := (n mod d)%Z in
  match (2 * r ?= d)%Z with
  | Lt => q
  | Gt => (q + 1)%Z
  | Eq => if Z.even q then q else (q + 1)%Z
  end.

(** [2 ^ e <= n / d] *)
Definition pow2_le_ratio (e n d : Z) : bool :=
  if (0 <=? e)%Z then (d * 2 ^ e <=? n)%Z else (d <=? n * 2 ^ (- e))%Z.

(** The binary exponent of [n / d]: the [e] with
    [2 ^ e <= n / d < 2 ^ (e + 1)], for positive [n] and [d]. *)
Definition ratio_exponent (n d : Z) : Z :=
  let k := (Z.log2 n - Z.log2 d)%Z in
  if pow2_le_ratio k n d then k else (k - 1)%Z.

(** [a / b] for an [int] [a] and a positive [int] [b].  The quotient is
    rounded to 53 significant bits, to a multiple of [2 ^ shift], where
    [shift] is not below the exponent -1074 of the subnormal numbers. *)
Definition true_divide (a b : Z) : result Q :=
  if (a =? 0)%Z then Ok 0%Q
  else
    let n := Z.abs a in
    let shift := Z.max (ratio_exponent n b - 52) (-1074) in
    if (0 <=? shift)%Z then
      let m := round_half_even n (b * 2 ^ shift) in
      if (2 ^ 1024 <=? m * 2 ^ shift)%Z then Raise OverflowError
      else Ok (inject_Z (Z.sgn a * (m * 2 ^ shift)))
    else
      let m := round_half_even (n * 2 ^ (- shift)) b in
      Ok (Qmake (Z.sgn a * m) (Z.to_pos (2 ^ (- shift)))).

(** *** Strings *)

(** A string is the sequence of the bytes of its UTF-8 encoding.

    [str.lower] maps the ASCII capitals to their small letters.  Of all
    the other code points exactly two have a lower-case form in which an
    ASCII letter occurs: U+212A KELVIN SIGN (bytes E2 84 AA), whose
    lower-case form is [k], and U+0130 LATIN CAPITAL LETTER I WITH DOT
    ABOVE (bytes C4 B0), whose lower-case form is [i] followed by U+0307
    (bytes CC 87).  Both are mapped as Python maps them.  Every other
    code point outside ASCII is mapped by Python to text outside ASCII;
    it is left as it is here, bytes outside ASCII for bytes outside
    ASCII, which no comparison of the generator, all of them with ASCII
    literals, can tell apart. *)
Definition lower_char (c : ascii) : ascii :=
  let n := N_of_ascii c in
  if ((65 <=? n) && (n <=? 90))%N then ascii_of_N (n + 32) else c.

Definition is_kelvin_sign (c1 c2 c3 : ascii) : bool :=
  ((N_of_ascii c1 =? 226) && (N_of_ascii c2 =? 132) && (N_of_ascii c3 =? 170))%N.

Definition is_capital_i_with_dot (c1 c2 : ascii) : bool :=
  ((N_of_ascii c1 =? 196) && (N_of_ascii c2 =? 176))%N.

(** U+0307 COMBINING DOT ABOVE, bytes CC 87. *)
Definition combining_dot_above (s : string) : string :=
  String (ascii_of_N 204) (String (ascii_of_N 135) s).

Fixpoint lower_string (s : string) : string :=
  match s with
  | EmptyString => EmptyString
  | String c1 s1 =>
      match s1 with
      | EmptyString => String (lower_char c1) EmptyString
      | String c2 s2 =>
          if is_capital_i_with_dot c1 c2
          then String "i" (combining_dot_above (lower_string s2))
          else
            match s2 with
            | EmptyString => String (lower_char c1) (lower_string s1)
            | String c3 s3 =>
                if is_kelvin_sign c1 c2 c3 then String "k" (lower_string s3)
                else String (lower_char c1) (lower_string s1)
            end
      end
  end.

(** [v.lower()]; only strings have the method. *)
Definition lower (v : json) : result string :=
  match v with
  | JStr s => Ok (lower_string s)
  | _ => Raise AttributeError
  end.

(** [sub in s] and [s.find(sub) >= 0]. *)
Fixpoint contains (sub s : string) : bool :=
  String.prefix sub s ||
  match s with
  | EmptyString => false
  | String _ s' => contains sub s'
  end.

Fixpoint remove_char (c : ascii) (s : string) : string :=
  match s with
  | EmptyString => EmptyString
  | String c' s' =>
      if Ascii.eqb c c' then remove_char c s' else String c' (remove_char c s')
  end.

(** [v.replace('$', '')]; only strings have the method. *)
Definition strip_dollar (v : json) : result string :=
  match v with
  | JStr s => Ok (remove_char "$"%char s)
  | _ => Raise AttributeError
  end.

Fixpoint join (sep : string) (l : list string) : string :=
  match l with
  | [] => EmptyString
  | [s] => s
  | s :: l' => s +:+ sep +:+ join sep l'
  end.

(** [sep.join(v)]: every item drawn from [v] must be a string. *)
Fixpoint strings_of (l : list json) : result (list string) :=
  match l with
  | [] => Ok []
  | JStr s :: l' => let* r := strings_of l' in Ok (s :: r)
  | _ :: _ => Raise TypeError
  end.

Definition join_value (sep : string) (v : json) : result string :=
  let* items := iter v in
  let* ss := strings_of items in
  Ok (join sep ss).

(** [v[:3]]: lists and strings can be sliced, a dict cannot (CPython
    raises [TypeError] up to 3.11 and [KeyError] from 3.12 on; the model
    keeps the former). *)
Definition slice3 (v : json) : result json :=
  match v with
  | JList l => Ok (JList (take 3 l))
  | JStr s => Ok (JStr (String.substring 0 3 s))
  | _ => Raise TypeError
  end.

(** *** [str] and [repr], as used by f-strings *)

Definition dec (z : Z) : string := NilZero.string_of_int (Z.to_int z).

Definition hex_digit (n : N) : ascii :=
  if (n <? 10)%N then ascii_of_N (48 + n) else ascii_of_N (87 + n).

Definition has_char (c : ascii) (s : string) : bool :=
  existsb (Ascii.eqb c) (list_ascii_of_string s).

Definition squote : ascii := "039"%char.
Definition dquote : ascii := "034"%char.
Definition backslash : ascii := "092"%char.

Definition repr_char (q c : ascii) : string :=
  let n := N_of_ascii c in
  if Ascii.eqb c q || Ascii.eqb c backslash then String backslash (String c EmptyString)
  else if (n =? 9)%N then String backslash "t"
  else if (n =? 10)%N then String backslash "n"
  else if (n =? 13)%N then String backslash "r"
  else if ((n <? 32) || (n =? 127))%N then
    String backslash
      (String "x" (String (hex_digit (n / 16)) (String (hex_digit (n mod 16)) EmptyString)))
  else String c EmptyString.

Definition repr_str (s : string) : string :=
  let q := if has_char squote s && negb (has_char dquote s) then dquote else squote in
  String q (String.concat EmptyString (repr_char q <$> list_ascii_of_string s))
    +:+ String q EmptyString.

Fixpoint repr (v : json) : string :=
  match v with
  | JNull => "None"
  | JBool true => "True"
  | JBool false => "False"
  | JInt z => dec z
  | JStr s => repr_str s
  | JList l => "[" +:+ join ", " (map repr l) +:+ "]"
  | JObj fields =>
      "{" +:+ join ", " (map (fun kv => repr_str (fst kv) +:+ ": " +:+ repr (snd kv)) fields)
          +:+ "}"
  end.

(** [str(v)], the text an f-string substitutes for [{v}]. *)
Definition str (v : json) : string :=
  match v with
  | JStr s => s
  | _ => repr v
  end.

(** [v < n] for an integer literal [n]. *)
Definition lt (v : json) (n : Z) : result bool :=
  match v with
  | JInt z => Ok (z <? n)%Z
  | JBool b => Ok ((if b then 1 else 0) <? n)%Z
  | _ => Raise TypeError
  end.

(** [v == n] for an integer literal [n]. *)
Definition eq_int (v : json) (n : Z) : bool :=
  match v with
  | JInt z => (z =? n)%Z
  | JBool b => ((if b then 1 else 0) =? n)%Z
  | _ => false
  end.

(** [s in v] for a string literal [s]: a substring of a string, an item
    of a list, a key of a dict. *)
Definition str_in_value (s : string) (v : json) : result bool :=
  match v with
  | JStr t => Ok (contains s t)
  | JList l => Ok (str_in s l)
  | JObj fields => Ok (existsb (fun kv => String.eqb (fst kv) s) fields)
  | _ => Raise TypeError
  end.

(** [v >= n] for an integer literal [n]. *)
Definition ge (v : json) (n : Z) : result bool :=
  match v with
  | JInt z => Ok (n <=? z)%Z
  | JBool b => Ok (n <=? (if b then 1 else 0))%Z
  | _ => Raise TypeError
  end.

End Py.

(** ** The risk scoring engine *)

(** [self.data.get(section, [])], drawn by a loop or a comprehension. *)
Definition section (data : json) (name : string) : result (list json) :=
  let* v := Py.get data name (JList []) in
  Py.iter v.

(** [_get_member_of]: the [MemberOf] list, or [[]] when the field is
    absent, [None] or not a list. *)
Definition _get_member_of (user : json) : result (list json) :=
  let* member_of := Py.get user "MemberOf" JNull in
  match member_of with
  | JList l => Ok l
  | _ => Ok []
  end.

(** [x.get(k) and len(x.get(k, [])) > 0] *)
Definition nonempty_field (x : json) (k : string) : result bool :=
  let* v := Py.get x k JNull in
  if Py.truthy v then
    let* v' := Py.get x k (JList []) in
    let* n := Py.len v' in
    Ok (0 <? n)%Z
  else Ok false.

Definition has_spns (u : json) : result bool := nonempty_field u "SPNs".

(** [x.get('TrustedForDelegation') or x.get('TrustedToAuthForDelegation')] *)
Definition has_delegation_flag (x : json) : result bool :=
  let* a := Py.get x "TrustedForDelegation" JNull in
  if Py.truthy a then Ok true
  else
    let* b := Py.get x "TrustedToAuthForDelegation" JNull in
    Ok (Py.truthy b).

(** The filter of [computers_with_delegation]. *)
Definition computer_with_delegation (c : json) : result bool :=
  let* deleg :=
    (let* flag := has_delegation_flag c in
     if flag then Ok true else nonempty_field c "ConstrainedDelegation") in
  if deleg then
    let* dc := Py.get c "IsDomainController" (JBool false) in
    Ok (negb (Py.truthy dc))
  else Ok false.

(** [any(enc in ['DES', 'RC4'] for enc in u.get('EncryptionTypes', []))] *)
Definition has_weak_encryption (u : json) : result bool :=
  let* v := Py.get u "EncryptionTypes" (JList []) in
  let* encs := Py.iter v in
  Ok (existsb (fun enc => Py.in_strs enc ["DES"; "RC4"]) encs).

(** The filter of [weak_encryption_users]. *)
Definition weak_encryption_user (u : json) : result bool :=
  let* weak := has_weak_encryption u in
  if weak then Ok true
  else
    let* des := Py.get u "UseDESKeyOnly" (JBool false) in
    Ok (Py.truthy des).

Definition in_group (g : string) (u : json) : result bool :=
  let* member_of := _get_member_of u in
  Ok (Py.str_in g member_of).

Definition not_in_group (g : string) (u : json) : result bool :=
  let* member_of := _get_member_of u in
  Ok (negb (Py.str_in g member_of)).

(** [u.get(k) and u.get(k) > n] *)
Definition counter_above (k : string) (n : Z) (u : json) : result bool :=
  let* v := Py.get u k JNull in
  if Py.truthy v then
    let* v' := Py.get u k JNull in
    Py.gt v' n
  else Ok false.

(** [self.data.get('Statistics', {}).get('NTLMEventCount', 0)] *)
Definition ntlm_event_count (data : json) : result json :=
  let* stats := Py.get data "Statistics" (JObj []) in
  Py.get stats "NTLMEventCount" (JInt 0).

Record scores : Type := {
  kerberoasting : Z;
  delegation : Z;
  encryption : Z;
  ntlm : Z;
  privileged : Z;
  inactive : Z
}.

Definition count {A : Type} (l : list A) : Z := Z.of_nat (length l).

Definition calculate_risk_scores (data : json) : result scores :=
  let* users := section data "Users" in
  let* users_with_spns := comprehension has_spns users in
  let* users := section data "Users" in
  let* users_with_delegation := comprehension has_delegation_flag users in
  let* computers := section data "Computers" in
  let* computers_with_delegation := comprehension computer_with_delegation computers in
  let* users := section data "Users" in
  let* weak_encryption_users := comprehension weak_encryption_user users in
  let* events := ntlm_event_count data in
  let* ntlm_score := Py.min_double_100 events in
  let* users := section data "Users" in
  let* domain_admins := comprehension (in_group "Domain Admins") users in
  let* unprotected_admins := comprehension (not_in_group "Protected Users") domain_admins in
  let* users := section data "Users" in
  let* inactive_users := comprehension (counter_above "DaysSinceLastLogon" 90) users in
  let* users := section data "Users" in
  let* old_passwords := comprehension (counter_above "DaysSincePasswordChange" 365) users in
  Ok {| kerberoasting := count users_with_spns * 10;
        delegation := count users_with_delegation * 15 + count computers_with_delegation * 20;
        encryption := count weak_encryption_users * 5;
        ntlm := ntlm_score;
        privileged := count unprotected_admins * 25;
        inactive := count inactive_users * 2 + count old_passwords * 3 |}.

(** [sum(self.risk_scores.values())] *)
Definition total_score (s : scores) : Z :=
  kerberoasting s + delegation s + encryption s + ntlm s + privileged s + inactive s.

(** [min(q, 100)] for a float [q] *)
Definition min_100 (q : Q) : Q :=
  match (100 ?= q)%Q with
  | Lt => 100%Q
  | _ => q
  end.

(** [int(q)]: truncation towards zero. *)
Definition py_int (q : Q) : Z := Z.quot (Qnum q) (Z.pos (Qden q)).

Definition Qltb (a b : Q) : bool :=
  match (a ?= b)%Q with
  | Lt => true
  | _ => false
  end.

(** [get_overall_risk_score].  The sub-scores are [int]s, so the quotient
    is a finite float or the division raises [OverflowError]; [min], the
    comparisons and [int] of a finite float do not raise. *)
Definition get_overall_risk_score (risk_scores : scores)
  : result (Z * string * string) :=
  let total_score := total_score risk_scores in
  let* quotient := Py.true_divide total_score 10 in
  let normalized_score := min_100 quotient in
  if Qltb normalized_score 30 then Ok (py_int normalized_score, "risk-low", "Low Risk")
  else if Qltb normalized_score 70 then Ok (py_int normalized_score, "risk-medium", "Medium Risk")
  else Ok (py_int normalized_score, "risk-high", "High Risk").

(** [generate_html] computes the scores and then the overall score. *)
Definition overall_of_snapshot (data : json) : result (Z * string * string) :=
  let* s := calculate_risk_scores data in
  get_overall_risk_score s.

(** ** The relationship graph and the attack paths

    [generate_graph_visualization] builds three lists of dicts, [nodes],
    [edges] and [attack_paths], before it renders them with [json.dumps].
    The records below are those dicts; [node_id_map] is the dict of the
    ids handed out so far, used only through its keys. *)

Record node : Type := {
  node_id : string;
  node_label : json;
  node_type : string;
  node_group : string;
  node_risk : option string;
  node_spns : option Z;
  node_color : string
}.

(** [edge_attackPath] is [false] while the dict has no ['attackPath'] key;
    the key is only ever set to [True]. *)
Record edge : Type := {
  edge_from : string;
  edge_to : string;
  edge_label : string;
  edge_color : string;
  edge_attackPath : bool;
  edge_width : option Z
}.

Record attack_path : Type := {
  path_type : string;
  path_severity : string;
  path_description : string;
  path_path : list string;
  path_steps : list string
}.

Record graph : Type := {
  nodes : list node;
  edges : list edge;
  node_id_map : gset string;
  high_risk_users : list json
}.

Definition add_node (n : node) (g : graph) : graph :=
  {| nodes := nodes g ++ [n];
     edges := edges g;
     node_id_map := {[ node_id n ]} ∪ node_id_map g;
     high_risk_users := high_risk_users g |}.

Definition add_edge (e : edge) (g : graph) : graph :=
  {| nodes := nodes g;
     edges := edges g ++ [e];
     node_id_map := node_id_map g;
     high_risk_users := high_risk_users g |}.

Definition remember_user (user : json) (g : graph) : graph :=
  {| nodes := nodes g;
     edges := edges g;
     node_id_map := node_id_map g;
     high_risk_users := high_risk_users g ++ [user] |}.

Definition plain_edge (from to label color : string) : edge :=
  {| edge_from := from; edge_to := to; edge_label := label; edge_color := color;
     edge_attackPath := false; edge_width := None |}.

(** [f"user_{x.get('SamAccountName')}"] and [f"comp_{x.get('SamAccountName')}"] *)
Definition user_id_of (user : json) : result string :=
  let* sam := Py.get user "SamAccountName" JNull in
  Ok ("user_" +:+ Py.str sam).

Definition comp_id_of (computer : json) : result string :=
  let* sam := Py.get computer "SamAccountName" JNull in
  Ok ("comp_" +:+ Py.str sam).

(** The risk tier of a user: the first matching rule wins. *)
Definition user_risk (user : json) : result string :=
  let* spn := has_spns user in
  if spn then Ok "high"
  else
    let* deleg := has_delegation_flag user in
    if deleg then Ok "high"
    else
      let* da := in_group "Domain Admins" user in
      let* admin := (if da then Ok true else in_group "Enterprise Admins" user) in
      if admin then Ok "high"
      else
        let* weak := has_weak_encryption user in
        if weak then Ok "medium" else Ok "low".

(** [risk in ['high', 'medium'] or 'Domain Admins' in self._get_member_of(user)] *)
Definition user_included (risk : string) (user : json) : result bool :=
  if String.eqb risk "high" || String.eqb risk "medium" then Ok true
  else in_group "Domain Admins" user.

Definition user_node (user : json) (risk user_id : string) : result node :=
  let color :=
    if String.eqb risk "high" then "#dc3545"
    else if String.eqb risk "medium" then "#ffc107" else "#e74c3c" in
  let* label := Py.get user "SamAccountName" (JStr "N/A") in
  let* member_of := _get_member_of user in
  let* joined :=
    Py.join_value ", "
      (JList (List.filter (fun g => Py.in_strs g ["Domain Admins"; "Enterprise Admins"])
                member_of)) in
  let* spns := Py.get user "SPNs" JNull in
  let* n := (if Py.truthy spns
             then let* v := Py.get user "SPNs" (JList []) in Py.len v
             else Ok 0%Z) in
  Ok {| node_id := user_id;
        node_label := label;
        node_type := "user";
        node_group := if Py.truthy (JStr joined) then joined else "user";
        node_risk := Some risk;
        node_spns := Some n;
        node_color := color |}.

(** Body of the loop over [Users] (lines 1969-2001). *)
Definition add_user (domain_id : string) (user : json) (g : graph) : result graph :=
  let* risk := user_risk user in
  let* included := user_included risk user in
  if included then
    let* user_id := user_id_of user in
    let* n := user_node user risk user_id in
    Ok (remember_user user
          (add_edge (plain_edge domain_id user_id "Member" "#848484") (add_node n g)))
  else Ok g.

Definition privileged_groups : list string :=
  ["Domain Admins"; "Enterprise Admins"; "Schema Admins"; "Account Operators"].

(** Body of the loop over a group's [Members] (lines 2027-2038). *)
Definition add_member (group_id : string) (member : json) (g : graph) : result graph :=
  let* user_sam := Py.get member "SamAccountName" JNull in
  if Py.truthy user_sam then
    let user_id := "user_" +:+ Py.str user_sam in
    if bool_decide (user_id ∈ node_id_map g)
    then Ok (add_edge (plain_edge group_id user_id "MemberOf" "#dc3545") g)
    else Ok g
  else Ok g.

(** Body of the loop over [SecurityGroups] (lines 2004-2038). *)
Definition add_group (domain_id : string) (group : json) (g : graph) : result graph :=
  let* group_name := Py.get group "Name" (JStr EmptyString) in
  if Py.in_strs group_name privileged_groups then
    let group_id := "group_" +:+ Py.str group_name in
    let n := {| node_id := group_id;
                node_label := group_name;
                node_type := "group";
                node_group := Py.str group_name;
                node_risk := None;
                node_spns := None;
                node_color := "#fd7e14" |} in
    let g1 := add_edge (plain_edge domain_id group_id "Contains" "#848484") (add_node n g) in
    let* members_v := Py.get group "Members" (JList []) in
    let* members := Py.iter members_v in
    for_each members (add_member group_id) g1
  else Ok g.

(** Body of the loop over [Computers] (lines 2041-2061). *)
Definition add_computer (domain_id : string) (computer : json) (g : graph) : result graph :=
  let* deleg := has_delegation_flag computer in
  let* wanted :=
    (if deleg then Ok true
     else let* dc := Py.get computer "IsDomainController" JNull in Ok (Py.truthy dc)) in
  if wanted then
    let* comp_id := comp_id_of computer in
    let* dc := Py.get computer "IsDomainController" JNull in
    let* sam := Py.get computer "SamAccountName" (JStr "N/A") in
    let* label := Py.strip_dollar sam in
    let n := {| node_id := comp_id;
                node_label := JStr label;
                node_type := "computer";
                node_group := if Py.truthy dc then "DC" else "computer";
                node_risk := None;
                node_spns := None;
                node_color := if Py.truthy dc then "#dc3545" else "#ffc107" |} in
    Ok (add_edge (plain_edge domain_id comp_id "Contains" "#848484") (add_node n g))
  else Ok g.

(** Body of the inner loop of the delegation relationships (lines 2069-2080):
    the edge is born with ['attackPath': True]. *)
Definition add_delegation_edge (user_id : string) (computer : json) (g : graph)
  : result graph :=
  let* comp_id := comp_id_of computer in
  if bool_decide (comp_id ∈ node_id_map g)
  then Ok (add_edge {| edge_from := user_id; edge_to := comp_id;
                       edge_label := "DelegatesTo"; edge_color := "#dc3545";
                       edge_attackPath := true; edge_width := None |} g)
  else Ok g.

(** Body of the loop over [high_risk_users] (lines 2064-2080). *)
Definition add_delegation_edges (data : json) (user : json) (g : graph) : result graph :=
  let* deleg := has_delegation_flag user in
  if deleg then
    let* user_id := user_id_of user in
    if bool_decide (user_id ∈ node_id_map g) then
      let* computers := section data "Computers" in
      for_each computers (add_delegation_edge user_id) g
    else Ok g
  else Ok g.

(** [f"domain_{self.data.get('Domain', 'DOMAIN')}"] *)
Definition domain_id_of (data : json) : result string :=
  let* domain := Py.get data "Domain" (JStr "DOMAIN") in
  Ok ("domain_" +:+ Py.str domain).

(** Lines 1948-2080: the graph before the attack paths are looked for. *)
Definition build_graph (data : json) : result graph :=
  let* domain := Py.get data "Domain" (JStr "DOMAIN") in
  let* domain_id := domain_id_of data in
  let g0 := add_node {| node_id := domain_id;
                        node_label := domain;
                        node_type := "domain";
                        node_group := "domain";
                        node_risk := None;
                        node_spns := None;
                        node_color := "#dc3545" |}
              {| nodes := []; edges := []; node_id_map := ∅; high_risk_users := [] |} in
  let* users := section data "Users" in
  let* g1 := for_each users (add_user domain_id) g0 in
  let* groups := section data "SecurityGroups" in
  let* g2 := for_each groups (add_group domain_id) g1 in
  let* computers := section data "Computers" in
  let* g3 := for_each computers (add_computer domain_id) g2 in
  for_each (high_risk_users g3) (add_delegation_edges data) g3.

(** ** The attack-path detector (lines 2082-2185)

    Every rule is a loop that appends to [attack_paths] and reads the
    finished [node_id_map]. *)

Definition arrow : string := "‚Üí".

(** Body of rule 1, the paths to Domain Admins via group membership. *)
Definition group_membership_rule (ids : gset string) (user : json)
    (attack_paths : list attack_path) : result (list attack_path) :=
  let* user_sam := Py.get user "SamAccountName" (JStr EmptyString) in
  let* lowered := Py.lower user_sam in
  if String.eqb lowered "administrator" then Ok attack_paths
  else
    let user_id := "user_" +:+ Py.str user_sam in
    if bool_decide (user_id ∈ ids) then
      let* member_of := _get_member_of user in
      if Py.str_in "Domain Admins" member_of then
        let is_protected := Py.str_in "Protected Users" member_of in
        Ok (attack_paths ++
            [{| path_type := "Group Membership";
                path_severity := if is_protected then "high" else "critical";
                path_description :=
                  "User " +:+ Py.str user_sam +:+ " is a member of Domain Admins"
                  +:+ (if is_protected then " (Protected Users)"
                       else " (NOT in Protected Users)");
                path_path := [user_id; "group_Domain Admins"];
                path_steps :=
                  ["User " +:+ Py.str user_sam +:+ " " +:+ arrow
                   +:+ " Domain Admins (Direct Membership)"] |}])
      else Ok attack_paths
    else Ok attack_paths.

(** The service-account heuristic of rule 2; [or] evaluates the
    description only when the name decides nothing. *)
Definition is_likely_service (user : json) (lowered : string) : result bool :=
  if String.prefix "svc_" lowered || Py.contains "service" lowered then Ok true
  else
    let* description := Py.get user "Description" (JStr EmptyString) in
    let* d := Py.lower description in
    Ok (Py.contains "service" d).

(** Body of rule 2, Kerberoasting. *)
Definition kerberoasting_rule (ids : gset string) (user : json)
    (attack_paths : list attack_path) : result (list attack_path) :=
  let* user_sam := Py.get user "SamAccountName" (JStr EmptyString) in
  let* lowered := Py.lower user_sam in
  if String.eqb lowered "krbtgt" then Ok attack_paths
  else
    let* spn := has_spns user in
    if spn then
      let user_id := "user_" +:+ Py.str user_sam in
      if bool_decide (user_id ∈ ids) then
        let* lowered' := Py.lower user_sam in
        let* likely := is_likely_service user lowered' in
        let* spns := Py.get user "SPNs" (JList []) in
        let* first3 := Py.slice3 spns in
        let* shown := Py.join_value ", " first3 in
        Ok (attack_paths ++
            [{| path_type := "Kerberoasting";
                path_severity := if likely then "medium" else "high";
                path_description :=
                  "User " +:+ Py.str user_sam +:+ " has SPNs and is vulnerable to Kerberoasting"
                  +:+ (if likely then " (likely service account)" else EmptyString);
                path_path := [user_id];
                path_steps := ["User " +:+ Py.str user_sam +:+ " has SPNs: " +:+ shown] |}])
      else Ok attack_paths
    else Ok attack_paths.

(** Body of rule 3, delegation on the users kept in [high_risk_users]. *)
Definition delegation_rule (ids : gset string) (user : json)
    (attack_paths : list attack_path) : result (list attack_path) :=
  let* deleg := has_delegation_flag user in
  if deleg then
    let* user_id := user_id_of user in
    if bool_decide (user_id ∈ ids) then
      let* unconstrained := Py.get user "TrustedForDelegation" JNull in
      let delegation_type :=
        if Py.truthy unconstrained then "Unconstrained" else "Constrained" in
      let* sam := Py.get user "SamAccountName" JNull in
      Ok (attack_paths ++
          [{| path_type := delegation_type +:+ " Delegation";
              path_severity := "high";
              path_description :=
                "User " +:+ Py.str sam +:+ " has " +:+ Py.lower_string delegation_type
                +:+ " delegation enabled";
              path_path := [user_id];
              path_steps :=
                ["User " +:+ Py.str sam +:+ " " +:+ arrow
                 +:+ " Can delegate to services (Privilege Escalation)"] |}])
    else Ok attack_paths
  else Ok attack_paths.

Definition excluded_accounts : list string := ["Administrator"; "krbtgt"; "Guest"].

(** Body of rule 4, AS-REP roasting. *)
Definition asrep_rule (ids : gset string) (user : json)
    (attack_paths : list attack_path) : result (list attack_path) :=
  let* user_sam := Py.get user "SamAccountName" (JStr EmptyString) in
  let* lowered := Py.lower user_sam in
  if existsb (String.eqb lowered) (Py.lower_string <$> excluded_accounts) then Ok attack_paths
  else
    let* no_preauth := Py.get user "DoesNotRequirePreAuth" JNull in
    if Py.truthy no_preauth then
      let user_id := "user_" +:+ Py.str user_sam in
      if bool_decide (user_id ∈ ids) then
        Ok (attack_paths ++
            [{| path_type := "AS-REP Roasting";
                path_severity := "high";
                path_description :=
                  "User " +:+ Py.str user_sam
                  +:+ " does not require pre-authentication (AS-REP roasting)";
                path_path := [user_id];
                path_steps :=
                  ["User " +:+ Py.str user_sam +:+ " " +:+ arrow
                   +:+ " Vulnerable to AS-REP roasting"] |}])
      else Ok attack_paths
    else Ok attack_paths.

(** Body of rule 5, unconstrained delegation on computers that are not
    domain controllers. *)
Definition computer_delegation_rule (ids : gset string) (computer : json)
    (attack_paths : list attack_path) : result (list attack_path) :=
  let* unconstrained := Py.get computer "TrustedForDelegation" JNull in
  let* wanted :=
    (if Py.truthy unconstrained
     then let* dc := Py.get computer "IsDomainController" JNull in Ok (negb (Py.truthy dc))
     else Ok false) in
  if wanted then
    let* comp_id := comp_id_of computer in
    if bool_decide (comp_id ∈ ids) then
      let* sam := Py.get computer "SamAccountName" (JStr EmptyString) in
      let* name := Py.strip_dollar sam in
      let* sam' := Py.get computer "SamAccountName" (JStr EmptyString) in
      let* name' := Py.strip_dollar sam' in
      Ok (attack_paths ++
          [{| path_type := "Unconstrained Delegation";
              path_severity := "critical";
              path_description :=
                "Computer " +:+ name +:+ " has unconstrained delegation (non-DC)";
              path_path := [comp_id];
              path_steps :=
                ["Computer " +:+ name' +:+ " " +:+ arrow
                 +:+ " Unconstrained delegation allows privilege escalation"] |}])
    else Ok attack_paths
  else Ok attack_paths.

Definition domain_admins_group_id : string := "group_Domain Admins".

(** Rules 1 to 5 in order; rule 1 runs only when the Domain Admins group
    has a node. *)
Definition detect_attack_paths (data : json) (g : graph) : result (list attack_path) :=
  let ids := node_id_map g in
  let* paths1 :=
    (if bool_decide (domain_admins_group_id ∈ ids) then
       let* users := section data "Users" in
       for_each users (group_membership_rule ids) []
     else Ok []) in
  let* users := section data "Users" in
  let* paths2 := for_each users (kerberoasting_rule ids) paths1 in
  let* paths3 := for_each (high_risk_users g) (delegation_rule ids) paths2 in
  let* users := section data "Users" in
  let* paths4 := for_each users (asrep_rule ids) paths3 in
  let* computers := section data "Computers" in
  for_each computers (computer_delegation_rule ids) paths4.

(** ** Marking the attack-path edges (lines 2187-2201) *)

(** [f"{a}_{b}"], the key of the pair of ids [a], [b]. *)
Definition edge_key (a b : string) : string := a +:+ "_" +:+ b.

(** The keys of the consecutive pairs of one path. *)
Fixpoint path_edge_keys (path : list string) : list string :=
  match path with
  | a :: (b :: _) as rest => edge_key a b :: path_edge_keys rest
  | _ => []
  end.

Definition attack_path_edge_ids (attack_paths : list attack_path) : gset string :=
  list_to_set (concat ((fun p => path_edge_keys (path_path p)) <$> attack_paths)).

Definition mark_edge (keys : gset string) (e : edge) : edge :=
  if bool_decide (edge_key (edge_from e) (edge_to e) ∈ keys) || edge_attackPath e then
    {| edge_from := edge_from e; edge_to := edge_to e; edge_label := edge_label e;
       edge_color := "#dc3545"; edge_attackPath := true; edge_width := Some 3%Z |}
  else e.

(** The three lists [generate_graph_visualization] hands to [json.dumps];
    what follows in the method is rendering. *)
Definition generate_graph_visualization (data : json)
  : result (list node * list edge * list attack_path) :=
  let* g := build_graph data in
  let* attack_paths := detect_attack_paths data g in
  let keys := attack_path_edge_ids attack_paths in
  Ok (nodes g, mark_edge keys <$> edges g, attack_paths).

(** ** The user table (lines 1096-1115): which users it shows, in which order *)

(** [risk_sort_key]: the negated sum of the weights of the risk factors. *)
Definition risk_sort_key (u : json) : result Z :=
  let risk := 0%Z in
  let* spn := has_spns u in
  let risk := if spn then (risk + 1000)%Z else risk in
  let* deleg := has_delegation_flag u in
  let risk := if deleg then (risk + 500)%Z else risk in
  let* weak := has_weak_encryption u in
  let risk := if weak then (risk + 200)%Z else risk in
  let* da := in_group "Domain Admins" u in
  let risk := if da then (risk + 300)%Z else risk in
  Ok (- risk)%Z.

(** [sorted] calls [key] on every item, in order, before it compares. *)
Fixpoint keyed {A : Type} (key : A -> result Z) (l : list A) : result (list (Z * A)) :=
  match l with
  | [] => Ok []
  | x :: l' =>
      let* k := key x in
      let* r := keyed key l' in
      Ok ((k, x) :: r)
  end.

(** [x] goes before the first item whose key is not smaller than its own. *)
Fixpoint insert_by_key {A : Type} (x : Z * A) (l : list (Z * A)) : list (Z * A) :=
  match l with
  | [] => [x]
  | y :: l' => if (fst x <=? fst y)%Z then x :: y :: l' else y :: insert_by_key x l'
  end.

(** [sorted(l, key=key)]: the stable sort by ascending key; items with
    equal keys keep their order. *)
Definition sorted {A : Type} (key : A -> result Z) (l : list A) : result (list A) :=
  let* ks := keyed key l in
  Ok (snd <$> foldr insert_by_key [] ks).

(** [sorted_users[:500]], the users of the rows of the table. *)
Definition displayed_users (data : json) : result (list json) :=
  let* users := section data "Users" in
  let* sorted_users := sorted risk_sort_key users in
  Ok (take 500 sorted_users).

(** ** The recommendations ([generate_recommendations], lines 3273-3409)

    The method appends to the list [recommendations] one block after the
    other; every block below takes the list and returns it extended.  The
    texts of the items come first, [x] standing for the value the
    f-string substitutes. *)

(** Line 3279. *)
Definition kerberoasting_item (x : string) : string :=
  "<li><strong>Kerberoasting:</strong> "
  +:+ x
  +:+ " user accounts have SPNs. Move SPNs to managed service accounts (gMSA) or use Group "
  +:+ "Managed Service Accounts.</li>".

(** Line 3283. *)
Definition delegation_item (x : string) : string :=
  "<li><strong>Delegation:</strong> "
  +:+ x
  +:+ " user accounts have delegation enabled. Review and disable unnecessary delegation. "
  +:+ "Prefer constrained delegation over unconstrained.</li>".

(** Line 3290. *)
Definition computer_delegation_item (x : string) : string :=
  "<li><strong>Computer Delegation:</strong> "
  +:+ x
  +:+ " non-DC computers have delegation. This is a high-risk configuration that should be "
  +:+ "reviewed.</li>".

(** Line 3296. *)
Definition weak_encryption_item (x : string) : string :=
  "<li><strong>Weak Encryption:</strong> "
  +:+ x
  +:+ " accounts support DES or RC4. Disable these encryption types via Group Policy and "
  +:+ "update account settings.</li>".

(** Line 3301. *)
Definition privileged_accounts_item (x : string) : string :=
  "<li><strong>Privileged Accounts:</strong> "
  +:+ x
  +:+ " Domain/Enterprise Admins are not in Protected Users group. Add them to reduce "
  +:+ "credential theft risk.</li>".

(** Line 3305. *)
Definition inactive_accounts_item (x : string) : string :=
  "<li><strong>Inactive Accounts:</strong> "
  +:+ x
  +:+ " accounts haven't logged in for 90+ days. Review and disable/remove if no longer "
  +:+ "needed.</li>".

(** Line 3309. *)
Definition password_age_item (x : string) : string :=
  "<li><strong>Password Age:</strong> "
  +:+ x
  +:+ " accounts have passwords older than 365 days. Enforce password rotation policies.</li>".

(** Line 3313. *)
Definition krbtgt_password_item (x : string) : string :=
  "<li><strong>krbtgt Password:</strong> krbtgt password is "
  +:+ x
  +:+ " days old. Rotate krbtgt password (requires domain controller maintenance).</li>".

(** Line 3319. *)
Definition min_password_length_item (x : string) : string :=
  "<li><strong>Password Policy:</strong> Minimum password length is "
  +:+ x
  +:+ ". Consider increasing to 14+ characters for better security.</li>".

(** Line 3321. *)
Definition reversible_encryption_item : string :=
  "<li><strong>Password Policy:</strong> Reversible encryption is enabled. This is a "
  +:+ "critical security risk - disable immediately.</li>".

(** Line 3323. *)
Definition complexity_item : string :=
  "<li><strong>Password Policy:</strong> Password complexity is disabled. Enable it to "
  +:+ "require mixed case, numbers, and special characters.</li>".

(** Line 3325. *)
Definition lockout_item : string :=
  "<li><strong>Password Policy:</strong> Account lockout threshold is not set. Configure "
  +:+ "lockout after 3-10 failed attempts.</li>".

(** Line 3331. *)
Definition sid_filtering_item (x : string) : string :=
  "<li><strong>Trust Relationship:</strong> SID filtering is disabled for trust '"
  +:+ x
  +:+ "'. Enable SID filtering to prevent SID history attacks.</li>".

(** Line 3333. *)
Definition selective_authentication_item (x : string) : string :=
  "<li><strong>Trust Relationship:</strong> Selective authentication is disabled for trust "
  +:+ "'"
  +:+ x
  +:+ "'. Enable it to restrict cross-trust access.</li>".

(** Line 3339. *)
Definition antivirus_item (x : string) : string :=
  "<li><strong>Antivirus:</strong> "
  +:+ x
  +:+ " online computers do not have antivirus installed. Install and maintain antivirus on "
  +:+ "all systems.</li>".

(** Line 3343. *)
Definition bitlocker_item (x : string) : string :=
  "<li><strong>BitLocker:</strong> "
  +:+ x
  +:+ " online computers do not have BitLocker enabled. Enable full disk encryption on all "
  +:+ "systems.</li>".

(** Line 3347. *)
Definition firewall_item (x : string) : string :=
  "<li><strong>Firewall:</strong> "
  +:+ x
  +:+ " online computers have firewall disabled. Enable Windows Firewall on all systems.</li>".

(** Line 3352. *)
Definition ldap_signing_item : string :=
  "<li><strong>LDAP Signing:</strong> LDAP signing is not required. Enable LDAP signing to "
  +:+ "prevent man-in-the-middle attacks.</li>".

(** Line 3357. *)
Definition smb_client_signing_item : string :=
  "<li><strong>SMB Signing:</strong> SMB client signing is not required. Enable SMB "
  +:+ "signing to prevent relay attacks.</li>".

(** Line 3359. *)
Definition smb_server_signing_item : string :=
  "<li><strong>SMB Signing:</strong> SMB server signing is not required. Enable SMB "
  +:+ "signing to prevent relay attacks.</li>".

(** Line 3366. *)
Definition domain_mode_item (x : string) : string :=
  "<li><strong>Domain Mode:</strong> Domain is running in "
  +:+ x
  +:+ " mode. Consider upgrading to Windows Server 2016 or later for enhanced security "
  +:+ "features.</li>".

(** Line 3372. *)
Definition forest_mode_item (x : string) : string :=
  "<li><strong>Forest Mode:</strong> Forest is running in "
  +:+ x
  +:+ " mode. Consider upgrading to Windows Server 2016 or later for enhanced security "
  +:+ "features.</li>".

(** Line 3377. *)
Definition suspicious_accounts_item (x : string) : string :=
  "<li><strong>Suspicious Accounts:</strong> "
  +:+ x
  +:+ " accounts have security issues. Review and remediate immediately.</li>".

(** Line 3382. *)
Definition failed_logons_item (x : string) : string :=
  "<li><strong>Failed Logons:</strong> "
  +:+ x
  +:+ " failed logon attempts detected. Investigate potential brute-force attacks.</li>".

(** Line 3387. *)
Definition empty_groups_item (x : string) : string :=
  "<li><strong>Empty Groups:</strong> "
  +:+ x
  +:+ " empty groups found. Review and remove unused groups to reduce attack surface.</li>".

(** Line 3392. *)
Definition large_groups_item (x : string) : string :=
  "<li><strong>Large Groups:</strong> "
  +:+ x
  +:+ " groups have >1000 members. Review for over-privileged access and implement least "
  +:+ "privilege.</li>".

(** Line 3398. *)
Definition certificate_templates_item (x : string) : string :=
  "<li><strong>Certificate Templates:</strong> "
  +:+ x
  +:+ " certificate templates allow auto-enrollment without manager approval. This is a "
  +:+ "security risk.</li>".

(** Line 3404. *)
Definition certificates_item (x : string) : string :=
  "<li><strong>Certificates:</strong> "
  +:+ x
  +:+ " certificate authorities are expired. Renew or remove expired certificates.</li>".

(** Line 3407. *)
Definition no_issues_item : string :=
  "<li>No critical issues detected. Continue monitoring and maintain security best "
  +:+ "practices.</li>".

(** Lines 3277-3279. *)
Definition recommend_kerberoasting (data : json) (recommendations : list string)
  : result (list string) :=
  let* users := section data "Users" in
  let* with_spns := comprehension has_spns users in
  let users_with_spns := count with_spns in
  if (0 <? users_with_spns)%Z
  then Ok (recommendations ++ [kerberoasting_item (Py.dec users_with_spns)])
  else Ok recommendations.

(** Lines 3281-3283. *)
Definition recommend_delegation (data : json) (recommendations : list string)
  : result (list string) :=
  let* users := section data "Users" in
  let* with_delegation := comprehension has_delegation_flag users in
  let users_with_delegation := count with_delegation in
  if (0 <? users_with_delegation)%Z
  then Ok (recommendations ++ [delegation_item (Py.dec users_with_delegation)])
  else Ok recommendations.

(** Lines 3285-3290. *)
Definition recommend_computer_delegation (data : json) (recommendations : list string)
  : result (list string) :=
  let* computers := section data "Computers" in
  let* with_delegation := comprehension computer_with_delegation computers in
  let computers_with_delegation := count with_delegation in
  if (0 <? computers_with_delegation)%Z
  then Ok (recommendations
           ++ [computer_delegation_item (Py.dec computers_with_delegation)])
  else Ok recommendations.

(** Lines 3292-3296. *)
Definition recommend_weak_encryption (data : json) (recommendations : list string)
  : result (list string) :=
  let* users := section data "Users" in
  let* weak := comprehension weak_encryption_user users in
  let weak_encryption := count weak in
  if (0 <? weak_encryption)%Z
  then Ok (recommendations ++ [weak_encryption_item (Py.dec weak_encryption)])
  else Ok recommendations.

(** Lines 3298-3301. *)
Definition recommend_protected_users (data : json) (recommendations : list string)
  : result (list string) :=
  let* users := section data "Users" in
  let* domain_admins := comprehension (in_group "Domain Admins") users in
  let* unprotected_admins :=
    comprehension (not_in_group "Protected Users") domain_admins in
  if (0 <? count unprotected_admins)%Z
  then Ok (recommendations
           ++ [privileged_accounts_item (Py.dec (count unprotected_admins))])
  else Ok recommendations.

(** Lines 3303-3305. *)
Definition recommend_inactive (data : json) (recommendations : list string)
  : result (list string) :=
  let* users := section data "Users" in
  let* inactive_users := comprehension (counter_above "DaysSinceLastLogon" 90) users in
  let inactive := count inactive_users in
  if (0 <? inactive)%Z
  then Ok (recommendations ++ [inactive_accounts_item (Py.dec inactive)])
  else Ok recommendations.

(** Lines 3307-3309. *)
Definition recommend_password_age (data : json) (recommendations : list string)
  : result (list string) :=
  let* users := section data "Users" in
  let* old := comprehension (counter_above "DaysSincePasswordChange" 365) users in
  let old_passwords := count old in
  if (0 <? old_passwords)%Z
  then Ok (recommendations ++ [password_age_item (Py.dec old_passwords)])
  else Ok recommendations.

(** Lines 3311-3313. *)
Definition recommend_krbtgt (data : json) (recommendations : list string)
  : result (list string) :=
  let* krbtgt := Py.get data "KrbtgtInfo" JNull in
  let* old :=
    (if Py.truthy krbtgt
     then let* days := Py.get krbtgt "DaysSincePasswordChange" (JInt 0) in Py.gt days 180
     else Ok false) in
  if old then
    let* days := Py.get krbtgt "DaysSincePasswordChange" JNull in
    Ok (recommendations ++ [krbtgt_password_item (Py.str days)])
  else Ok recommendations.

(** Lines 3315-3325. *)
Definition recommend_password_policy (data : json) (recommendations : list string)
  : result (list string) :=
  let* policy := Py.get data "PasswordPolicy" JNull in
  if Py.truthy policy then
    let* min_length := Py.get policy "MinPasswordLength" (JInt 0) in
    let* short := Py.lt min_length 14 in
    let* recommendations :=
      (if short then
         let* shown := Py.get policy "MinPasswordLength" JNull in
         Ok (recommendations ++ [min_password_length_item (Py.str shown)])
       else Ok recommendations) in
    let* reversible := Py.get policy "ReversibleEncryptionEnabled" JNull in
    let recommendations :=
      if Py.truthy reversible then recommendations ++ [reversible_encryption_item]
      else recommendations in
    let* complexity := Py.get policy "ComplexityEnabled" JNull in
    let recommendations :=
      if negb (Py.truthy complexity) then recommendations ++ [complexity_item]
      else recommendations in
    let* lockout := Py.get policy "LockoutThreshold" JNull in
    let* unset :=
      (if negb (Py.truthy lockout) then Ok true
       else let* lockout' := Py.get policy "LockoutThreshold" JNull in
            Ok (Py.eq_int lockout' 0)) in
    Ok (if unset then recommendations ++ [lockout_item] else recommendations)
  else Ok recommendations.

(** Body of the loop over [TrustRelationships] (lines 3329-3333). *)
Definition recommend_trust (trust : json) (recommendations : list string)
  : result (list string) :=
  let* sid_filtering := Py.get trust "SIDFilteringForestAware" JNull in
  let* recommendations :=
    (if negb (Py.truthy sid_filtering) then
       let* name := Py.get trust "Name" JNull in
       Ok (recommendations ++ [sid_filtering_item (Py.str name)])
     else Ok recommendations) in
  let* selective := Py.get trust "SelectiveAuthentication" JNull in
  if negb (Py.truthy selective) then
    let* name := Py.get trust "Name" JNull in
    Ok (recommendations ++ [selective_authentication_item (Py.str name)])
  else Ok recommendations.

(** Lines 3327-3333. *)
Definition recommend_trusts (data : json) (recommendations : list string)
  : result (list string) :=
  let* trusts := section data "TrustRelationships" in
  for_each trusts recommend_trust recommendations.

(** [c.get(product, {}).get('Online') and not c.get(product, {}).get(property)] *)
Definition online_without (product property : string) (c : json) : result bool :=
  let* status := Py.get c product (JObj []) in
  let* online := Py.get status "Online" JNull in
  if Py.truthy online then
    let* status' := Py.get c product (JObj []) in
    let* present := Py.get status' property JNull in
    Ok (negb (Py.truthy present))
  else Ok false.

(** Lines 3335-3347. *)
Definition recommend_computer_security (data : json) (recommendations : list string)
  : result (list string) :=
  let* security_status := Py.get data "ComputerSecurityStatus" (JList []) in
  let* computers := Py.iter security_status in
  let* computers_without_av :=
    comprehension (online_without "Antivirus" "Installed") computers in
  let recommendations :=
    if Py.truthy (JList computers_without_av)
    then recommendations ++ [antivirus_item (Py.dec (count computers_without_av))]
    else recommendations in
  let* computers := Py.iter security_status in
  let* computers_without_bitlocker :=
    comprehension (online_without "BitLocker" "Enabled") computers in
  let recommendations :=
    if Py.truthy (JList computers_without_bitlocker)
    then recommendations ++ [bitlocker_item (Py.dec (count computers_without_bitlocker))]
    else recommendations in
  let* computers := Py.iter security_status in
  let* computers_without_firewall :=
    comprehension (online_without "Firewall" "Enabled") computers in
  Ok (if Py.truthy (JList computers_without_firewall)
      then recommendations ++ [firewall_item (Py.dec (count computers_without_firewall))]
      else recommendations).

(** Lines 3349-3352. *)
Definition recommend_ldap_signing (data : json) (recommendations : list string)
  : result (list string) :=
  let* ldap_policy := Py.get data "LDAPPolicy" JNull in
  let* unsigned :=
    (if Py.truthy ldap_policy
     then let* required := Py.get ldap_policy "LDAPSigningRequired" JNull in
          Ok (negb (Py.truthy required))
     else Ok false) in
  Ok (if unsigned then recommendations ++ [ldap_signing_item] else recommendations).

(** Lines 3354-3359. *)
Definition recommend_smb_signing (data : json) (recommendations : list string)
  : result (list string) :=
  let* smb_policy := Py.get data "SMBPolicy" JNull in
  if Py.truthy smb_policy then
    let* client := Py.get smb_policy "ClientSigningRequired" JNull in
    let recommendations :=
      if negb (Py.truthy client) then recommendations ++ [smb_client_signing_item]
      else recommendations in
    let* server := Py.get smb_policy "ServerSigningRequired" JNull in
    Ok (if negb (Py.truthy server) then recommendations ++ [smb_server_signing_item]
        else recommendations)
  else Ok recommendations.

(** Lines 3361-3366. *)
Definition recommend_domain_mode (data : json) (recommendations : list string)
  : result (list string) :=
  let* domain_info := Py.get data "DomainInfo" JNull in
  if Py.truthy domain_info then
    let* domain_mode := Py.get domain_info "DomainMode" (JStr EmptyString) in
    let* old :=
      (if Py.truthy domain_mode then Py.str_in_value "2008" domain_mode else Ok false) in
    Ok (if old then recommendations ++ [domain_mode_item (Py.str domain_mode)]
        else recommendations)
  else Ok recommendations.

(** Lines 3368-3372. *)
Definition recommend_forest_mode (data : json) (recommendations : list string)
  : result (list string) :=
  let* forest_info := Py.get data "ForestInfo" JNull in
  if Py.truthy forest_info then
    let* forest_mode := Py.get forest_info "ForestMode" (JStr EmptyString) in
    let* old :=
      (if Py.truthy forest_mode then Py.str_in_value "2008" forest_mode else Ok false) in
    Ok (if old then recommendations ++ [forest_mode_item (Py.str forest_mode)]
        else recommendations)
  else Ok recommendations.

(** Lines 3374-3377. *)
Definition recommend_suspicious (data : json) (recommendations : list string)
  : result (list string) :=
  let* suspicious := Py.get data "SuspiciousAccounts" (JList []) in
  if Py.truthy suspicious then
    let* n := Py.len suspicious in
    Ok (recommendations ++ [suspicious_accounts_item (Py.dec n)])
  else Ok recommendations.

(** [v and len(v) > n] *)
Definition longer_than (v : json) (n : Z) : result bool :=
  if Py.truthy v then let* k := Py.len v in Ok (n <? k)%Z else Ok false.

(** Lines 3379-3382. *)
Definition recommend_failed_logons (data : json) (recommendations : list string)
  : result (list string) :=
  let* failed_logons := Py.get data "FailedLogons" (JList []) in
  let* many := longer_than failed_logons 50 in
  if many then
    let* n := Py.len failed_logons in
    Ok (recommendations ++ [failed_logons_item (Py.dec n)])
  else Ok recommendations.

(** Lines 3384-3387. *)
Definition recommend_empty_groups (data : json) (recommendations : list string)
  : result (list string) :=
  let* empty_groups := Py.get data "EmptyGroups" (JList []) in
  let* many := longer_than empty_groups 10 in
  if many then
    let* n := Py.len empty_groups in
    Ok (recommendations ++ [empty_groups_item (Py.dec n)])
  else Ok recommendations.

(** Lines 3389-3392. *)
Definition recommend_large_groups (data : json) (recommendations : list string)
  : result (list string) :=
  let* large_groups := Py.get data "LargeGroups" (JList []) in
  if Py.truthy large_groups then
    let* n := Py.len large_groups in
    Ok (recommendations ++ [large_groups_item (Py.dec n)])
  else Ok recommendations.

(** [not t.get('RequiresManagerApproval') and t.get('AutoEnrollment')] *)
Definition dangerous_template (t : json) : result bool :=
  let* approval := Py.get t "RequiresManagerApproval" JNull in
  if negb (Py.truthy approval) then
    let* auto := Py.get t "AutoEnrollment" JNull in
    Ok (Py.truthy auto)
  else Ok false.

(** Lines 3394-3398. *)
Definition recommend_certificate_templates (data : json) (recommendations : list string)
  : result (list string) :=
  let* cert_templates := section data "CertificateTemplates" in
  let* dangerous_templates := comprehension dangerous_template cert_templates in
  Ok (if Py.truthy (JList dangerous_templates)
      then recommendations
           ++ [certificate_templates_item (Py.dec (count dangerous_templates))]
      else recommendations).

(** [ca.get('IsExpired')] *)
Definition is_expired (ca : json) : result bool :=
  let* expired := Py.get ca "IsExpired" JNull in
  Ok (Py.truthy expired).

(** Lines 3400-3404. *)
Definition recommend_certificates (data : json) (recommendations : list string)
  : result (list string) :=
  let* cas := section data "CertificateAuthorities" in
  let* expired_cas := comprehension is_expired cas in
  Ok (if Py.truthy (JList expired_cas)
      then recommendations ++ [certificates_item (Py.dec (count expired_cas))]
      else recommendations).

(** The list [recommendations] when the method reaches its [return]
    (lines 3275-3407): it starts empty, every block extends it in turn,
    and the last lines fill it when it is still empty. *)
Definition recommendations_of (data : json) : result (list string) :=
  let recommendations := [] in
  let* recommendations := recommend_kerberoasting data recommendations in
  let* recommendations := recommend_delegation data recommendations in
  let* recommendations := recommend_computer_delegation data recommendations in
  let* recommendations := recommend_weak_encryption data recommendations in
  let* recommendations := recommend_protected_users data recommendations in
  let* recommendations := recommend_inactive data recommendations in
  let* recommendations := recommend_password_age data recommendations in
  let* recommendations := recommend_krbtgt data recommendations in
  let* recommendations := recommend_password_policy data recommendations in
  let* recommendations := recommend_trusts data recommendations in
  let* recommendations := recommend_computer_security data recommendations in
  let* recommendations := recommend_ldap_signing data recommendations in
  let* recommendations := recommend_smb_signing data recommendations in
  let* recommendations := recommend_domain_mode data recommendations in
  let* recommendations := recommend_forest_mode data recommendations in
  let* recommendations := recommend_suspicious data recommendations in
  let* recommendations := recommend_failed_logons data recommendations in
  let* recommendations := recommend_empty_groups data recommendations in
  let* recommendations := recommend_large_groups data recommendations in
  let* recommendations := recommend_certificate_templates data recommendations in
  let* recommendations := recommend_certificates data recommendations in
  Ok (match recommendations with
      | [] => [no_issues_item]
      | _ => recommendations
      end).

(** Line 3409. *)
Definition generate_recommendations (data : json) : result string :=
  let* recommendations := recommendations_of data in
  Ok ("<ul>" +:+ String.concat EmptyString recommendations +:+ "</ul>").

(** ** The krbtgt panel ([generate_krbtgt_info], lines 1546-1581)

    The method returns the empty string when the snapshot has no
    [KrbtgtInfo]; otherwise it fills a fixed template with the five
    values of a [krbtgt_panel], computed in this order. *)

Record krbtgt_panel : Type := {
  panel_password_last_set : json;
  panel_days : json;
  panel_status_badge : string;
  panel_alert_class : string;
  panel_alert_text : string
}.

(** [s] between double quotes, as the literals write an attribute value. *)
Definition quoted (s : string) : string :=
  String Py.dquote (s +:+ String Py.dquote EmptyString).

(** The two values of [status_badge] (line 1553). *)
Definition badge_ok : string :=
  "<span class=" +:+ quoted "badge badge-green" +:+ ">OK</span>".

Definition badge_critical : string :=
  "<span class=" +:+ quoted "badge badge-red" +:+ ">CRITICAL</span>".

(** [None] stands for the empty string of line 1550. *)
Definition generate_krbtgt_info (data : json) : result (option krbtgt_panel) :=
  let* krbtgt := Py.get data "KrbtgtInfo" JNull in
  if negb (Py.truthy krbtgt) then Ok None
  else
    let* days := Py.get krbtgt "DaysSincePasswordChange" (JInt 0) in
    let* recent := Py.lt days 180 in
    let status_badge := if recent then badge_ok else badge_critical in
    let* last_set := Py.get krbtgt "PasswordLastSet" (JStr "Never") in
    let* due := Py.ge days 150 in
    let* due' := Py.ge days 150 in
    Ok (Some {| panel_password_last_set := last_set;
                panel_days := days;
                panel_status_badge := status_badge;
                panel_alert_class := if due then "alert-warning" else "alert-info";
                panel_alert_text :=
                  if due'
                  then "<strong>Action Required:</strong> krbtgt password should be "
                       +:+ "changed every 180 days. Consider rotating it soon."
                  else "<strong>Status:</strong> krbtgt password is within acceptable age."
             |}).

(** ** Vocabulary of the statements *)

(** The text of [x.get('SamAccountName')] inside a node id. *)
Definition account_name (x : json) : string :=
  match Py.get x "SamAccountName" JNull with
  | Ok v => Py.str v
  | Raise _ => EmptyString
  end.

(** The text of [group.get('Name', '')] inside a node id. *)
Definition group_name (group : json) : string :=
  match Py.get group "Name" (JStr EmptyString) with
  | Ok v => Py.str v
  | Raise _ => EmptyString
  end.

(** The test that decides whether a user gets a node. *)
Definition user_wanted (user : json) : result bool :=
  let* risk := user_risk user in
  user_included risk user.

(** The test that decides whether a computer gets a node. *)
Definition computer_wanted (computer : json) : result bool :=
  let* deleg := has_delegation_flag computer in
  if deleg then Ok true
  else let* dc := Py.get computer "IsDomainController" JNull in Ok (Py.truthy dc).

(** The test that decides whether a group gets a node. *)
Definition group_wanted (group : json) : result bool :=
  let* name := Py.get group "Name" (JStr EmptyString) in
  Ok (Py.in_strs name privileged_groups).

(** The text of a user's description, when the record has one. *)
Definition description_text (user : json) : string :=
  match Py.get user "Description" (JStr EmptyString) with
  | Ok (JStr d) => d
  | _ => EmptyString
  end.

(** The service-account heuristic on the texts it reads: the lower-cased
    name starts with [svc_], or the lower-cased name or description
    contains [service]. *)
Definition looks_like_service (name description : string) : bool :=
  String.prefix "svc_" (Py.lower_string name)
  || Py.contains "service" (Py.lower_string name)
  || Py.contains "service" (Py.lower_string description).

(** A user record that carries an account name other than krbtgt (in any
    case) and at least one SPN. *)
Definition kerberoastable (user : json) : bool :=
  match Py.get user "SamAccountName" JNull with
  | Ok (JStr name) =>
      negb (String.eqb (Py.lower_string name) "krbtgt")
      && match has_spns user with Ok b => b | Raise _ => false end
  | _ => false
  end.

(** [p] is the Kerberoasting finding of [user]. *)
Definition kerberoasting_finding_of (user : json) (p : attack_path) : Prop :=
  path_type p = "Kerberoasting" /\
  path_path p = ["user_" +:+ account_name user] /\
  path_severity p =
    if looks_like_service (account_name user) (description_text user)
    then "medium" else "high".

(** The severity rule of the Kerberoasting row read literally from the
    specification: the name starts with [svc_], or the name or the
    description contains [service], as written. *)
Definition kerberoasting_severity_as_written (name description : string) : string :=
  if String.prefix "svc_" name || Py.contains "service" name
     || Py.contains "service" description
  then "medium" else "high".

Definition ids_of (ns : list node) : list string := node_id <$> ns.

(** The weight [risk_sort_key] gives a user before it negates it. *)
Definition risk_of (u : json) : Z :=
  match risk_sort_key u with
  | Ok k => (- k)%Z
  | Raise _ => 0%Z
  end.

(** The item opens with the title [title]. *)
Definition titled (title item : string) : bool :=
  String.prefix ("<li><strong>" +:+ title +:+ ":</strong>") item.

(** Some item of [r] opens with the title [title]. *)
Definition mentions (r : list string) (title : string) : Prop :=
  exists item, item ∈ r /\ titled title item = true.

(** The findings a rule can emit: their type and their severities. *)
Definition finding_of (types severities : list string) (p : attack_path) : Prop :=
  path_type p ∈ types /\ path_severity p ∈ severities.

(** A user node is red for the high tier and amber for the medium tier. *)
Definition user_node_tier (n : node) : Prop :=
  node_type n = "user" ->
  (node_risk n = Some "high" /\ node_color n = "#dc3545") \/
  (node_risk n = Some "medium" /\ node_color n = "#ffc107").

(** What stands behind a finding: the record and the condition of the
    rule that emitted it. *)
Definition by_membership (u : json) (p : attack_path) : Prop :=
  exists name member_of,
    Py.get u "SamAccountName" (JStr EmptyString) = Ok (JStr name) /\
    Py.lower_string name <> "administrator" /\
    _get_member_of u = Ok member_of /\
    Py.str_in "Domain Admins" member_of = true /\
    path_type p = "Group Membership" /\
    path_path p = ["user_" +:+ name; "group_Domain Admins"] /\
    path_severity p =
      (if Py.str_in "Protected Users" member_of then "high" else "critical").

Definition by_spns (u : json) (p : attack_path) : Prop :=
  exists name,
    Py.get u "SamAccountName" (JStr EmptyString) = Ok (JStr name) /\
    Py.lower_string name <> "krbtgt" /\
    has_spns u = Ok true /\
    path_type p = "Kerberoasting" /\
    path_path p = ["user_" +:+ name].

Definition by_delegation (u : json) (p : attack_path) : Prop :=
  exists t,
    has_delegation_flag u = Ok true /\
    Py.get u "TrustedForDelegation" JNull = Ok t /\
    path_type p = (if Py.truthy t then "Unconstrained Delegation"
                   else "Constrained Delegation") /\
    path_severity p = "high" /\
    path_path p = ["user_" +:+ account_name u].

Definition by_preauth (u : json) (p : attack_path) : Prop :=
  exists name flag,
    Py.get u "SamAccountName" (JStr EmptyString) = Ok (JStr name) /\
    ~ Py.lower_string name ∈ ["administrator"; "krbtgt"; "guest"] /\
    Py.get u "DoesNotRequirePreAuth" JNull = Ok flag /\
    Py.truthy flag = true /\
    path_type p = "AS-REP Roasting" /\
    path_severity p = "high" /\
    path_path p = ["user_" +:+ name].

Definition by_computer_delegation (c : json) (p : attack_path) : Prop :=
  exists flag dc,
    Py.get c "TrustedForDelegation" JNull = Ok flag /\
    Py.truthy flag = true /\
    Py.get c "IsDomainController" JNull = Ok dc /\
    Py.truthy dc = false /\
    path_type p = "Unconstrained Delegation" /\
    path_severity p = "critical" /\
    path_path p = ["comp_" +:+ account_name c].

Definition justified (users computers : list json) (p : attack_path) : Prop :=
  (exists u, u ∈ users /\
             (by_membership u p \/ by_spns u p \/ by_delegation u p \/ by_preauth u p)) \/
  (exists c, c ∈ computers /\ by_computer_delegation c p).

(** ** Example snapshots *)

Definition obj_users (users : list json) : json := JObj [("Users", JList users)].

(** The scenario of the specification: one service account with one SPN. *)
Definition snapshot_svc_sql : json :=
  obj_users [JObj [("SamAccountName", JStr "svc_sql");
                   ("SPNs", JList [JStr "MSSQLSvc/host:1433"])]].

(** A snapshot whose event statistics carry a negative count. *)
Definition snapshot_negative_events : json :=
  JObj [("Statistics", JObj [("NTLMEventCount", JInt (-50))])].



(** An upper-case service account with one SPN. *)
Definition snapshot_upper_svc : json :=
  obj_users [JObj [("SamAccountName", JStr "SVC_SQL");
                   ("SPNs", JList [JStr "MSSQLSvc/host:1433"])]].

Definition user_bob_admin : json :=
  JObj [("SamAccountName", JStr "bob"); ("MemberOf", JList [JStr "Domain Admins"])].

Definition group_domain_admins : json :=
  JObj [("Name", JStr "Domain Admins");
        ("Members", JList [JObj [("SamAccountName", JStr "bob")]])].

(** A Domain Admins member, with the group among the security groups. *)
Definition snapshot_admin_with_group : json :=
  JObj [("Users", JList [user_bob_admin]);
        ("SecurityGroups", JList [group_domain_admins])].

(** The same member in a snapshot that has no [SecurityGroups] section. *)
Definition snapshot_admin_without_group : json := obj_users [user_bob_admin].

(** A Domain Admins member with an SPN, and no [SecurityGroups] section. *)
Definition snapshot_admin_spn_without_group : json :=
  obj_users [JObj [("SamAccountName", JStr "ivan");
                   ("MemberOf", JList [JStr "Domain Admins"]);
                   ("SPNs", JList [JStr "HTTP/c"])]].

Definition user_carol_no_preauth : json :=
  JObj [("SamAccountName", JStr "carol"); ("DoesNotRequirePreAuth", JBool true)].

(** A user whose only risk factor is the missing pre-authentication. *)
Definition snapshot_no_preauth_only : json := obj_users [user_carol_no_preauth].

Definition user_dave_no_preauth : json :=
  JObj [("SamAccountName", JStr "dave"); ("SPNs", JList [JStr "HTTP/web"]);
        ("DoesNotRequirePreAuth", JBool true)].

(** A user with an SPN and no pre-authentication. *)
Definition snapshot_no_preauth_spn : json := obj_users [user_dave_no_preauth].



(** A user record without the [SamAccountName] key, with an SPN and
    without pre-authentication. *)
Definition user_nameless : json :=
  JObj [("SPNs", JList [JStr "HTTP/web01"]); ("DoesNotRequirePreAuth", JBool true)].

Definition snapshot_nameless_user : json := obj_users [user_nameless].




(** The name krbtgt written with U+212A KELVIN SIGN, bytes E2 84 AA, for
    its first letter. *)
Definition kelvin_rbtgt : string :=
  String (ascii_of_N 226) (String (ascii_of_N 132) (String (ascii_of_N 170) "rbtgt")).

Definition user_kelvin_rbtgt : json :=
  JObj [("SamAccountName", JStr kelvin_rbtgt);
        ("SPNs", JList [JStr "HTTP/web01"]);
        ("DoesNotRequirePreAuth", JBool true)].

Definition snapshot_kelvin_rbtgt : json := obj_users [user_kelvin_rbtgt].

(** A user whose [EncryptionTypes] is [null]. *)
Definition snapshot_null_encryption : json :=
  obj_users [JObj [("SamAccountName", JStr "frank"); ("EncryptionTypes", JNull)]].

(** A user with an SPN whose [Description] is [null]. *)
Definition snapshot_null_description : json :=
  obj_users [JObj [("SamAccountName", JStr "grace"); ("SPNs", JList [JStr "HTTP/b"]);
                   ("Description", JNull)]].

(** A user whose [SPNs] is [null]. *)
Definition snapshot_null_spns : json :=
  obj_users [JObj [("SamAccountName", JStr "heidi"); ("SPNs", JNull)]].

(** A user and a member server that are both trusted for delegation. *)
Definition snapshot_delegation : json :=
  JObj [("Users", JList [JObj [("SamAccountName", JStr "svc_web");
                               ("TrustedForDelegation", JBool true)]]);
        ("Computers", JList [JObj [("SamAccountName", JStr "SRV01$");
                                   ("TrustedForDelegation", JBool true)]])].

(** The delegation edge of [snapshot_delegation], after the marking. *)
Definition edge_svc_web_srv01 : edge :=
  {| edge_from := "user_svc_web"; edge_to := "comp_SRV01$"; edge_label := "DelegatesTo";
     edge_color := "#dc3545"; edge_attackPath := true; edge_width := Some 3%Z |}.

(** A user whose only risk factor is an RC4 key. *)
Definition snapshot_weak_encryption : json :=
  obj_users [JObj [("SamAccountName", JStr "legacy");
                   ("EncryptionTypes", JList [JStr "RC4"])]].

(** Three users in the order of the snapshot: two with one SPN each around
    a Domain Admins member with a delegation flag and an RC4 key. *)
Definition user_plain_spn (name : string) : json :=
  JObj [("SamAccountName", JStr name); ("SPNs", JList [JStr "HTTP/web"])].

Definition user_admin_rc4_delegation : json :=
  JObj [("SamAccountName", JStr "da_legacy");
        ("TrustedForDelegation", JBool true);
        ("EncryptionTypes", JList [JStr "RC4"]);
        ("MemberOf", JList [JStr "Domain Admins"])].

Definition three_users : list json :=
  [JObj [("SamAccountName", JStr "guest1")]; user_admin_rc4_delegation;
   user_plain_spn "svc_a"].

Definition snapshot_three_users : json := obj_users three_users.

(** A snapshot whose only weakness is a short minimum password length. *)
Definition snapshot_short_passwords : json :=
  JObj [("PasswordPolicy",
         JObj [("MinPasswordLength", JInt 8); ("ComplexityEnabled", JBool true);
               ("LockoutThreshold", JInt 5)])].

(** Unconstrained delegation on a user and two stale accounts. *)
Definition snapshot_delegation_and_stale : json :=
  obj_users [JObj [("SamAccountName", JStr "svc_web"); ("TrustedForDelegation", JBool true)];
             JObj [("SamAccountName", JStr "old1"); ("DaysSinceLastLogon", JInt 400)];
             JObj [("SamAccountName", JStr "old2"); ("DaysSinceLastLogon", JInt 120);
                   ("DaysSincePasswordChange", JInt 500)]].

(** A krbtgt key that is exactly 180 days old. *)
Definition snapshot_krbtgt_180 : json :=
  JObj [("KrbtgtInfo", JObj [("DaysSincePasswordChange", JInt 180)])].

(** ** Vocabulary of the proofs *)

(** [grows g g' out]: from [g] to [g'] the nodes with ids [out] were
    added, and [node_id_map] was extended by the same ids. *)
Definition grows (g g' : graph) (out : list string) : Prop :=
  ids_of (nodes g') = ids_of (nodes g) ++ out /\
  node_id_map g' = list_to_set out ∪ node_id_map g.

(** The ids of the nodes of the finished graph, in order: the domain,
    the wanted users, the privileged groups, the wanted computers; and
    [node_id_map] holds exactly these ids. *)
Definition graph_ids (data : json) (users groups computers : list json) : list string :=
  ("domain_" +:+ Py.str (default (JStr "DOMAIN")
                           (match data with JObj f => Py.assoc "Domain" f | _ => None end)))
  :: (((fun u => "user_" +:+ account_name u) <$> filter (fun u => user_wanted u = Ok true) users)
  ++ ((fun g => "group_" +:+ group_name g) <$> filter (fun g => group_wanted g = Ok true) groups)
  ++ ((fun c => "comp_" +:+ account_name c)
        <$> filter (fun c => computer_wanted c = Ok true) computers)).

(** A loop body that only appends to its accumulator. *)
Definition appender {A B : Type} (body : A -> list B -> result (list B)) : Prop :=
  forall x acc, body x acc = (let* out := body x [] in Ok (acc ++ out)).

Definition ids_known (ids : gset string) (p : attack_path) : Prop :=
  forall x, x ∈ path_path p -> x ∈ ids.

(** The two shapes of a path: one node, or a user followed by the Domain
    Admins group. *)
Definition path_shape (p : attack_path) : Prop :=
  (exists x, path_path p = [x]) \/
  (exists s, path_path p = ["user_" +:+ s; domain_admins_group_id]).

Definition finding_wf (ids : gset string) (p : attack_path) : Prop :=
  ids_known ids p /\ path_shape p.

(** The findings of a run, rule by rule. *)
Inductive findings_by_rule (data : json) (g : graph) : list attack_path -> Prop :=
| Findings (users computers : list json)
    (membership kerberoast deleg asrep computer : list (list attack_path)) :
    section data "Users" = Ok users ->
    section data "Computers" = Ok computers ->
    (if bool_decide (domain_admins_group_id ∈ node_id_map g)
     then Forall2 (fun u out => group_membership_rule (node_id_map g) u [] = Ok out)
            users membership
     else membership = []) ->
    Forall2 (fun u out => kerberoasting_rule (node_id_map g) u [] = Ok out)
      users kerberoast ->
    Forall2 (fun u out => delegation_rule (node_id_map g) u [] = Ok out)
      (high_risk_users g) deleg ->
    Forall2 (fun u out => asrep_rule (node_id_map g) u [] = Ok out) users asrep ->
    Forall2 (fun c out => computer_delegation_rule (node_id_map g) c [] = Ok out)
      computers computer ->
    findings_by_rule data g
      (concat membership ++ concat kerberoast ++ concat deleg
       ++ concat asrep ++ concat computer).

(** The first character of an id tells the kind of its node. *)
Definition first_char (s : string) : option ascii :=
  match s with
  | EmptyString => None
  | String c _ => Some c
  end.

(** The membership edges run from the group to the user and are born
    without the flag. *)
Definition member_edge_ok (e : edge) : Prop :=
  edge_label e = "MemberOf" ->
  first_char (edge_from e) = Some "g"%char /\ edge_attackPath e = false.

Definition member_edges_ok (g : graph) : Prop := Forall member_edge_ok (edges g).

(** The three kinds of edge the builder draws, [d] being the id of the
    domain node: from the domain to a user, a group or a computer; from
    a group to a member; from a user to a computer it delegates to.  Only
    the last kind is born with the attack-path flag. *)
Definition edge_kind_ok (d : string) (e : edge) : Prop :=
  (edge_from e = d /\ (edge_label e = "Member" \/ edge_label e = "Contains") /\
   edge_attackPath e = false) \/
  (first_char (edge_from e) = Some "g"%char /\ edge_label e = "MemberOf" /\
   edge_attackPath e = false) \/
  (first_char (edge_from e) = Some "u"%char /\ edge_label e = "DelegatesTo" /\
   edge_attackPath e = true).

Definition edges_inv (d : string) (g : graph) : Prop :=
  d ∈ node_id_map g /\
  Forall (fun e => edge_kind_ok d e /\
                   edge_from e ∈ node_id_map g /\ edge_to e ∈ node_id_map g) (edges g).

(** The blocks in the order of the method. *)
Definition recommendation_blocks : list (json -> list string -> result (list string)) :=
  [recommend_kerberoasting; recommend_delegation; recommend_computer_delegation;
   recommend_weak_encryption; recommend_protected_users; recommend_inactive;
   recommend_password_age; recommend_krbtgt; recommend_password_policy;
   recommend_trusts; recommend_computer_security; recommend_ldap_signing;
   recommend_smb_signing; recommend_domain_mode; recommend_forest_mode;
   recommend_suspicious; recommend_failed_logons; recommend_empty_groups;
   recommend_large_groups; recommend_certificate_templates; recommend_certificates].

(** The item carries one of the titles [ts]. *)
Definition titled_in (ts : list string) (item : string) : Prop :=
  existsb (fun t => titled t item) ts = true.

(** A block that only appends items titled from [ts]. *)
Definition emits (ts : list string)
    (block : json -> list string -> result (list string)) : Prop :=
  forall data recs recs',
    block data recs = Ok recs' ->
    exists out, recs' = recs ++ out /\ Forall (titled_in ts) out.

(** The titles of the blocks, in the order of [recommendation_blocks]. *)
Definition block_titles : list (list string) :=
  [["Kerberoasting"]; ["Delegation"]; ["Computer Delegation"]; ["Weak Encryption"];
   ["Privileged Accounts"]; ["Inactive Accounts"]; ["Password Age"];
   ["krbtgt Password"]; ["Password Policy"]; ["Trust Relationship"];
   ["Antivirus"; "BitLocker"; "Firewall"]; ["LDAP Signing"]; ["SMB Signing"];
   ["Domain Mode"]; ["Forest Mode"]; ["Suspicious Accounts"]; ["Failed Logons"];
   ["Empty Groups"]; ["Large Groups"]; ["Certificate Templates"]; ["Certificates"]].

(** [[item(str(n))]] when [n > 0], nothing otherwise. *)
Definition item_if_positive (item : string -> string) (n : Z) : list string :=
  if (0 <? n)%Z then [item (Py.dec n)] else [].

(** The opening of an item with the title [title]. *)
Definition title_tag (title : string) : string := "<li><strong>" +:+ title +:+ ":</strong>".

(** Two titles of which one opens the other. *)
Definition titles_overlap (t1 t2 : string) : bool :=
  String.prefix (title_tag t1) (title_tag t2) || String.prefix (title_tag t2) (title_tag t1).

(** ** The score formulas on typed records

    The conditions of the six score axes in the words of the
    specification (section 4.1), on records whose fields carry the types
    the collector writes.  They are a second definition of the sub-scores,
    to be compared with [calculate_risk_scores] on the JSON form of the
    records. *)

Record user_record : Type := {
  sam_account_name : string;
  service_principal_names : list string;
  trusted_for_delegation : bool;
  trusted_to_auth_for_delegation : bool;
  encryption_types : list string;
  use_des_key_only : bool;
  groups_of : list string;
  days_since_last_logon : option Z;
  days_since_password_change : option Z
}.

Record computer_record : Type := {
  computer_account_name : string;
  computer_trusted_for_delegation : bool;
  computer_trusted_to_auth_for_delegation : bool;
  constrained_delegation : list string;
  is_domain_controller : bool
}.

Definition json_strings (l : list string) : json := JList (JStr <$> l).

(** A day counter, [null] when the collector has no date. *)
Definition json_days (d : option Z) : json :=
  match d with
  | Some z => JInt z
  | None => JNull
  end.

Definition json_of_user (u : user_record) : json :=
  JObj [("SamAccountName", JStr (sam_account_name u));
        ("SPNs", json_strings (service_principal_names u));
        ("TrustedForDelegation", JBool (trusted_for_delegation u));
        ("TrustedToAuthForDelegation", JBool (trusted_to_auth_for_delegation u));
        ("EncryptionTypes", json_strings (encryption_types u));
        ("UseDESKeyOnly", JBool (use_des_key_only u));
        ("MemberOf", json_strings (groups_of u));
        ("DaysSinceLastLogon", json_days (days_since_last_logon u));
        ("DaysSincePasswordChange", json_days (days_since_password_change u))].

Definition json_of_computer (c : computer_record) : json :=
  JObj [("SamAccountName", JStr (computer_account_name c));
        ("TrustedForDelegation", JBool (computer_trusted_for_delegation c));
        ("TrustedToAuthForDelegation", JBool (computer_trusted_to_auth_for_delegation c));
        ("ConstrainedDelegation", json_strings (constrained_delegation c));
        ("IsDomainController", JBool (is_domain_controller c))].

Definition snapshot_of_records (us : list user_record) (cs : list computer_record)
    (events : Z) : json :=
  JObj [("Users", JList (json_of_user <$> us));
        ("Computers", JList (json_of_computer <$> cs));
        ("Statistics", JObj [("NTLMEventCount", JInt events)])].

(** The number of items of [l] that satisfy [p]. *)
Definition how_many {A : Type} (p : A -> bool) (l : list A) : Z :=
  Z.of_nat (length (List.filter p l)).

Definition nonempty {A : Type} (l : list A) : bool :=
  match l with
  | [] => false
  | _ :: _ => true
  end.

(** [len(SPNs) > 0] *)
Definition spec_has_spns (u : user_record) : bool :=
  nonempty (service_principal_names u).

(** unconstrained or constrained delegation *)
Definition spec_user_delegates (u : user_record) : bool :=
  trusted_for_delegation u || trusted_to_auth_for_delegation u.

(** a non-DC computer with unconstrained or constrained delegation or a
    non-empty list of constrained-delegation targets *)
Definition spec_computer_delegates (c : computer_record) : bool :=
  negb (is_domain_controller c)
  && (computer_trusted_for_delegation c
      || computer_trusted_to_auth_for_delegation c
      || nonempty (constrained_delegation c)).

(** the encryption types meet {DES, RC4}, or DES only is forced *)
Definition spec_weak_encryption (u : user_record) : bool :=
  existsb (fun enc => String.eqb enc "DES" || String.eqb enc "RC4") (encryption_types u)
  || use_des_key_only u.

(** member of Domain Admins and not member of Protected Users *)
Definition spec_unprotected_admin (u : user_record) : bool :=
  bool_decide ("Domain Admins" ∈ groups_of u)
  && negb (bool_decide ("Protected Users" ∈ groups_of u)).

(** a day counter above [n]; no counter, no count *)
Definition spec_days_above (n : Z) (d : option Z) : bool :=
  match d with
  | Some z => (n <? z)%Z
  | None => false
  end.

Definition spec_scores (us : list user_record) (cs : list computer_record)
    (events : Z) : scores :=
  {| kerberoasting := 10 * how_many spec_has_spns us;
     delegation := 15 * how_many spec_user_delegates us
                   + 20 * how_many spec_computer_delegates cs;
     encryption := 5 * how_many spec_weak_encryption us;
     ntlm := Z.min (2 * events) 100;
     privileged := 25 * how_many spec_unprotected_admin us;
     inactive :=
       2 * how_many (fun u => spec_days_above 90 (days_since_last_logon u)) us
       + 3 * how_many (fun u => spec_days_above 365 (days_since_password_change u)) us |}.

(** Records for every branch of the formulas: a stale service account, a
    protected and an unprotected administrator, a delegating server and
    a delegating domain controller. *)
Definition record_svc_backup : user_record :=
  {| sam_account_name := "svc_backup";
     service_principal_names := ["HOST/backup01"];
     trusted_for_delegation := false;
     trusted_to_auth_for_delegation := true;
     encryption_types := ["AES256"; "RC4"];
     use_des_key_only := false;
     groups_of := [];
     days_since_last_logon := Some 91%Z;
     days_since_password_change := Some 365%Z |}.

Definition record_alice : user_record :=
  {| sam_account_name := "alice";
     service_principal_names := [];
     trusted_for_delegation := false;
     trusted_to_auth_for_delegation := false;
     encryption_types := ["AES256"];
     use_des_key_only := false;
     groups_of := ["Domain Admins"; "Protected Users"];
     days_since_last_logon := Some 90%Z;
     days_since_password_change := Some 366%Z |}.

Definition record_bob : user_record :=
  {| sam_account_name := "bob";
     service_principal_names := [];
     trusted_for_delegation := false;
     trusted_to_auth_for_delegation := false;
     encryption_types := [];
     use_des_key_only := true;
     groups_of := ["Domain Admins"];
     days_since_last_logon := None;
     days_since_password_change := None |}.

Definition record_web01 : computer_record :=
  {| computer_account_name := "WEB01$";
     computer_trusted_for_delegation := false;
     computer_trusted_to_auth_for_delegation := false;
     constrained_delegation := ["HTTP/app01"];
     is_domain_controller := false |}.

Definition record_dc01 : computer_record :=
  {| computer_account_name := "DC01$";
     computer_trusted_for_delegation := true;
     computer_trusted_to_auth_for_delegation := false;
     constrained_delegation := [];
     is_domain_controller := true |}.

(** ** Snapshots of the expected shape *)

Definition is_dict (v : json) : Prop := exists fields, v = JObj fields.
Definition is_str (v : json) : Prop := exists s, v = JStr s.
Definition is_int (v : json) : Prop := (exists z, v = JInt z) \/ (exists b, v = JBool b).
Definition is_sized (v : json) : Prop :=
  (exists l, v = JList l) \/ (exists s, v = JStr s) \/ (exists f, v = JObj f).

(** [x] is a dict whose field [k], when present, satisfies [P]. *)
Definition field_if_present (x : json) (k : string) (P : json -> Prop) : Prop :=
  forall fields v, x = JObj fields -> Py.assoc k fields = Some v -> P v.

Definition falsy_or (P : json -> Prop) (v : json) : Prop := Py.truthy v = false \/ P v.

Definition string_list (v : json) : Prop := exists l, v = JList l /\ Forall is_str l.

Definition list_of (P : json -> Prop) (v : json) : Prop := exists l, v = JList l /\ Forall P l.

Definition user_shape (u : json) : Prop :=
  is_dict u /\
  field_if_present u "SamAccountName" is_str /\
  field_if_present u "SPNs" (falsy_or string_list) /\
  field_if_present u "EncryptionTypes" is_sized /\
  field_if_present u "DaysSinceLastLogon" (falsy_or is_int) /\
  field_if_present u "DaysSincePasswordChange" (falsy_or is_int) /\
  field_if_present u "Description" is_str.

Definition computer_shape (c : json) : Prop :=
  is_dict c /\
  field_if_present c "SamAccountName" is_str /\
  field_if_present c "ConstrainedDelegation" (falsy_or is_sized).

Definition group_shape (g : json) : Prop :=
  is_dict g /\ field_if_present g "Members" (list_of is_dict).

Definition statistics_shape (s : json) : Prop :=
  is_dict s /\ field_if_present s "NTLMEventCount" is_int.

Definition snapshot_shape (data : json) : Prop :=
  is_dict data /\
  field_if_present data "Users" (list_of user_shape) /\
  field_if_present data "Computers" (list_of computer_shape) /\
  field_if_present data "SecurityGroups" (list_of group_shape) /\
  field_if_present data "Statistics" statistics_shape.

(** The users remembered for the delegation steps are dicts. *)
Definition remembered_dicts (g : graph) : Prop := Forall is_dict (high_risk_users g).

(** * Properties *)

(** ** The error monad and the loops *)

Lemma bind_Ok {A B : Type} (m : result A) (k : A -> result B) (b : B) :
  bind m k = Ok b <-> exists a, m = Ok a /\ k a = Ok b.
Proof.
  destruct m as [a|e]; simpl; split.
  - intros H. exists a. auto.
  - intros (a' & Ha & Hk). congruence.
  - discriminate.
  - intros (a' & Ha & _). discriminate.
Qed.

(** Splits a successful run [H : bind m k = Ok b] into its steps. *)
Ltac inv_bind H :=
  let a := fresh "v" in
  let Ha := fresh "E" in
  apply bind_Ok in H; destruct H as (a & Ha & H).

Ltac inv_binds H := repeat (inv_bind H).

Ltac inv_ok H := injection H as H; try subst.

Lemma for_each_app {A S : Type} (l1 l2 : list A) (body : A -> S -> result S) (s : S) :
  for_each (l1 ++ l2) body s = (let* s1 := for_each l1 body s in for_each l2 body s1).
Proof.
  revert s. induction l1 as [|x l1 IH]; intros s; simpl; [reflexivity|].
  destruct (body x s) as [s'|e]; simpl; auto.
Qed.

(** A property of the state that every iteration preserves holds after
    the loop. *)
Lemma for_each_inv {A S : Type} (P : S -> Prop) (l : list A)
    (body : A -> S -> result S) (s sf : S) :
  for_each l body s = Ok sf ->
  P s ->
  (forall x s1 s2, x ∈ l -> P s1 -> body x s1 = Ok s2 -> P s2) ->
  P sf.
Proof.
  revert s. induction l as [|x l IH]; intros s H HP Hstep; simpl in H.
  - inv_ok H. exact HP.
  - inv_bind H. apply (IH v); auto.
    + apply (Hstep x s v); [left | assumption | assumption].
    + intros y s1 s2 Hy. apply Hstep. right. exact Hy.
Qed.

(** The iteration of a given item, cut out of a successful loop. *)
Lemma for_each_at {A S : Type} (l : list A) (body : A -> S -> result S)
    (s sf : S) (x : A) :
  x ∈ l ->
  for_each l body s = Ok sf ->
  exists l1 l2 s1 s2,
    l = l1 ++ x :: l2 /\ for_each l1 body s = Ok s1 /\
    body x s1 = Ok s2 /\ for_each l2 body s2 = Ok sf.
Proof.
  intros Hx H. apply list_elem_of_split in Hx as (l1 & l2 & ->).
  rewrite for_each_app in H. inv_bind H. simpl in H. inv_bind H.
  exists l1, l2, v, v0. auto.
Qed.

Lemma count_nonneg {A : Type} (l : list A) : (0 <= count l)%Z.
Proof. unfold count. lia. Qed.

(** ** The overall score *)








(** The floats 0.1, 0.7 and -29.9; a tie, which goes to the even
    neighbour; the largest quotient that is still a float, and the first
    that is not. *)
Lemma true_divide_samples :
  (exists q, Py.true_divide 1 10 = Ok q /\
             Qred q = (3602879701896397 # 36028797018963968)%Q) /\
  (exists q, Py.true_divide 7 10 = Ok q /\
             Qred q = (3152519739159347 # 4503599627370496)%Q) /\
  (exists q, Py.true_divide (-299) 10 = Ok q /\
             Qred q = (-4208050901824307 # 140737488355328)%Q) /\
  (exists q, Py.true_divide (10 * (2 ^ 53 + 1)) 10 = Ok q /\
             Qred q = inject_Z (2 ^ 53)) /\
  (exists q, Py.true_divide (10 * (2 ^ 53 + 3)) 10 = Ok q /\
             Qred q = inject_Z (2 ^ 53 + 4)) /\
  (exists q, Py.true_divide (10 * (2 ^ 1024 - 2 ^ 970) - 1) 10 = Ok q /\
             Qred q = inject_Z (2 ^ 1024 - 2 ^ 971)) /\
  Py.true_divide (10 * (2 ^ 1024 - 2 ^ 970)) 10 = Raise OverflowError.
Proof.
  refine (conj _ (conj _ (conj _ (conj _ (conj _ (conj _ _)))))).
  1-6: eexists; split; vm_compute; reflexivity.
  vm_compute. reflexivity.
Qed.


Lemma Qltb_lt (a b : Q) : Qltb a b = true <-> (a < b)%Q.
Proof.
  unfold Qltb. rewrite Qlt_alt. destruct (a ?= b)%Q; split; congruence.
Qed.









(** C2 at the failing input: the event count -50 gives the NTLM score
    -100 and the overall score -10, below the range 0-100 that
    [get_overall_risk_score] announces; nothing validates the count. *)
Theorem negative_event_count_breaks_bounds :
  calculate_risk_scores snapshot_negative_events
    = Ok {| kerberoasting := 0; delegation := 0; encryption := 0; ntlm := -100;
            privileged := 0; inactive := 0 |} /\
  overall_of_snapshot snapshot_negative_events = Ok ((-10)%Z, "risk-low", "Low Risk") /\
  ~ (0 <= -100)%Z /\ ~ (0 <= -10 <= 100)%Z.
Proof.
  split; [reflexivity|]. split; [vm_compute; reflexivity|]. lia.
Qed.

(** ** The graph builder *)

(** One step of a successful run: a bind, a branch, a returned value. *)
Ltac run_step H :=
  lazymatch type of H with
  | bind _ _ = Ok _ => inv_bind H
  | Raise _ = Ok _ => discriminate H
  | Ok _ = Ok _ => injection H as H; try subst
  | (if ?b then _ else _) = Ok _ => let E := fresh "C" in destruct b eqn:E
  end.

Lemma grows_refl (g : graph) : grows g g [].
Proof. split; [symmetry; apply app_nil_r | set_solver]. Qed.

Lemma grows_trans (g1 g2 g3 : graph) (o1 o2 : list string) :
  grows g1 g2 o1 -> grows g2 g3 o2 -> grows g1 g3 (o1 ++ o2).
Proof.
  intros [H1 M1] [H2 M2]. split.
  - rewrite H2, H1, app_assoc. reflexivity.
  - rewrite M2, M1, list_to_set_app_L. set_solver.
Qed.

Lemma grows_then_same (g1 g2 g3 : graph) (o : list string) :
  grows g1 g2 o -> grows g2 g3 [] -> grows g1 g3 o.
Proof.
  intros H1 H2. rewrite <- (app_nil_r o). exact (grows_trans _ _ _ _ _ H1 H2).
Qed.

Lemma grows_add_node (n : node) (g : graph) : grows g (add_node n g) [node_id n].
Proof.
  split; simpl.
  - unfold ids_of. rewrite fmap_app. reflexivity.
  - set_solver.
Qed.

Lemma grows_add_edge (e : edge) (g g' : graph) (out : list string) :
  grows g g' out -> grows g (add_edge e g') out.
Proof. intros H. exact H. Qed.

Lemma grows_remember_user (u : json) (g g' : graph) (out : list string) :
  grows g g' out -> grows g (remember_user u g') out.
Proof. intros H. exact H. Qed.

(** A loop whose body adds at most the node [idf x], and adds it exactly
    when [wanted x], adds the nodes of the wanted items in order. *)
Lemma for_each_grows {A : Type} (body : A -> graph -> result graph)
    (wanted : A -> result bool) (idf : A -> string) (l : list A) (g g' : graph) :
  (forall x g1 g2, body x g1 = Ok g2 ->
     exists w, wanted x = Ok w /\ grows g1 g2 (if w then [idf x] else [])) ->
  for_each l body g = Ok g' ->
  grows g g' (idf <$> filter (fun x => wanted x = Ok true) l).
Proof.
  intros Hbody. revert g. induction l as [|x l IH]; intros g H; simpl in H.
  - inv_ok H. apply grows_refl.
  - inv_bind H. destruct (Hbody _ _ _ E) as (w & Hw & Hg).
    specialize (IH _ H). rewrite filter_cons. destruct w.
    + rewrite decide_True by assumption. rewrite fmap_cons.
      apply (grows_trans _ _ _ [idf x] _ Hg IH).
    + rewrite decide_False by congruence.
      apply (grows_trans _ _ _ [] _ Hg IH).
Qed.

Lemma user_id_of_account_name (u : json) (i : string) :
  user_id_of u = Ok i -> i = "user_" +:+ account_name u.
Proof.
  unfold user_id_of, account_name. intros H. inv_bind H. inv_ok H.
  rewrite E. reflexivity.
Qed.

Lemma comp_id_of_account_name (c : json) (i : string) :
  comp_id_of c = Ok i -> i = "comp_" +:+ account_name c.
Proof.
  unfold comp_id_of, account_name. intros H. inv_bind H. inv_ok H.
  rewrite E. reflexivity.
Qed.

Lemma user_node_id (u : json) (risk i : string) (n : node) :
  user_node u risk i = Ok n -> node_id n = i.
Proof.
  unfold user_node. intros H. repeat run_step H. reflexivity.
Qed.

Lemma add_user_grows (d : string) (u : json) (g g' : graph) :
  add_user d u g = Ok g' ->
  exists w, user_wanted u = Ok w /\
            grows g g' (if w then ["user_" +:+ account_name u] else []).
Proof.
  unfold add_user. intros H. inv_bind H. inv_bind H.
  assert (Hw : user_wanted u = Ok v0) by (unfold user_wanted; rewrite E; exact E0).
  exists v0. split; [assumption|]. destruct v0.
  - inv_bind H. inv_bind H. inv_ok H.
    apply user_id_of_account_name in E1 as ->.
    apply user_node_id in E2. rewrite <- E2.
    apply grows_remember_user, grows_add_edge. exact (grows_add_node _ _).
  - inv_ok H. apply grows_refl.
Qed.

Lemma add_member_grows (gid : string) (m : json) (g g' : graph) :
  add_member gid m g = Ok g' -> grows g g' [].
Proof.
  unfold add_member. intros H. repeat run_step H;
    try apply grows_add_edge; apply grows_refl.
Qed.

Lemma add_members_grows (gid : string) (ms : list json) (g g' : graph) :
  for_each ms (add_member gid) g = Ok g' -> grows g g' [].
Proof.
  intros H.
  apply (for_each_inv (fun g' => grows g g' []) _ _ _ _ H); [apply grows_refl|].
  intros x s1 s2 _ H1 H2. apply add_member_grows in H2.
  apply (grows_then_same _ _ _ [] H1 H2).
Qed.

Lemma in_strs_str (v : json) (ss : list string) :
  Py.in_strs v ss = true -> exists s, v = JStr s /\ s ∈ ss.
Proof.
  unfold Py.in_strs. intros H. apply existsb_exists in H as (s & Hs & He).
  destruct v; simpl in He; try discriminate.
  apply String.eqb_eq in He as ->. exists s. split; [reflexivity|].
  apply list_elem_of_In. exact Hs.
Qed.

Lemma add_group_grows (d : string) (grp : json) (g g' : graph) :
  add_group d grp g = Ok g' ->
  exists w, group_wanted grp = Ok w /\
            grows g g' (if w then ["group_" +:+ group_name grp] else []).
Proof.
  unfold add_group. intros H. inv_bind H.
  assert (Hn : group_name grp = Py.str v) by (unfold group_name; rewrite E; reflexivity).
  assert (Hw : group_wanted grp = Ok (Py.in_strs v privileged_groups))
    by (unfold group_wanted; rewrite E; reflexivity).
  rewrite Hn. eexists. split; [exact Hw|].
  destruct (Py.in_strs v privileged_groups) eqn:Hp.
  - inv_bind H. inv_bind H. apply add_members_grows in H.
    eapply grows_then_same; [|exact H].
    apply grows_add_edge. exact (grows_add_node _ _).
  - inv_ok H. apply grows_refl.
Qed.

Lemma add_computer_grows (d : string) (c : json) (g g' : graph) :
  add_computer d c g = Ok g' ->
  exists w, computer_wanted c = Ok w /\
            grows g g' (if w then ["comp_" +:+ account_name c] else []).
Proof.
  unfold add_computer. intros H. inv_bind H. inv_bind H.
  assert (Hw : computer_wanted c = Ok v0).
  { unfold computer_wanted. rewrite E. simpl. destruct v; exact E0. }
  exists v0. split; [assumption|]. destruct v0.
  - repeat run_step H. apply comp_id_of_account_name in E1 as ->.
    apply grows_add_edge. exact (grows_add_node _ _).
  - inv_ok H. apply grows_refl.
Qed.

Lemma add_delegation_edge_grows (uid : string) (c : json) (g g' : graph) :
  add_delegation_edge uid c g = Ok g' -> grows g g' [].
Proof.
  unfold add_delegation_edge. intros H. repeat run_step H;
    try apply grows_add_edge; apply grows_refl.
Qed.

Lemma add_delegation_edges_grows (data u : json) (g g' : graph) :
  add_delegation_edges data u g = Ok g' -> grows g g' [].
Proof.
  unfold add_delegation_edges. intros H. repeat run_step H; try apply grows_refl.
  apply (for_each_inv (fun g' => grows g g' []) _ _ _ _ H); [apply grows_refl|].
  intros x s1 s2 _ H1 H2. apply add_delegation_edge_grows in H2.
  apply (grows_then_same _ _ _ [] H1 H2).
Qed.

Lemma build_graph_ids (data : json) (g : graph) :
  build_graph data = Ok g ->
  exists users groups computers,
    section data "Users" = Ok users /\
    section data "SecurityGroups" = Ok groups /\
    section data "Computers" = Ok computers /\
    ids_of (nodes g) = graph_ids data users groups computers /\
    node_id_map g = list_to_set (graph_ids data users groups computers).
Proof.
  unfold build_graph. intros H. inv_binds H.
  exists v1, v3, v5. repeat (split; [assumption|]).
  pose proof (for_each_grows _ _ _ _ _ _ (add_user_grows v0) E2) as G1.
  pose proof (for_each_grows _ _ _ _ _ _ (add_group_grows v0) E4) as G2.
  pose proof (for_each_grows _ _ _ _ _ _ (add_computer_grows v0) E6) as G3.
  assert (G4 : grows v6 g []).
  { apply (for_each_inv (fun g' => grows v6 g' []) _ _ _ _ H); [apply grows_refl|].
    intros x s1 s2 _ H1 H2. apply add_delegation_edges_grows in H2.
    apply (grows_then_same _ _ _ [] H1 H2). }
  pose proof (grows_trans _ _ _ _ _ (grows_trans _ _ _ _ _ (grows_trans _ _ _ _ _ G1 G2) G3) G4)
    as [Hn Hm].
  assert (Hd : v0 = "domain_" +:+ Py.str (default (JStr "DOMAIN")
             (match data with JObj f => Py.assoc "Domain" f | _ => None end))).
  { unfold domain_id_of in E0. inv_bind E0. inv_ok E0.
    destruct data; simpl in E7; try discriminate. inv_ok E7. reflexivity. }
  unfold graph_ids. rewrite <- Hd. rewrite app_nil_r in Hn, Hm.
  split.
  - rewrite Hn. simpl. rewrite <- !app_assoc. reflexivity.
  - rewrite Hm. simpl. rewrite !list_to_set_app_L. set_solver.
Qed.

(** ** The attack-path detector *)

Lemma for_each_appender {A B : Type} (body : A -> list B -> result (list B))
    (l : list A) (acc acc' : list B) :
  appender body ->
  for_each l body acc = Ok acc' ->
  exists outs,
    Forall2 (fun x out => body x [] = Ok out) l outs /\ acc' = acc ++ concat outs.
Proof.
  intros Happ. revert acc. induction l as [|x l IH]; intros acc H; simpl in H.
  - inv_ok H. exists []. split; [constructor|]. simpl. rewrite app_nil_r. reflexivity.
  - inv_bind H. rewrite Happ in E. inv_bind E. inv_ok E.
    destruct (IH _ H) as (outs & HF & ->).
    exists (v0 :: outs). split; [constructor; assumption|].
    simpl. rewrite app_assoc. reflexivity.
Qed.

(** Case analysis along a rule body, for goals about its result. *)
Ltac walk_body :=
  repeat first
    [ reflexivity
    | match goal with
      | |- context [bind ?m _] =>
          lazymatch m with
          | Ok _ => fail
          | Raise _ => fail
          | context [bind _ _] => fail
          | context [if _ then _ else _] => fail
          | _ => destruct m eqn:?
          end
      | |- context [if ?b then _ else _] =>
          lazymatch b with
          | true => fail
          | false => fail
          | _ => destruct b eqn:?
          end
      end
    | progress cbn [bind] ].

(** What a rule emits for one item: each finding satisfies [P]. *)
Ltac each_finding :=
  repeat match goal with
  | |- Forall _ [] => constructor
  | |- Forall _ (_ :: _) => constructor
  | |- Forall _ ([] ++ _) => simpl app
  end.

(** The rules, for a fixed set of node ids. *)
Section Rules.

Variable ids : gset string.

Lemma group_membership_rule_appender :
  appender (group_membership_rule ids).
Proof. intros u acc. unfold group_membership_rule. walk_body; rewrite app_nil_r; reflexivity. Qed.

Lemma kerberoasting_rule_appender :
  appender (kerberoasting_rule ids).
Proof. intros u acc. unfold kerberoasting_rule. walk_body; rewrite app_nil_r; reflexivity. Qed.

Lemma delegation_rule_appender :
  appender (delegation_rule ids).
Proof. intros u acc. unfold delegation_rule. walk_body; rewrite app_nil_r; reflexivity. Qed.

Lemma asrep_rule_appender :
  appender (asrep_rule ids).
Proof. intros u acc. unfold asrep_rule. walk_body; rewrite app_nil_r; reflexivity. Qed.

Lemma computer_delegation_rule_appender :
  appender (computer_delegation_rule ids).
Proof. intros u acc. unfold computer_delegation_rule. walk_body; rewrite app_nil_r; reflexivity. Qed.

Lemma Forall2_concat_elem {A B : Type} (R : A -> list B -> Prop)
    (l : list A) (outs : list (list B)) (p : B) :
  Forall2 R l outs -> p ∈ concat outs ->
  exists x out, x ∈ l /\ R x out /\ p ∈ out.
Proof.
  induction 1 as [|x out l outs HR HF IH]; simpl; intros Hp.
  - apply elem_of_nil in Hp as [].
  - apply elem_of_app in Hp as [Hp|Hp].
    + exists x, out. split; [left|auto].
    + destruct (IH Hp) as (x' & out' & Hx & HR' & Hp').
      exists x', out'. split; [right; exact Hx|auto].
Qed.

Lemma Forall2_elem_concat {A B : Type} (R : A -> list B -> Prop)
    (l : list A) (outs : list (list B)) (x : A) :
  Forall2 R l outs -> x ∈ l ->
  exists out, R x out /\ forall p, p ∈ out -> p ∈ concat outs.
Proof.
  induction 1 as [|y out l outs HR HF IH]; intros Hx.
  - apply elem_of_nil in Hx as [].
  - apply elem_of_cons in Hx as [->|Hx].
    + exists out. split; [assumption|]. intros p Hp. simpl. apply elem_of_app. auto.
    + destruct (IH Hx) as (out' & HR' & Hsub). exists out'. split; [assumption|].
      intros p Hp. simpl. apply elem_of_app. auto.
Qed.

Lemma finding_wf_one (p : attack_path) (x : string) :
  path_path p = [x] -> bool_decide (x ∈ ids) = true -> finding_wf ids p.
Proof.
  intros Hp Hx. split.
  - intros y Hy. rewrite Hp in Hy. apply list_elem_of_singleton in Hy as ->.
    apply bool_decide_eq_true in Hx. exact Hx.
  - left. eauto.
Qed.

Lemma group_membership_rule_sound (u : json) (out : list attack_path) :
  domain_admins_group_id ∈ ids ->
  group_membership_rule ids u [] = Ok out ->
  Forall (fun p => path_type p = "Group Membership" /\ finding_wf ids p) out.
Proof.
  intros Hda H. unfold group_membership_rule in H. repeat run_step H; each_finding.
  split; [reflexivity|]. split.
  - intros x Hx. simpl in Hx. apply elem_of_cons in Hx as [->|Hx].
    + apply bool_decide_eq_true in C0. exact C0.
    + apply list_elem_of_singleton in Hx as ->. exact Hda.
  - right. eexists. reflexivity.
Qed.

Lemma kerberoasting_rule_sound (u : json) (out : list attack_path) :
  kerberoasting_rule ids u [] = Ok out ->
  Forall (fun p => path_type p = "Kerberoasting" /\ finding_wf ids p) out.
Proof.
  intros H. unfold kerberoasting_rule in H. repeat run_step H; each_finding.
  split; [reflexivity|]. eapply finding_wf_one; [reflexivity|eassumption].
Qed.

Lemma delegation_rule_sound (u : json) (out : list attack_path) :
  delegation_rule ids u [] = Ok out ->
  Forall (fun p => (path_type p = "Unconstrained Delegation" \/
                    path_type p = "Constrained Delegation") /\
                   path_severity p = "high" /\ finding_wf ids p) out.
Proof.
  intros H. unfold delegation_rule in H. repeat run_step H; each_finding.
  split; [|split; [reflexivity|]].
  - simpl. destruct (Py.truthy v1); auto.
  - eapply finding_wf_one; [reflexivity|eassumption].
Qed.

Lemma asrep_rule_sound (u : json) (out : list attack_path) :
  asrep_rule ids u [] = Ok out ->
  Forall (fun p => path_type p = "AS-REP Roasting" /\
                   path_severity p = "high" /\ finding_wf ids p) out.
Proof.
  intros H. unfold asrep_rule in H. repeat run_step H; each_finding.
  split; [reflexivity|]. split; [reflexivity|].
  eapply finding_wf_one; [reflexivity|eassumption].
Qed.

Lemma computer_delegation_rule_sound (c : json)
    (out : list attack_path) :
  computer_delegation_rule ids c [] = Ok out ->
  Forall (fun p => path_type p = "Unconstrained Delegation" /\
                   path_severity p = "critical" /\ finding_wf ids p) out.
Proof.
  intros H. unfold computer_delegation_rule in H. repeat run_step H; each_finding.
  all: split; [reflexivity|]; split; [reflexivity|].
  all: eapply finding_wf_one; [reflexivity|eassumption].
Qed.

End Rules.

Lemma detect_attack_paths_by_rule (data : json) (g : graph) (paths : list attack_path) :
  detect_attack_paths data g = Ok paths -> findings_by_rule data g paths.
Proof.
  unfold detect_attack_paths. intros H.
  apply bind_Ok in H as (p1 & H1 & H).
  apply bind_Ok in H as (users & Hu & H).
  apply bind_Ok in H as (p2 & H2 & H).
  apply bind_Ok in H as (p3 & H3 & H).
  apply bind_Ok in H as (users' & Hu' & H).
  apply bind_Ok in H as (p4 & H4 & H).
  apply bind_Ok in H as (computers & Hc & H).
  rewrite Hu in Hu'. injection Hu' as <-.
  apply for_each_appender in H2 as (o2 & F2 & ->); [|apply kerberoasting_rule_appender].
  apply for_each_appender in H3 as (o3 & F3 & ->); [|apply delegation_rule_appender].
  apply for_each_appender in H4 as (o4 & F4 & ->); [|apply asrep_rule_appender].
  apply for_each_appender in H as (o5 & F5 & ->); [|apply computer_delegation_rule_appender].
  assert (exists o1, p1 = concat o1 /\
            if bool_decide (domain_admins_group_id ∈ node_id_map g)
            then Forall2 (fun u out => group_membership_rule (node_id_map g) u [] = Ok out)
                   users o1
            else o1 = []) as (o1 & -> & F1).
  { destruct (bool_decide (domain_admins_group_id ∈ node_id_map g)).
    - apply bind_Ok in H1 as (users' & Hu' & H1). rewrite Hu in Hu'. injection Hu' as <-.
      apply for_each_appender in H1 as (o1 & F1 & ->);
        [|apply group_membership_rule_appender].
      exists o1. auto.
    - inv_ok H1. exists []. auto. }
  rewrite <- !app_assoc.
  apply (Findings data g users computers o1 o2 o3 o4 o5); assumption.
Qed.

(** ** Consequences for a whole run *)

Lemma for_each_all {A S : Type} (Q : A -> Prop) (body : A -> S -> result S)
    (l : list A) (s s' : S) :
  (forall x s1 s2, body x s1 = Ok s2 -> Q x) ->
  for_each l body s = Ok s' -> Forall Q l.
Proof.
  intros HQ. revert s. induction l as [|x l IH]; intros s H; simpl in H.
  - constructor.
  - inv_bind H. constructor; [eapply HQ; eassumption|eapply IH; eassumption].
Qed.

Lemma build_graph_users_wanted (data : json) (g : graph) (users : list json) :
  build_graph data = Ok g ->
  section data "Users" = Ok users ->
  Forall (fun u => exists w, user_wanted u = Ok w) users.
Proof.
  unfold build_graph. intros H Hu. inv_bind H. inv_bind H. inv_bind H. inv_bind H.
  rewrite Hu in E1. injection E1 as <-.
  eapply for_each_all; [|exact E2].
  intros x s1 s2 Hx. destruct (add_user_grows _ _ _ _ Hx) as (w & Hw & _). eauto.
Qed.

Lemma generate_parts (data : json) (ns : list node) (es : list edge)
    (ps : list attack_path) :
  generate_graph_visualization data = Ok (ns, es, ps) ->
  exists g,
    build_graph data = Ok g /\ detect_attack_paths data g = Ok ps /\
    ns = nodes g /\ es = mark_edge (attack_path_edge_ids ps) <$> edges g.
Proof.
  unfold generate_graph_visualization. intros H. inv_bind H. inv_bind H.
  injection H as <- <- <-. eauto.
Qed.

Lemma Forall2_sound_concat {A B : Type} (f : A -> result (list B)) (P : B -> Prop)
    (l : list A) (outs : list (list B)) :
  (forall x out, f x = Ok out -> Forall P out) ->
  Forall2 (fun x out => f x = Ok out) l outs ->
  Forall P (concat outs).
Proof.
  intros Hf. induction 1; simpl; [constructor|].
  apply Forall_app. split; eauto.
Qed.

Lemma findings_wf (data : json) (g : graph) (ps : list attack_path) :
  findings_by_rule data g ps -> Forall (finding_wf (node_id_map g)) ps.
Proof.
  intros [users computers o1 o2 o3 o4 o5 _ _ F1 F2 F3 F4 F5].
  repeat (apply Forall_app; split).
  - destruct (bool_decide (domain_admins_group_id ∈ node_id_map g)) eqn:Hda.
    + apply bool_decide_eq_true in Hda.
      eapply Forall2_sound_concat; [|exact F1]. intros u out Hu. simpl in Hu.
      eapply Forall_impl; [exact (group_membership_rule_sound _ _ _ Hda Hu)|].
      intros p [_ Hp]. exact Hp.
    + subst o1. constructor.
  - eapply Forall2_sound_concat; [|exact F2]. intros u out Hu. simpl in Hu.
    eapply Forall_impl; [exact (kerberoasting_rule_sound _ _ _ Hu)|].
    intros p [_ Hp]. exact Hp.
  - eapply Forall2_sound_concat; [|exact F3]. intros u out Hu. simpl in Hu.
    eapply Forall_impl; [exact (delegation_rule_sound _ _ _ Hu)|].
    intros p (_ & _ & Hp). exact Hp.
  - eapply Forall2_sound_concat; [|exact F4]. intros u out Hu. simpl in Hu.
    eapply Forall_impl; [exact (asrep_rule_sound _ _ _ Hu)|].
    intros p (_ & _ & Hp). exact Hp.
  - eapply Forall2_sound_concat; [|exact F5]. intros u out Hu. simpl in Hu.
    eapply Forall_impl; [exact (computer_delegation_rule_sound _ _ _ Hu)|].
    intros p (_ & _ & Hp). exact Hp.
Qed.

(** C7.  Every node id in the path of every finding is the id of a node of
    the graph built in the same run. *)
Theorem attack_path_ids_in_graph (data : json) (ns : list node) (es : list edge)
    (ps : list attack_path) :
  generate_graph_visualization data = Ok (ns, es, ps) ->
  forall p, p ∈ ps ->
  forall x, x ∈ path_path p ->
  exists n, n ∈ ns /\ node_id n = x.
Proof.
  intros H p Hp x Hx.
  apply generate_parts in H as (g & Hb & Hd & -> & _).
  apply detect_attack_paths_by_rule, findings_wf in Hd.
  rewrite Forall_forall in Hd. destruct (Hd p Hp) as [Hk _]. specialize (Hk x Hx).
  clear Hd. rename Hk into Hd.
  apply build_graph_ids in Hb as (users & groups & computers & _ & _ & _ & Hn & Hm).
  rewrite Hm, <- Hn in Hd. apply elem_of_list_to_set in Hd.
  unfold ids_of in Hd. apply list_elem_of_fmap in Hd as (n & -> & Hn'). eauto.
Qed.

Lemma attack_path_ids_in_graph_witness :
  exists ns es p,
    generate_graph_visualization snapshot_admin_with_group = Ok (ns, es, [p]) /\
    path_path p = ["user_bob"; "group_Domain Admins"] /\
    (exists n, n ∈ ns /\ node_id n = "user_bob") /\
    (exists n, n ∈ ns /\ node_id n = "group_Domain Admins").
Proof.
  eexists _, _, _. split; [vm_compute; reflexivity|]. split; [reflexivity|].
  split; eapply (attack_path_ids_in_graph snapshot_admin_with_group);
    try (vm_compute; reflexivity);
    try (apply list_elem_of_singleton; reflexivity); simpl.
  - left.
  - right. left.
Defined.

(** ** Which ids the graph holds *)

Lemma user_in_graph_ids (data : json) (users groups computers : list json) (u : json) :
  u ∈ users -> user_wanted u = Ok true ->
  "user_" +:+ account_name u ∈ graph_ids data users groups computers.
Proof.
  intros Hu Hw. unfold graph_ids. right. apply elem_of_app. left.
  apply (list_elem_of_fmap_2 (fun u => "user_" +:+ account_name u)).
  apply list_elem_of_filter. auto.
Qed.

Lemma group_in_graph_ids (data : json) (users groups computers : list json) (grp : json) :
  grp ∈ groups -> group_wanted grp = Ok true ->
  "group_" +:+ group_name grp ∈ graph_ids data users groups computers.
Proof.
  intros Hg Hw. unfold graph_ids. right. apply elem_of_app. right.
  apply elem_of_app. left.
  apply (list_elem_of_fmap_2 (fun g => "group_" +:+ group_name g)).
  apply list_elem_of_filter. auto.
Qed.

Lemma group_wanted_name (grp : json) :
  group_wanted grp = Ok true ->
  Py.get grp "Name" (JStr EmptyString) = Ok (JStr (group_name grp)).
Proof.
  unfold group_wanted, group_name. intros H. inv_bind H. inv_ok H.
  rewrite E. apply (in_strs_str v privileged_groups) in H as (s & -> & _). reflexivity.
Qed.

Lemma domain_admins_in_graph_ids (data : json) (users groups computers : list json) :
  domain_admins_group_id ∈ graph_ids data users groups computers ->
  exists grp, grp ∈ groups /\
              Py.get grp "Name" (JStr EmptyString) = Ok (JStr "Domain Admins").
Proof.
  unfold graph_ids, domain_admins_group_id. intros H.
  apply elem_of_cons in H as [H|H]; [discriminate H|].
  apply elem_of_app in H as [H|H].
  { apply list_elem_of_fmap in H as (u & H & _). discriminate H. }
  apply elem_of_app in H as [H|H].
  - apply list_elem_of_fmap in H as (grp & H & Hg).
    apply list_elem_of_filter in Hg as [Hw Hg].
    injection H as H. cbv [String.append] in H.
    apply group_wanted_name in Hw. rewrite <- H in Hw. eauto.
  - apply list_elem_of_fmap in H as (c & H & _). discriminate H.
Qed.

Lemma no_findings_of_type (t : string) (f : json -> result (list attack_path))
    (l : list json) (outs : list (list attack_path)) :
  (forall x out, f x = Ok out -> Forall (fun p => path_type p <> t) out) ->
  Forall2 (fun x out => f x = Ok out) l outs ->
  Forall (fun p => path_type p <> t) (concat outs).
Proof. apply Forall2_sound_concat. Qed.

Lemma other_rules_types (data : json) (g : graph)
    (users computers : list json) (o2 o3 o4 o5 : list (list attack_path)) :
  Forall2 (fun u out => kerberoasting_rule (node_id_map g) u [] = Ok out) users o2 ->
  Forall2 (fun u out => delegation_rule (node_id_map g) u [] = Ok out)
    (high_risk_users g) o3 ->
  Forall2 (fun u out => asrep_rule (node_id_map g) u [] = Ok out) users o4 ->
  Forall2 (fun c out => computer_delegation_rule (node_id_map g) c [] = Ok out)
    computers o5 ->
  Forall (fun p => path_type p = "Kerberoasting") (concat o2) /\
  Forall (fun p => path_type p = "Unconstrained Delegation" \/
                   path_type p = "Constrained Delegation") (concat o3) /\
  Forall (fun p => path_type p = "AS-REP Roasting" /\ path_severity p = "high")
    (concat o4) /\
  Forall (fun p => path_type p = "Unconstrained Delegation") (concat o5).
Proof.
  intros F2 F3 F4 F5. repeat split.
  - eapply Forall2_sound_concat; [|exact F2]. intros u out Hu. simpl in Hu.
    eapply Forall_impl; [exact (kerberoasting_rule_sound _ _ _ Hu)|]. intros p [Hp _]. exact Hp.
  - eapply Forall2_sound_concat; [|exact F3]. intros u out Hu. simpl in Hu.
    eapply Forall_impl; [exact (delegation_rule_sound _ _ _ Hu)|]. intros p [Hp _]. exact Hp.
  - eapply Forall2_sound_concat; [|exact F4]. intros u out Hu. simpl in Hu.
    eapply Forall_impl; [exact (asrep_rule_sound _ _ _ Hu)|].
    intros p (Hp & Hs & _). auto.
  - eapply Forall2_sound_concat; [|exact F5]. intros u out Hu. simpl in Hu.
    eapply Forall_impl; [exact (computer_delegation_rule_sound _ _ _ Hu)|].
    intros p [Hp _]. exact Hp.
Qed.

(** C10.  When no entry of [SecurityGroups] is named "Domain Admins" (in
    particular when the section is absent), no Group Membership finding is
    emitted, whatever the [MemberOf] lists of the users say. *)
Theorem no_domain_admins_group_no_finding (data : json) (groups : list json)
    (ns : list node) (es : list edge) (ps : list attack_path) :
  section data "SecurityGroups" = Ok groups ->
  (forall grp, grp ∈ groups ->
     Py.get grp "Name" (JStr EmptyString) <> Ok (JStr "Domain Admins")) ->
  generate_graph_visualization data = Ok (ns, es, ps) ->
  forall p, p ∈ ps -> path_type p <> "Group Membership".
Proof.
  intros Hg Hno H.
  apply generate_parts in H as (g & Hb & Hd & _ & _).
  apply build_graph_ids in Hb as (users & groups' & computers & _ & Hg' & _ & _ & Hm).
  rewrite Hg in Hg'. injection Hg' as <-.
  assert (Hda : domain_admins_group_id ∉ node_id_map g).
  { rewrite Hm. intros Hin. apply elem_of_list_to_set in Hin.
    apply domain_admins_in_graph_ids in Hin as (grp & Hin & Hname).
    exact (Hno grp Hin Hname). }
  apply detect_attack_paths_by_rule in Hd.
  destruct Hd as [users' computers' o1 o2 o3 o4 o5 _ _ F1 F2 F3 F4 F5].
  rewrite bool_decide_eq_false_2 in F1 by exact Hda. subst o1.
  destruct (other_rules_types data g _ _ _ _ _ _ F2 F3 F4 F5) as (T2 & T3 & T4 & T5).
  rewrite Forall_forall in T2, T3, T4, T5.
  intros p Hp. simpl in Hp.
  repeat (apply elem_of_app in Hp as [Hp|Hp]).
  - rewrite (T2 p Hp). discriminate.
  - destruct (T3 p Hp) as [-> | ->]; discriminate.
  - destruct (T4 p Hp) as [-> _]. discriminate.
  - rewrite (T5 p Hp). discriminate.
Qed.

Lemma no_domain_admins_group_no_finding_witness :
  exists ns es p,
    generate_graph_visualization snapshot_admin_spn_without_group = Ok (ns, es, [p]) /\
    path_type p <> "Group Membership".
Proof.
  eexists _, _, _. split; [vm_compute; reflexivity|].
  eapply (no_domain_admins_group_no_finding snapshot_admin_spn_without_group []).
  - reflexivity.
  - intros grp Hgrp. apply elem_of_nil in Hgrp as [].
  - vm_compute. reflexivity.
  - apply list_elem_of_singleton. reflexivity.
Defined.

(** ** The group-membership rule *)

Lemma get_str_default (x : json) (k s : string) (d : json) :
  Py.get x k JNull = Ok (JStr s) -> Py.get x k d = Ok (JStr s).
Proof.
  destruct x; simpl; try discriminate.
  destruct (Py.assoc k fields); simpl; [auto|discriminate].
Qed.

Lemma account_name_str (x : json) (s : string) :
  Py.get x "SamAccountName" JNull = Ok (JStr s) -> account_name x = s.
Proof. unfold account_name. intros ->. reflexivity. Qed.

Lemma str_in_elem (s : string) (l : list json) :
  Py.str_in s l = true <-> JStr s ∈ l.
Proof.
  unfold Py.str_in. rewrite existsb_exists. split.
  - intros (v & Hv & He). destruct v; simpl in He; try discriminate.
    apply String.eqb_eq in He as ->. apply list_elem_of_In. exact Hv.
  - intros H. exists (JStr s). split; [apply list_elem_of_In; exact H|].
    simpl. apply String.eqb_refl.
Qed.

Lemma get_member_of_list (u : json) (l : list json) :
  Py.get u "MemberOf" JNull = Ok (JList l) -> _get_member_of u = Ok l.
Proof. unfold _get_member_of. intros ->. reflexivity. Qed.

(** A Domain Admins member always gets a node. *)
Lemma user_wanted_domain_admin (u : json) (w : bool) (member_of : list json) :
  user_wanted u = Ok w ->
  _get_member_of u = Ok member_of ->
  Py.str_in "Domain Admins" member_of = true ->
  w = true.
Proof.
  unfold user_wanted, user_risk, user_included, in_group. intros H Hm Hda.
  rewrite !Hm in H. cbn [bind] in H. rewrite !Hda in H. cbn [bind] in H.
  repeat run_step H; try reflexivity; try discriminate.
Qed.

Lemma group_membership_rule_emits (ids : gset string) (u : json) (name : string)
    (member_of : list json) :
  Py.get u "SamAccountName" JNull = Ok (JStr name) ->
  Py.lower_string name <> "administrator" ->
  "user_" +:+ name ∈ ids ->
  _get_member_of u = Ok member_of ->
  Py.str_in "Domain Admins" member_of = true ->
  exists p,
    group_membership_rule ids u [] = Ok [p] /\
    path_type p = "Group Membership" /\
    path_path p = ["user_" +:+ name; "group_Domain Admins"] /\
    path_severity p = if Py.str_in "Protected Users" member_of then "high" else "critical".
Proof.
  intros Hn Hadm Hid Hm Hda. unfold group_membership_rule.
  rewrite (get_str_default _ _ _ _ Hn). cbn [bind Py.lower Py.str].
  apply String.eqb_neq in Hadm. rewrite Hadm.
  rewrite bool_decide_eq_true_2 by exact Hid.
  rewrite Hm. cbn [bind]. rewrite Hda.
  eexists. split; [reflexivity|]. simpl. auto.
Qed.

(** C3 (as amended).  When the snapshot's security groups include one named
    "Domain Admins", every user record that carries an account name other
    than "Administrator" (in any case) and whose [MemberOf] list contains
    "Domain Admins" gets a Group Membership finding on the path from the
    user to the group; its severity is "critical", unless the list also
    contains "Protected Users", in which case it is "high". *)
Theorem domain_admin_member_finding (data : json) (users groups : list json)
    (ns : list node) (es : list edge) (ps : list attack_path)
    (grp u : json) (name : string) (member_of : list json) :
  generate_graph_visualization data = Ok (ns, es, ps) ->
  section data "SecurityGroups" = Ok groups ->
  grp ∈ groups ->
  Py.get grp "Name" (JStr EmptyString) = Ok (JStr "Domain Admins") ->
  section data "Users" = Ok users ->
  u ∈ users ->
  Py.get u "SamAccountName" JNull = Ok (JStr name) ->
  Py.lower_string name <> "administrator" ->
  Py.get u "MemberOf" JNull = Ok (JList member_of) ->
  JStr "Domain Admins" ∈ member_of ->
  exists p,
    p ∈ ps /\
    path_type p = "Group Membership" /\
    path_path p = ["user_" +:+ name; "group_Domain Admins"] /\
    (JStr "Protected Users" ∉ member_of -> path_severity p = "critical") /\
    (JStr "Protected Users" ∈ member_of -> path_severity p = "high").
Proof.
  intros H Hg Hgrp Hname Hus Hu Hsam Hadm Hmem Hda.
  apply generate_parts in H as (g & Hb & Hd & _ & _).
  pose proof (build_graph_users_wanted _ _ _ Hb Hus) as Hw.
  apply build_graph_ids in Hb as (users' & groups' & computers & Hus' & Hg' & _ & _ & Hm).
  rewrite Hus in Hus'. injection Hus' as <-. rewrite Hg in Hg'. injection Hg' as <-.
  apply get_member_of_list in Hmem. apply str_in_elem in Hda.
  (* the user has a node *)
  rewrite Forall_forall in Hw. destruct (Hw u Hu) as (w & Hwu).
  pose proof (user_wanted_domain_admin _ _ _ Hwu Hmem Hda) as ->.
  pose proof (user_in_graph_ids data users groups computers u Hu Hwu) as Huid.
  rewrite (account_name_str _ _ Hsam) in Huid.
  (* the group has a node *)
  assert (Hgw : group_wanted grp = Ok true) by (unfold group_wanted; rewrite Hname; reflexivity).
  pose proof (group_in_graph_ids data users groups computers grp Hgrp Hgw) as Hgid.
  assert (Hgn : group_name grp = "Domain Admins") by (unfold group_name; rewrite Hname; reflexivity).
  rewrite Hgn in Hgid.
  apply (elem_of_list_to_set (C := gset string)) in Huid, Hgid. rewrite <- Hm in Huid, Hgid.
  (* rule 1 ran, and emitted for this user *)
  destruct (group_membership_rule_emits _ _ _ _ Hsam Hadm Huid Hmem Hda)
    as (p & Hp & Ht & Hpath & Hsev).
  apply detect_attack_paths_by_rule in Hd.
  destruct Hd as [users' computers' o1 o2 o3 o4 o5 Hus' _ F1 _ _ _ _].
  rewrite Hus in Hus'. injection Hus' as <-.
  rewrite bool_decide_eq_true_2 in F1 by exact Hgid.
  destruct (Forall2_elem_concat _ _ _ u F1 Hu) as (out & Hout & Hsub).
  simpl in Hout. rewrite Hp in Hout. injection Hout as <-.
  exists p. split.
  { apply elem_of_app. left. apply Hsub. left. }
  split; [assumption|]. split; [assumption|].
  rewrite Hsev. split; intros Hprot.
  - destruct (Py.str_in "Protected Users" member_of) eqn:Hs; [|reflexivity].
    apply str_in_elem in Hs. contradiction.
  - apply str_in_elem in Hprot. rewrite Hprot. reflexivity.
Qed.

Lemma domain_admin_member_finding_witness :
  exists p,
    p ∈ [{| path_type := "Group Membership";
            path_severity := "critical";
            path_description := "User bob is a member of Domain Admins (NOT in Protected Users)";
            path_path := ["user_bob"; "group_Domain Admins"];
            path_steps := ["User bob " +:+ arrow +:+ " Domain Admins (Direct Membership)"] |}] /\
    path_type p = "Group Membership" /\
    path_path p = ["user_bob"; "group_Domain Admins"] /\
    (JStr "Protected Users" ∉ [JStr "Domain Admins"] -> path_severity p = "critical") /\
    (JStr "Protected Users" ∈ [JStr "Domain Admins"] -> path_severity p = "high").
Proof.
  eapply (domain_admin_member_finding snapshot_admin_with_group
            [user_bob_admin] [group_domain_admins] _ _ _
            group_domain_admins user_bob_admin "bob" [JStr "Domain Admins"]).
  - vm_compute. reflexivity.
  - reflexivity.
  - left.
  - reflexivity.
  - reflexivity.
  - left.
  - reflexivity.
  - vm_compute. discriminate.
  - reflexivity.
  - left.
Defined.

(** C3, as stated, fails: without a Domain Admins entry in
    [SecurityGroups], a member of Domain Admins gets no finding. *)
Lemma domain_admin_member_without_group_node :
  section snapshot_admin_without_group "Users" = Ok [user_bob_admin] /\
  Py.get user_bob_admin "SamAccountName" JNull = Ok (JStr "bob") /\
  Py.get user_bob_admin "MemberOf" JNull = Ok (JList [JStr "Domain Admins"]) /\
  exists ns es,
    generate_graph_visualization snapshot_admin_without_group = Ok (ns, es, []).
Proof.
  repeat split. eexists _, _. vm_compute. reflexivity.
Qed.

(** ** The Kerberoasting rule *)

(** A user with SPNs always gets a node. *)
Lemma user_wanted_spns (u : json) (w : bool) :
  user_wanted u = Ok w -> has_spns u = Ok true -> w = true.
Proof.
  unfold user_wanted, user_risk, user_included. intros H Hs.
  rewrite Hs in H. cbn [bind] in H. simpl in H. inv_ok H. reflexivity.
Qed.

Lemma lower_str (v : json) (d : string) :
  Py.lower v = Ok d -> exists s, v = JStr s /\ d = Py.lower_string s.
Proof. destruct v; simpl; try discriminate. intros H. inv_ok H. eauto. Qed.

Lemma is_likely_service_spec (u : json) (name : string) (likely : bool) :
  is_likely_service u (Py.lower_string name) = Ok likely ->
  likely = looks_like_service name (description_text u).
Proof.
  unfold is_likely_service, looks_like_service, description_text. intros H.
  destruct (String.prefix "svc_" (Py.lower_string name)
            || Py.contains "service" (Py.lower_string name)) eqn:Hn.
  - inv_ok H. reflexivity.
  - inv_bind H. inv_bind H. inv_ok H. rewrite E.
    apply lower_str in E0 as (s & -> & ->). reflexivity.
Qed.

Lemma kerberoasting_rule_named (ids : gset string) (u : json) (name : string)
    (out : list attack_path) :
  kerberoasting_rule ids u [] = Ok out ->
  Py.get u "SamAccountName" JNull = Ok (JStr name) ->
  (has_spns u = Ok true -> "user_" +:+ name ∈ ids) ->
  if kerberoastable u then exists p, out = [p] /\ kerberoasting_finding_of u p
  else out = [].
Proof.
  intros H Hn Hid. unfold kerberoastable. rewrite Hn.
  unfold kerberoasting_rule in H. rewrite (get_str_default _ _ _ _ Hn) in H.
  cbn [bind Py.lower Py.str] in H.
  destruct (Py.lower_string name =? "krbtgt")%string eqn:Hk; simpl negb; cbn [andb].
  { inv_ok H. reflexivity. }
  inv_bind H. rewrite E. destruct v.
  - rewrite bool_decide_eq_true_2 in H by (apply Hid; assumption).
    inv_bind H. inv_bind H. inv_bind H. inv_bind H. inv_ok H.
    eexists. split; [reflexivity|]. unfold kerberoasting_finding_of.
    rewrite (account_name_str _ _ Hn). simpl.
    split; [reflexivity|]. split; [reflexivity|].
    apply is_likely_service_spec in E0 as <-. reflexivity.
  - inv_ok H. reflexivity.
Qed.

Lemma kerberoasting_findings_of_users (ids : gset string) (users : list json)
    (outs : list (list attack_path)) :
  Forall2 (fun u out => kerberoasting_rule ids u [] = Ok out) users outs ->
  Forall (fun u => exists name,
            Py.get u "SamAccountName" JNull = Ok (JStr name) /\
            (has_spns u = Ok true -> "user_" +:+ name ∈ ids)) users ->
  Forall2 kerberoasting_finding_of
    (filter (fun u => kerberoastable u = true) users) (concat outs).
Proof.
  induction 1 as [|u out users outs Hu HF IH]; intros Hall.
  - constructor.
  - apply Forall_cons in Hall as [(name & Hn & Hid) Hall].
    specialize (IH Hall). rewrite filter_cons. simpl concat.
    pose proof (kerberoasting_rule_named _ _ _ _ Hu Hn Hid) as Hk.
    destruct (kerberoastable u).
    + destruct Hk as (p & -> & Hp). rewrite decide_True by reflexivity.
      constructor; assumption.
    + subst out. rewrite decide_False by discriminate. exact IH.
Qed.

Lemma filter_type_all (t : string) (l : list attack_path) :
  Forall (fun p => path_type p = t) l ->
  filter (fun p => path_type p = t) l = l.
Proof.
  induction 1 as [|p l Hp _ IH]; [reflexivity|].
  rewrite filter_cons, decide_True by exact Hp. rewrite IH. reflexivity.
Qed.

Lemma filter_type_none (t : string) (l : list attack_path) :
  Forall (fun p => path_type p <> t) l ->
  filter (fun p => path_type p = t) l = [].
Proof.
  induction 1 as [|p l Hp _ IH]; [reflexivity|].
  rewrite filter_cons, decide_False by exact Hp. exact IH.
Qed.

(** C4 (as amended).  In a run over user records that all carry an account
    name, the Kerberoasting findings are, in order, one for each user
    record that has at least one SPN and whose name does not read krbtgt
    once lower-cased by [str.lower], and none besides.  The finding of a user lies on the
    one-node path of that user; its severity is "medium" when the
    lower-cased name starts with "svc_" or the lower-cased name or
    description contains "service", and "high" otherwise.  In particular
    the snapshot with the single user svc_sql and one SPN has the
    Kerberoasting score 10 and exactly one finding, of type Kerberoasting
    and severity "medium". *)
Theorem kerberoasting_findings (data : json) (users : list json)
    (ns : list node) (es : list edge) (ps : list attack_path) :
  generate_graph_visualization data = Ok (ns, es, ps) ->
  section data "Users" = Ok users ->
  (forall u, u ∈ users -> exists name, Py.get u "SamAccountName" JNull = Ok (JStr name)) ->
  Forall2 kerberoasting_finding_of
    (filter (fun u => kerberoastable u = true) users)
    (filter (fun p => path_type p = "Kerberoasting") ps) /\
  (exists s ns' es' p,
     calculate_risk_scores snapshot_svc_sql = Ok s /\ kerberoasting s = 10%Z /\
     generate_graph_visualization snapshot_svc_sql = Ok (ns', es', [p]) /\
     path_type p = "Kerberoasting" /\ path_severity p = "medium").
Proof.
  intros H Hus Hnamed. split.
  2: { eexists _, _, _, _. split; [vm_compute; reflexivity|]. split; [reflexivity|].
       split; [vm_compute; reflexivity|]. split; reflexivity. }
  apply generate_parts in H as (g & Hb & Hd & _ & _).
  pose proof (build_graph_users_wanted _ _ _ Hb Hus) as Hw.
  apply build_graph_ids in Hb as (users' & groups & computers & Hus' & _ & _ & _ & Hm).
  rewrite Hus in Hus'. injection Hus' as <-.
  apply detect_attack_paths_by_rule in Hd.
  destruct Hd as [users' computers' o1 o2 o3 o4 o5 Hus' _ F1 F2 F3 F4 F5].
  rewrite Hus in Hus'. injection Hus' as <-.
  destruct (other_rules_types data g _ _ _ _ _ _ F2 F3 F4 F5) as (T2 & T3 & T4 & T5).
  assert (T1 : Forall (fun p => path_type p = "Group Membership") (concat o1)).
  { destruct (bool_decide (domain_admins_group_id ∈ node_id_map g)) eqn:Hda.
    - apply bool_decide_eq_true in Hda.
      eapply Forall2_sound_concat; [|exact F1]. intros u out Hu. simpl in Hu.
      eapply Forall_impl; [exact (group_membership_rule_sound _ _ _ Hda Hu)|].
      intros p [Hp _]. exact Hp.
    - subst o1. constructor. }
  rewrite !filter_app.
  rewrite (filter_type_all _ _ T2).
  rewrite (filter_type_none _ (concat o1)), (filter_type_none _ (concat o3)),
    (filter_type_none _ (concat o4)), (filter_type_none _ (concat o5)).
  - simpl. rewrite app_nil_r.
    apply (kerberoasting_findings_of_users (node_id_map g)); [exact F2|].
    rewrite Forall_forall in Hw. apply Forall_forall. intros u Hu.
    destruct (Hnamed u Hu) as (name & Hn). exists name. split; [exact Hn|].
    intros Hs. destruct (Hw u Hu) as (w & Hwu).
    pose proof (user_wanted_spns _ _ Hwu Hs) as ->.
    pose proof (user_in_graph_ids data users groups computers u Hu Hwu) as Huid.
    rewrite (account_name_str _ _ Hn) in Huid.
    rewrite Hm. apply elem_of_list_to_set. exact Huid.
  - eapply Forall_impl; [exact T5|]. intros p ->. discriminate.
  - eapply Forall_impl; [exact T4|]. intros p [-> _]. discriminate.
  - eapply Forall_impl; [exact T3|]. intros p [-> | ->]; discriminate.
  - eapply Forall_impl; [exact T1|]. intros p ->. discriminate.
Qed.

(** C4, as stated, fails twice.  On the letter case: the name SVC_SQL
    neither starts with "svc_" nor contains "service", so the claim assigns
    "high", while the detector lower-cases the name first and assigns
    "medium".  On a record without a name: a user with an SPN and no
    [SamAccountName] key has the node user_None, the rule looks for the
    node user_ and there is no finding. *)
Lemma kerberoasting_as_stated_fails :
  (exists ns es p,
     generate_graph_visualization snapshot_upper_svc = Ok (ns, es, [p]) /\
     path_type p = "Kerberoasting" /\
     path_path p = ["user_SVC_SQL"] /\
     path_severity p = "medium" /\
     kerberoasting_severity_as_written "SVC_SQL" EmptyString = "high" /\
     path_severity p <> kerberoasting_severity_as_written "SVC_SQL" EmptyString) /\
  (exists ns es,
     section snapshot_nameless_user "Users" = Ok [user_nameless] /\
     has_spns user_nameless = Ok true /\
     Py.get user_nameless "SamAccountName" (JStr EmptyString) = Ok (JStr EmptyString) /\
     generate_graph_visualization snapshot_nameless_user = Ok (ns, es, []) /\
     ids_of ns = ["domain_DOMAIN"; "user_None"]).
Proof.
  split.
  - eexists _, _, _. split; [vm_compute; reflexivity|].
    repeat split; try reflexivity. vm_compute. discriminate.
  - eexists _, _. split; [reflexivity|]. split; [reflexivity|]. split; [reflexivity|].
    split; [vm_compute; reflexivity|reflexivity].
Qed.

(** The name krbtgt counts in whatever way [str.lower] reads it: written
    with the Kelvin sign for its first letter it lower-cases to krbtgt,
    and the account, with an SPN and without pre-authentication, has a
    node and no finding. *)
Lemma kelvin_sign_krbtgt_is_skipped :
  Py.lower_string kelvin_rbtgt = "krbtgt" /\
  kelvin_rbtgt <> "Krbtgt" /\
  kerberoastable user_kelvin_rbtgt = false /\
  exists ns es,
    generate_graph_visualization snapshot_kelvin_rbtgt = Ok (ns, es, []) /\
    ids_of ns = ["domain_DOMAIN"; "user_" +:+ kelvin_rbtgt].
Proof.
  split; [reflexivity|]. split; [discriminate|]. split; [reflexivity|].
  eexists _, _. split; vm_compute; reflexivity.
Qed.

Lemma kerberoasting_findings_witness :
  Forall2 kerberoasting_finding_of
    (filter (fun u => kerberoastable u = true)
       [JObj [("SamAccountName", JStr "svc_sql");
              ("SPNs", JList [JStr "MSSQLSvc/host:1433"])]])
    (filter (fun p => path_type p = "Kerberoasting")
       [{| path_type := "Kerberoasting";
           path_severity := "medium";
           path_description :=
             "User svc_sql has SPNs and is vulnerable to Kerberoasting (likely service account)";
           path_path := ["user_svc_sql"];
           path_steps := ["User svc_sql has SPNs: MSSQLSvc/host:1433"] |}]) /\
  (exists s ns' es' p,
     calculate_risk_scores snapshot_svc_sql = Ok s /\ kerberoasting s = 10%Z /\
     generate_graph_visualization snapshot_svc_sql = Ok (ns', es', [p]) /\
     path_type p = "Kerberoasting" /\ path_severity p = "medium").
Proof.
  eapply (kerberoasting_findings snapshot_svc_sql).
  - vm_compute. reflexivity.
  - reflexivity.
  - intros u Hu. apply list_elem_of_singleton in Hu as ->.
    exists "svc_sql". reflexivity.
Defined.

(** ** The AS-REP roasting rule *)

Lemma asrep_rule_emits (ids : gset string) (u : json) (name : string) (flag : json) :
  Py.get u "SamAccountName" JNull = Ok (JStr name) ->
  Py.lower_string name <> "administrator" ->
  Py.lower_string name <> "krbtgt" ->
  Py.lower_string name <> "guest" ->
  Py.get u "DoesNotRequirePreAuth" JNull = Ok flag ->
  Py.truthy flag = true ->
  "user_" +:+ name ∈ ids ->
  exists p,
    asrep_rule ids u [] = Ok [p] /\
    path_type p = "AS-REP Roasting" /\
    path_path p = ["user_" +:+ name] /\
    path_severity p = "high".
Proof.
  intros Hn Ha Hk Hg Hf Ht Hid. unfold asrep_rule.
  rewrite (get_str_default _ _ _ _ Hn). cbn [bind Py.lower Py.str].
  apply String.eqb_neq in Ha, Hk, Hg.
  change (Py.lower_string <$> excluded_accounts) with ["administrator"; "krbtgt"; "guest"].
  cbn [existsb]. rewrite Ha, Hk, Hg. cbn [orb].
  rewrite Hf. cbn [bind]. rewrite Ht.
  rewrite bool_decide_eq_true_2 by exact Hid.
  eexists. split; [reflexivity|]. simpl. auto.
Qed.

(** C6 (as amended).  Every user record that carries an account name which,
    once lower-cased by [str.lower], reads neither administrator nor
    krbtgt nor guest, has the does-not-require-preauth flag set and has a
    node in the graph (the builder's inclusion test holds for it) gets an
    AS-REP Roasting finding on its one-node path, with severity "high";
    and every AS-REP Roasting finding of a run has severity "high". *)
Theorem asrep_roasting_finding (data : json) (users : list json)
    (ns : list node) (es : list edge) (ps : list attack_path)
    (u : json) (name : string) (flag : json) :
  generate_graph_visualization data = Ok (ns, es, ps) ->
  section data "Users" = Ok users ->
  u ∈ users ->
  Py.get u "SamAccountName" JNull = Ok (JStr name) ->
  Py.lower_string name <> "administrator" ->
  Py.lower_string name <> "krbtgt" ->
  Py.lower_string name <> "guest" ->
  Py.get u "DoesNotRequirePreAuth" JNull = Ok flag ->
  Py.truthy flag = true ->
  user_wanted u = Ok true ->
  (exists p,
     p ∈ ps /\ path_type p = "AS-REP Roasting" /\
     path_path p = ["user_" +:+ name] /\ path_severity p = "high") /\
  (forall p, p ∈ ps -> path_type p = "AS-REP Roasting" -> path_severity p = "high").
Proof.
  intros H Hus Hu Hn Ha Hk Hg Hf Ht Hw.
  apply generate_parts in H as (g & Hb & Hd & _ & _).
  apply build_graph_ids in Hb as (users' & groups & computers & Hus' & _ & _ & _ & Hm).
  rewrite Hus in Hus'. injection Hus' as <-.
  pose proof (user_in_graph_ids data users groups computers u Hu Hw) as Huid.
  rewrite (account_name_str _ _ Hn) in Huid.
  apply (elem_of_list_to_set (C := gset string)) in Huid. rewrite <- Hm in Huid.
  destruct (asrep_rule_emits _ _ _ _ Hn Ha Hk Hg Hf Ht Huid) as (p & Hp & Hty & Hpath & Hsev).
  apply detect_attack_paths_by_rule in Hd.
  destruct Hd as [users' computers' o1 o2 o3 o4 o5 Hus' _ F1 F2 F3 F4 F5].
  rewrite Hus in Hus'. injection Hus' as <-.
  split.
  - destruct (Forall2_elem_concat _ _ _ u F4 Hu) as (out & Hout & Hsub).
    simpl in Hout. rewrite Hp in Hout. injection Hout as <-.
    exists p. split; [|auto].
    do 3 (apply elem_of_app; right). apply elem_of_app. left. apply Hsub. left.
  - destruct (other_rules_types data g _ _ _ _ _ _ F2 F3 F4 F5) as (T2 & T3 & T4 & T5).
    assert (T1 : Forall (fun p => path_type p = "Group Membership") (concat o1)).
    { destruct (bool_decide (domain_admins_group_id ∈ node_id_map g)) eqn:Hda.
      - apply bool_decide_eq_true in Hda.
        eapply Forall2_sound_concat; [|exact F1]. intros u' out Hu'. simpl in Hu'.
        eapply Forall_impl; [exact (group_membership_rule_sound _ _ _ Hda Hu')|].
        intros q [Hq _]. exact Hq.
      - subst o1. constructor. }
    rewrite Forall_forall in T1, T2, T3, T4, T5.
    intros q Hq Hqt.
    repeat (apply elem_of_app in Hq as [Hq|Hq]).
    + rewrite (T1 q Hq) in Hqt. discriminate.
    + rewrite (T2 q Hq) in Hqt. discriminate.
    + destruct (T3 q Hq) as [E | E]; rewrite E in Hqt; discriminate.
    + apply (T4 q Hq).
    + rewrite (T5 q Hq) in Hqt. discriminate.
Qed.

Lemma asrep_roasting_finding_witness :
  exists ns es ps,
    generate_graph_visualization snapshot_no_preauth_spn = Ok (ns, es, ps) /\
    (exists p,
       p ∈ ps /\ path_type p = "AS-REP Roasting" /\
       path_path p = ["user_dave"] /\ path_severity p = "high") /\
    (forall p, p ∈ ps -> path_type p = "AS-REP Roasting" -> path_severity p = "high").
Proof.
  eexists _, _, _. split; [vm_compute; reflexivity|].
  eapply (asrep_roasting_finding snapshot_no_preauth_spn [user_dave_no_preauth]
            _ _ _ user_dave_no_preauth "dave" (JBool true)).
  - vm_compute. reflexivity.
  - reflexivity.
  - left.
  - reflexivity.
  - vm_compute. discriminate.
  - vm_compute. discriminate.
  - vm_compute. discriminate.
  - reflexivity.
  - reflexivity.
  - reflexivity.
Defined.

(** C6, as stated, fails: a user whose only risk factor is the missing
    pre-authentication has no node, and gets no finding; and a user
    without the [SamAccountName] key, flagged and with an SPN, has the node
    user_None, which the rule does not find under user_. *)
Lemma no_preauth_without_node_no_finding :
  (section snapshot_no_preauth_only "Users" = Ok [user_carol_no_preauth] /\
   Py.get user_carol_no_preauth "SamAccountName" JNull = Ok (JStr "carol") /\
   Py.get user_carol_no_preauth "DoesNotRequirePreAuth" JNull = Ok (JBool true) /\
   exists ns es,
     generate_graph_visualization snapshot_no_preauth_only = Ok (ns, es, [])) /\
  (section snapshot_nameless_user "Users" = Ok [user_nameless] /\
   Py.get user_nameless "DoesNotRequirePreAuth" JNull = Ok (JBool true) /\
   user_wanted user_nameless = Ok true /\
   exists ns es,
     generate_graph_visualization snapshot_nameless_user = Ok (ns, es, []) /\
     ids_of ns = ["domain_DOMAIN"; "user_None"]).
Proof.
  split.
  - repeat split. eexists _, _. vm_compute. reflexivity.
  - split; [reflexivity|]. split; [reflexivity|]. split; [reflexivity|].
    eexists _, _. split; [vm_compute; reflexivity|reflexivity].
Qed.

(** ** Uniqueness of node ids *)








(** ** Marking the attack-path edges *)

Lemma consecutive_pair_key (l1 l2 : list string) (a b : string) :
  edge_key a b ∈ path_edge_keys (l1 ++ a :: b :: l2).
Proof.
  induction l1 as [|x l1 IH]; simpl.
  - left.
  - destruct (l1 ++ a :: b :: l2) as [|y rest] eqn:E.
    + destruct l1; discriminate E.
    + right. exact IH.
Qed.

Lemma path_key_in_edge_ids (ps : list attack_path) (p : attack_path) (k : string) :
  p ∈ ps -> k ∈ path_edge_keys (path_path p) -> k ∈ attack_path_edge_ids ps.
Proof.
  intros Hp Hk. unfold attack_path_edge_ids. apply elem_of_list_to_set.
  apply list_elem_of_In, in_concat. exists (path_edge_keys (path_path p)).
  split; [|apply list_elem_of_In; exact Hk].
  apply list_elem_of_In. apply (list_elem_of_fmap_2 (fun p => path_edge_keys (path_path p))).
  exact Hp.
Qed.

Lemma edge_ids_from_path (ps : list attack_path) (k : string) :
  k ∈ attack_path_edge_ids ps ->
  exists p, p ∈ ps /\ k ∈ path_edge_keys (path_path p).
Proof.
  unfold attack_path_edge_ids. intros H. apply elem_of_list_to_set in H.
  apply list_elem_of_In, in_concat in H as (keys & Hkeys & Hk).
  apply list_elem_of_In, list_elem_of_fmap in Hkeys as (p & -> & Hp).
  exists p. split; [exact Hp|apply list_elem_of_In; exact Hk].
Qed.

(** Every edge whose ordered endpoint pair is a consecutive pair of some
    finding's path carries the flag after the marking. *)
Lemma edge_on_path_flagged (data : json) (ns : list node) (es : list edge)
    (ps : list attack_path) (e : edge) (p : attack_path)
    (l1 l2 : list string) (a b : string) :
  generate_graph_visualization data = Ok (ns, es, ps) ->
  e ∈ es -> p ∈ ps ->
  path_path p = l1 ++ a :: b :: l2 ->
  edge_from e = a -> edge_to e = b ->
  edge_attackPath e = true.
Proof.
  intros H He Hp Hpath Hfrom Hto.
  apply generate_parts in H as (g & _ & _ & _ & ->).
  apply list_elem_of_fmap in He as (e0 & -> & _).
  assert (Hk : edge_key (edge_from e0) (edge_to e0) ∈ attack_path_edge_ids ps).
  { apply (path_key_in_edge_ids ps p); [exact Hp|]. rewrite Hpath.
    unfold mark_edge in Hfrom, Hto.
    destruct (bool_decide _ || edge_attackPath e0); simpl in Hfrom, Hto;
      rewrite Hfrom, Hto; apply consecutive_pair_key. }
  unfold mark_edge. rewrite bool_decide_eq_true_2 by exact Hk. reflexivity.
Qed.

(** Marking twice is marking once. *)
Lemma mark_edge_idempotent (keys : gset string) (e : edge) :
  mark_edge keys (mark_edge keys e) = mark_edge keys e.
Proof.
  unfold mark_edge.
  destruct (bool_decide (edge_key (edge_from e) (edge_to e) ∈ keys) || edge_attackPath e)
    eqn:E; simpl.
  - rewrite orb_true_r. reflexivity.
  - rewrite E. reflexivity.
Qed.

Lemma member_edges_ok_add_edge (e : edge) (g : graph) :
  member_edge_ok e -> member_edges_ok g -> member_edges_ok (add_edge e g).
Proof.
  intros He Hg. unfold member_edges_ok. simpl. apply Forall_app. split; [exact Hg|].
  constructor; [exact He|constructor].
Qed.

Lemma add_member_edges_ok (gid : string) (m : json) (g g' : graph) :
  first_char gid = Some "g"%char ->
  member_edges_ok g -> add_member gid m g = Ok g' -> member_edges_ok g'.
Proof.
  intros Hgid Hg H. unfold add_member in H. repeat run_step H; try exact Hg.
  apply member_edges_ok_add_edge; [|exact Hg]. intros _. auto.
Qed.

Lemma build_graph_member_edges (data : json) (g : graph) :
  build_graph data = Ok g -> member_edges_ok g.
Proof.
  unfold build_graph. intros H. inv_binds H.
  assert (H0 : member_edges_ok
                 (add_node {| node_id := v0; node_label := v; node_type := "domain";
                              node_group := "domain"; node_risk := None;
                              node_spns := None; node_color := "#dc3545" |}
                    {| nodes := []; edges := []; node_id_map := ∅;
                       high_risk_users := [] |})) by constructor.
  assert (H1 : member_edges_ok v2).
  { apply (for_each_inv member_edges_ok _ _ _ _ E2 H0).
    intros u s1 s2 _ Hs Hu. unfold add_user in Hu. repeat run_step Hu; try exact Hs.
    apply (member_edges_ok_add_edge _ (add_node _ s1)); [|exact Hs].
    intros Hl. discriminate Hl. }
  assert (H2 : member_edges_ok v4).
  { apply (for_each_inv member_edges_ok _ _ _ _ E4 H1).
    intros grp s1 s2 _ Hs Hgrp. unfold add_group in Hgrp. repeat run_step Hgrp; try exact Hs.
    apply (for_each_inv member_edges_ok _ _ _ _ Hgrp).
    - apply (member_edges_ok_add_edge _ (add_node _ s1)); [|exact Hs].
      intros Hl. discriminate Hl.
    - intros m t1 t2 _ Ht Hm. eapply add_member_edges_ok; [|exact Ht|exact Hm]. reflexivity. }
  assert (H3 : member_edges_ok v6).
  { apply (for_each_inv member_edges_ok _ _ _ _ E6 H2).
    intros c s1 s2 _ Hs Hc. unfold add_computer in Hc. repeat run_step Hc; try exact Hs.
    apply (member_edges_ok_add_edge _ (add_node _ s1)); [|exact Hs].
    intros Hl. discriminate Hl. }
  apply (for_each_inv member_edges_ok _ _ _ _ H H3).
  intros u s1 s2 _ Hs Hu. unfold add_delegation_edges in Hu.
  repeat run_step Hu; try exact Hs.
  apply (for_each_inv member_edges_ok _ _ _ _ Hu Hs).
  intros c t1 t2 _ Ht Hc. unfold add_delegation_edge in Hc.
  repeat run_step Hc; try exact Ht.
  apply member_edges_ok_add_edge; [|exact Ht]. intros Hl. discriminate Hl.
Qed.

Lemma first_char_app (a b : string) (c : ascii) :
  first_char a = Some c -> first_char (a +:+ b) = Some c.
Proof. destruct a; [discriminate|]. intros H. exact H. Qed.

(** The key of every consecutive pair of every path starts with the
    letter of a user id. *)
Lemma edge_ids_start_with_u (data : json) (g : graph) (ps : list attack_path) (k : string) :
  findings_by_rule data g ps ->
  k ∈ attack_path_edge_ids ps -> first_char k = Some "u"%char.
Proof.
  intros Hf Hk. apply findings_wf in Hf. rewrite Forall_forall in Hf.
  apply edge_ids_from_path in Hk as (p & Hp & Hk).
  destruct (Hf p Hp) as [_ [[x Hx] | [s Hs]]].
  - rewrite Hx in Hk. apply elem_of_nil in Hk as [].
  - rewrite Hs in Hk. simpl in Hk. apply list_elem_of_singleton in Hk as ->. reflexivity.
Qed.

(** In every run, no membership edge carries the attack-path flag: the
    path of a Group Membership finding runs from the user to the group,
    the edge from the group to the user, so their keys never meet. *)
Lemma member_of_edges_never_flagged (data : json) (ns : list node) (es : list edge)
    (ps : list attack_path) (e : edge) :
  generate_graph_visualization data = Ok (ns, es, ps) ->
  e ∈ es -> edge_label e = "MemberOf" -> edge_attackPath e = false.
Proof.
  intros H He Hl.
  apply generate_parts in H as (g & Hb & Hd & _ & ->).
  apply build_graph_member_edges in Hb. apply detect_attack_paths_by_rule in Hd.
  apply list_elem_of_fmap in He as (e0 & -> & He0).
  unfold member_edges_ok in Hb. rewrite Forall_forall in Hb. specialize (Hb e0 He0).
  assert (Hl0 : edge_label e0 = "MemberOf").
  { unfold mark_edge in Hl. destruct (_ || _); exact Hl. }
  destruct (Hb Hl0) as [Hfrom Hflag].
  unfold mark_edge. rewrite Hflag, orb_false_r.
  rewrite bool_decide_eq_false_2; [exact Hflag|].
  intros Hk. apply (edge_ids_start_with_u data g) in Hk; [|exact Hd].
  unfold edge_key in Hk. rewrite (first_char_app _ _ _ Hfrom) in Hk. discriminate Hk.
Qed.

(** C8 at the failing input: a Domain Admins member, the group present.
    The Group Membership finding has the path from the user to the group,
    and the MemberOf edge between that group node and that user node is
    not flagged after the marking. *)
Theorem member_of_edge_not_flagged :
  exists ns es p e,
    generate_graph_visualization snapshot_admin_with_group = Ok (ns, es, [p]) /\
    path_type p = "Group Membership" /\
    path_path p = ["user_bob"; "group_Domain Admins"] /\
    e ∈ es /\
    edge_label e = "MemberOf" /\
    edge_from e = "group_Domain Admins" /\ edge_to e = "user_bob" /\
    edge_attackPath e = false.
Proof.
  eexists _, _, _, _. split; [vm_compute; reflexivity|].
  split; [reflexivity|]. split; [reflexivity|].
  split; [right; right; left|]. repeat split.
Qed.

(** ** Fields of unexpected shape *)

(** C5 at the failing inputs: a [null] [EncryptionTypes] stops the scoring
    with a [TypeError], and a [null] [Description] on a user with SPNs stops
    the attack-path detection with an [AttributeError]; a [null] [SPNs] is
    read as no SPN. *)
Theorem null_fields_raise :
  calculate_risk_scores snapshot_null_encryption = Raise TypeError /\
  generate_graph_visualization snapshot_null_encryption = Raise TypeError /\
  (exists s, calculate_risk_scores snapshot_null_description = Ok s) /\
  generate_graph_visualization snapshot_null_description = Raise AttributeError /\
  (exists s, calculate_risk_scores snapshot_null_spns = Ok s /\ kerberoasting s = 0%Z) /\
  (exists ns es, generate_graph_visualization snapshot_null_spns = Ok (ns, es, [])).
Proof.
  split; [reflexivity|]. split; [vm_compute; reflexivity|].
  split; [eexists; reflexivity|]. split; [vm_compute; reflexivity|].
  split; [eexists; split; reflexivity|].
  eexists _, _. vm_compute. reflexivity.
Qed.

(** ** Runs on snapshots of the expected shape *)

Lemma get_dict (x : json) (k : string) (d : json) :
  is_dict x -> exists v, Py.get x k d = Ok v.
Proof. intros [f ->]. simpl. eauto. Qed.

Lemma get_field (x : json) (k : string) (d : json) (P : json -> Prop) :
  is_dict x -> field_if_present x k P -> P d ->
  exists v, Py.get x k d = Ok v /\ P v.
Proof.
  intros [f ->] Hf Hd. simpl. destruct (Py.assoc k f) as [v|] eqn:E; simpl.
  - exists v. split; [reflexivity|]. eapply Hf; eauto.
  - eauto.
Qed.

Lemma section_shape (data : json) (k : string) (P : json -> Prop) :
  is_dict data -> field_if_present data k (list_of P) ->
  exists l, section data k = Ok l /\ Forall P l.
Proof.
  intros Hd Hf. unfold section.
  destruct (get_field data k (JList []) (list_of P) Hd Hf) as (v & Hv & l & -> & Hl).
  - exists []. split; [reflexivity|constructor].
  - rewrite Hv. simpl. eauto.
Qed.

Lemma for_each_total {A S : Type} (I : S -> Prop) (body : A -> S -> result S)
    (l : list A) (s : S) :
  I s ->
  (forall x s1, x ∈ l -> I s1 -> exists s2, body x s1 = Ok s2 /\ I s2) ->
  exists sf, for_each l body s = Ok sf /\ I sf.
Proof.
  revert s. induction l as [|x l IH]; intros s Hs Hbody; simpl.
  - eauto.
  - destruct (Hbody x s) as (s2 & -> & Hs2); [left|exact Hs|]. simpl.
    apply IH; [exact Hs2|]. intros y s1 Hy. apply Hbody. right. exact Hy.
Qed.

Lemma comprehension_ok {A : Type} (cond : A -> result bool) (P : A -> Prop) (l : list A) :
  Forall P l -> (forall x, P x -> exists b, cond x = Ok b) ->
  exists r, comprehension cond l = Ok r /\ Forall P r.
Proof.
  intros Hl Hc. induction Hl as [|x l Hx Hl IH]; simpl; [eauto|].
  destruct (Hc x Hx) as [b ->]. simpl. destruct IH as (r & -> & Hr). simpl.
  eexists. split; [reflexivity|]. destruct b; [constructor|]; assumption.
Qed.

(** The tests on one record. *)

Lemma nonempty_field_ok (x : json) (k : string) :
  is_dict x -> field_if_present x k (falsy_or is_sized) ->
  exists b, nonempty_field x k = Ok b.
Proof.
  intros [f ->] Hf. unfold nonempty_field. simpl.
  destruct (Py.assoc k f) as [v|] eqn:E; simpl; [|eauto].
  destruct (Py.truthy v) eqn:Ht; [|eauto].
  destruct (Hf f v eq_refl E) as [H|H]; [congruence|].
  destruct H as [[l ->]|[[s ->]|[g ->]]]; simpl; eauto.
Qed.

Lemma string_list_sized (v : json) : falsy_or string_list v -> falsy_or is_sized v.
Proof. intros [H|(l & -> & _)]; [left; exact H|right; left; eauto]. Qed.

Lemma has_spns_ok (u : json) : user_shape u -> exists b, has_spns u = Ok b.
Proof.
  intros (Hd & _ & Hs & _). apply nonempty_field_ok; [exact Hd|].
  intros f v Hf Hv. apply string_list_sized. eapply Hs; eauto.
Qed.

Lemma has_delegation_flag_ok (x : json) :
  is_dict x -> exists b, has_delegation_flag x = Ok b.
Proof.
  intros [f ->]. unfold has_delegation_flag. simpl.
  destruct (Py.truthy _); eauto.
Qed.

Lemma get_member_of_ok (u : json) : is_dict u -> exists l, _get_member_of u = Ok l.
Proof.
  intros [f ->]. unfold _get_member_of. simpl.
  destruct (default JNull (Py.assoc "MemberOf" f)); eauto.
Qed.

Lemma in_group_ok (g : string) (u : json) : is_dict u -> exists b, in_group g u = Ok b.
Proof.
  intros Hd. unfold in_group. destruct (get_member_of_ok u Hd) as [l ->]. simpl. eauto.
Qed.

Lemma not_in_group_ok (g : string) (u : json) :
  is_dict u -> exists b, not_in_group g u = Ok b.
Proof.
  intros Hd. unfold not_in_group. destruct (get_member_of_ok u Hd) as [l ->]. simpl. eauto.
Qed.

Lemma has_weak_encryption_ok (u : json) :
  user_shape u -> exists b, has_weak_encryption u = Ok b.
Proof.
  intros (Hd & _ & _ & He & _). unfold has_weak_encryption.
  destruct (get_field u "EncryptionTypes" (JList []) is_sized Hd He) as (v & -> & Hv).
  { left. eauto. }
  simpl. destruct Hv as [[l ->]|[[s ->]|[g ->]]]; simpl; eauto.
Qed.

Lemma weak_encryption_user_ok (u : json) :
  user_shape u -> exists b, weak_encryption_user u = Ok b.
Proof.
  intros Hu. unfold weak_encryption_user.
  destruct (has_weak_encryption_ok u Hu) as [b ->]. simpl.
  destruct b; [eauto|]. destruct Hu as ([f ->] & _). simpl. eauto.
Qed.

Lemma counter_above_ok (k : string) (n : Z) (u : json) :
  is_dict u -> field_if_present u k (falsy_or is_int) ->
  exists b, counter_above k n u = Ok b.
Proof.
  intros [f ->] Hf. unfold counter_above. simpl.
  destruct (Py.assoc k f) as [v|] eqn:E; simpl; [|eauto].
  destruct (Py.truthy v) eqn:Ht; [|eauto].
  destruct (Hf f v eq_refl E) as [H|H]; [congruence|].
  destruct H as [[z ->]|[b ->]]; simpl; eauto.
Qed.

Lemma computer_with_delegation_ok (c : json) :
  computer_shape c -> exists b, computer_with_delegation c = Ok b.
Proof.
  intros (Hd & _ & Hc). unfold computer_with_delegation.
  destruct (has_delegation_flag_ok c Hd) as [b ->]. simpl.
  assert (exists d, (if b then Ok true else nonempty_field c "ConstrainedDelegation") = Ok d)
    as [d ->].
  { destruct b; [eauto|]. apply nonempty_field_ok; assumption. }
  simpl. destruct d; [|eauto]. destruct Hd as [f ->]. simpl. eauto.
Qed.

Lemma ntlm_score_ok (data : json) :
  snapshot_shape data ->
  exists ev n, ntlm_event_count data = Ok ev /\ Py.min_double_100 ev = Ok n.
Proof.
  intros (Hd & _ & _ & _ & Hs). unfold ntlm_event_count.
  destruct (get_field data "Statistics" (JObj []) statistics_shape Hd Hs)
    as (st & -> & Hst & Hn).
  { split; [exists []; reflexivity|]. intros f v Hf. injection Hf as <-. discriminate. }
  simpl.
  destruct (get_field st "NTLMEventCount" (JInt 0) is_int Hst Hn) as (ev & -> & Hev).
  { left. eauto. }
  exists ev. destruct Hev as [[z ->]|[b ->]]; simpl; eauto.
Qed.

Lemma user_shape_dict (l : list json) : Forall user_shape l -> Forall is_dict l.
Proof. intros H. eapply Forall_impl; [exact H|]. intros u (Hd & _). exact Hd. Qed.

(** The scoring engine returns on every snapshot of the expected shape. *)
Lemma calculate_risk_scores_total (data : json) :
  snapshot_shape data -> exists s, calculate_risk_scores data = Ok s.
Proof.
  intros Hshape. pose proof Hshape as (Hd & Hu & Hc & _ & _).
  destruct (section_shape data "Users" user_shape Hd Hu) as (users & Husers & HU).
  destruct (section_shape data "Computers" computer_shape Hd Hc) as (comps & Hcomps & HC).
  destruct (ntlm_score_ok data Hshape) as (ev & n & Hev & Hn).
  unfold calculate_risk_scores. rewrite !Husers, Hcomps, Hev. cbn [bind]. rewrite Hn.
  destruct (comprehension_ok has_spns _ users HU has_spns_ok) as (r1 & -> & _).
  cbn [bind].
  destruct (comprehension_ok has_delegation_flag _ users (user_shape_dict _ HU)
              has_delegation_flag_ok) as (r2 & -> & _).
  cbn [bind].
  destruct (comprehension_ok computer_with_delegation _ comps HC computer_with_delegation_ok)
    as (r3 & -> & _).
  cbn [bind].
  destruct (comprehension_ok weak_encryption_user _ users HU weak_encryption_user_ok)
    as (r4 & -> & _).
  cbn [bind].
  destruct (comprehension_ok (in_group "Domain Admins") _ users (user_shape_dict _ HU)
              (in_group_ok _)) as (r5 & -> & H5).
  cbn [bind].
  destruct (comprehension_ok (not_in_group "Protected Users") _ r5 H5 (not_in_group_ok _))
    as (r6 & -> & _).
  cbn [bind].
  destruct (comprehension_ok (counter_above "DaysSinceLastLogon" 90) _ users HU)
    as (r7 & -> & _).
  { intros u (Hud & _ & _ & _ & Hl & _). apply counter_above_ok; assumption. }
  cbn [bind].
  destruct (comprehension_ok (counter_above "DaysSincePasswordChange" 365) _ users HU)
    as (r8 & -> & _).
  { intros u (Hud & _ & _ & _ & _ & Hp & _). apply counter_above_ok; assumption. }
  cbn [bind]. eauto.
Qed.

(** The graph builder. *)

Lemma user_risk_ok (u : json) : user_shape u -> exists r, user_risk u = Ok r.
Proof.
  intros Hu. pose proof Hu as (Hd & _). unfold user_risk.
  destruct (has_spns_ok u Hu) as [b ->]. cbn [bind]. destruct b; [eauto|].
  destruct (has_delegation_flag_ok u Hd) as [b ->]. cbn [bind]. destruct b; [eauto|].
  destruct (in_group_ok "Domain Admins" u Hd) as [b ->]. cbn [bind].
  assert (exists a, (if b then Ok true else in_group "Enterprise Admins" u) = Ok a) as [a ->].
  { destruct b; [eauto|]. apply in_group_ok. exact Hd. }
  cbn [bind]. destruct a; [eauto|].
  destruct (has_weak_encryption_ok u Hu) as [w ->]. cbn [bind]. destruct w; eauto.
Qed.

Lemma user_wanted_ok (u : json) : user_shape u -> exists w, user_wanted u = Ok w.
Proof.
  intros Hu. unfold user_wanted. destruct (user_risk_ok u Hu) as [r ->]. cbn [bind].
  unfold user_included. destruct (_ || _); [eauto|].
  apply in_group_ok. destruct Hu as (Hd & _). exact Hd.
Qed.

Lemma strings_of_filter (ss : list string) (l : list json) :
  exists r, Py.strings_of (List.filter (fun g => Py.in_strs g ss) l) = Ok r.
Proof.
  induction l as [|v l [r IH]]; simpl; [eauto|].
  destruct (Py.in_strs v ss) eqn:E; [|eauto].
  apply in_strs_str in E as (s & -> & _). simpl. rewrite IH. simpl. eauto.
Qed.

Lemma strings_of_ok (l : list json) :
  Forall is_str l -> exists r, Py.strings_of l = Ok r.
Proof.
  induction 1 as [|v l [s ->] _ [r IH]]; simpl; [eauto|]. rewrite IH. simpl. eauto.
Qed.

Lemma user_node_ok (u : json) (risk uid : string) :
  user_shape u -> exists n, user_node u risk uid = Ok n.
Proof.
  intros (Hd & _ & Hs & _). unfold user_node.
  destruct (get_dict u "SamAccountName" (JStr "N/A") Hd) as [lab ->]. cbn [bind].
  destruct (get_member_of_ok u Hd) as [mo ->]. cbn [bind].
  unfold Py.join_value. cbn [Py.iter bind].
  destruct (strings_of_filter ["Domain Admins"; "Enterprise Admins"] mo) as [r ->].
  cbn [bind]. destruct Hd as [f ->]. cbn [Py.get bind].
  destruct (Py.assoc "SPNs" f) as [v|] eqn:E; cbn [default bind]; [|simpl; eauto].
  change (id v) with v.
  assert (exists n, (if Py.truthy v then Py.len v else Ok 0%Z) = Ok n) as [n ->].
  { destruct (Py.truthy v) eqn:Ht; [|eauto].
    destruct (Hs f v eq_refl E) as [H|(l & -> & _)]; [congruence|]. simpl. eauto. }
  cbn [bind]. eauto.
Qed.

Lemma user_id_of_ok (u : json) : is_dict u -> exists i, user_id_of u = Ok i.
Proof. intros [f ->]. unfold user_id_of. simpl. eauto. Qed.

Lemma comp_id_of_ok (c : json) : is_dict c -> exists i, comp_id_of c = Ok i.
Proof. intros [f ->]. unfold comp_id_of. simpl. eauto. Qed.

Lemma add_user_ok (d : string) (u : json) (g : graph) :
  user_shape u -> remembered_dicts g ->
  exists g', add_user d u g = Ok g' /\ remembered_dicts g'.
Proof.
  intros Hu Hg. pose proof Hu as (Hd & _). unfold add_user.
  destruct (user_risk_ok u Hu) as [r Hr]. rewrite Hr. cbn [bind].
  assert (exists w, user_included r u = Ok w) as [w ->].
  { unfold user_included. destruct (_ || _); [eauto|]. apply in_group_ok. exact Hd. }
  cbn [bind]. destruct w; [|eauto].
  destruct (user_id_of_ok u Hd) as [i ->]. cbn [bind].
  destruct (user_node_ok u r i Hu) as [n ->]. cbn [bind].
  eexists. split; [reflexivity|]. unfold remembered_dicts. simpl.
  apply Forall_app. split; [exact Hg|]. constructor; [exact Hd|constructor].
Qed.

Lemma add_member_ok (gid : string) (m : json) (g : graph) :
  is_dict m -> remembered_dicts g ->
  exists g', add_member gid m g = Ok g' /\ remembered_dicts g'.
Proof.
  intros [f ->] Hg. unfold add_member. cbn [Py.get bind].
  destruct (Py.truthy _); [|eauto]. destruct (bool_decide _); eauto.
Qed.

Lemma add_group_ok (d : string) (grp : json) (g : graph) :
  group_shape grp -> remembered_dicts g ->
  exists g', add_group d grp g = Ok g' /\ remembered_dicts g'.
Proof.
  intros (Hd & Hm) Hg. unfold add_group.
  destruct (get_dict grp "Name" (JStr EmptyString) Hd) as [name ->]. cbn [bind].
  destruct (Py.in_strs name privileged_groups); [|eauto].
  destruct (get_field grp "Members" (JList []) (list_of is_dict) Hd Hm)
    as (mv & -> & ms & -> & Hms).
  { exists []. split; [reflexivity|constructor]. }
  cbn [bind Py.iter].
  apply (for_each_total remembered_dicts); [exact Hg|].
  intros m s1 Hin Hs1. apply add_member_ok; [|exact Hs1].
  rewrite Forall_forall in Hms. apply Hms. exact Hin.
Qed.

Lemma strip_dollar_ok (v : json) : is_str v -> exists s, Py.strip_dollar v = Ok s.
Proof. intros [s ->]. simpl. eauto. Qed.

Lemma add_computer_ok (d : string) (c : json) (g : graph) :
  computer_shape c -> remembered_dicts g ->
  exists g', add_computer d c g = Ok g' /\ remembered_dicts g'.
Proof.
  intros (Hd & Hn & _) Hg. unfold add_computer.
  destruct (has_delegation_flag_ok c Hd) as [b ->]. cbn [bind].
  assert (exists w, (if b then Ok true
                     else let* dc := Py.get c "IsDomainController" JNull in Ok (Py.truthy dc))
                    = Ok w) as [w ->].
  { destruct b; [eauto|]. destruct Hd as [f ->]. simpl. eauto. }
  cbn [bind]. destruct w; [|eauto].
  destruct (comp_id_of_ok c Hd) as [i ->]. cbn [bind].
  destruct (get_dict c "IsDomainController" JNull Hd) as [dc ->]. cbn [bind].
  destruct (get_field c "SamAccountName" (JStr "N/A") is_str Hd Hn) as (sam & -> & Hsam).
  { eexists. reflexivity. }
  cbn [bind]. destruct (strip_dollar_ok sam Hsam) as [lab ->]. cbn [bind]. eauto.
Qed.

Lemma add_delegation_edges_ok (data u : json) (computers : list json) (g : graph) :
  section data "Computers" = Ok computers -> Forall is_dict computers ->
  is_dict u -> remembered_dicts g ->
  exists g', add_delegation_edges data u g = Ok g' /\ remembered_dicts g'.
Proof.
  intros Hc Hcs Hu Hg. unfold add_delegation_edges.
  destruct (has_delegation_flag_ok u Hu) as [b ->]. cbn [bind]. destruct b; [|eauto].
  destruct (user_id_of_ok u Hu) as [i ->]. cbn [bind].
  destruct (bool_decide _); [|eauto]. rewrite Hc. cbn [bind].
  apply (for_each_total remembered_dicts); [exact Hg|].
  intros c s1 Hin Hs1. unfold add_delegation_edge.
  rewrite Forall_forall in Hcs. destruct (comp_id_of_ok c (Hcs c Hin)) as [j ->].
  cbn [bind]. destruct (bool_decide _); eauto.
Qed.

Lemma computer_shape_dict (l : list json) : Forall computer_shape l -> Forall is_dict l.
Proof. intros H. eapply Forall_impl; [exact H|]. intros u (Hd & _). exact Hd. Qed.

Lemma build_graph_total (data : json) :
  snapshot_shape data ->
  exists g, build_graph data = Ok g /\ remembered_dicts g.
Proof.
  intros (Hd & Hu & Hc & Hg & _).
  destruct (section_shape data "Users" user_shape Hd Hu) as (users & Husers & HU).
  destruct (section_shape data "Computers" computer_shape Hd Hc) as (comps & Hcomps & HC).
  destruct (section_shape data "SecurityGroups" group_shape Hd Hg) as (groups & Hgroups & HG).
  unfold build_graph, domain_id_of.
  destruct (get_dict data "Domain" (JStr "DOMAIN") Hd) as [dom ->]. cbn [bind].
  rewrite Husers. cbn [bind]. rewrite Forall_forall in HU, HG.
  edestruct (for_each_total remembered_dicts (add_user ("domain_" +:+ Py.str dom)) users)
    as (g1 & -> & I1).
  { constructor. }
  { intros u s1 Hin Hs1. apply add_user_ok; auto. }
  cbn [bind]. rewrite Hgroups. cbn [bind].
  edestruct (for_each_total remembered_dicts (add_group ("domain_" +:+ Py.str dom)) groups)
    as (g2 & -> & I2).
  { exact I1. }
  { intros u s1 Hin Hs1. apply add_group_ok; auto. }
  cbn [bind]. rewrite Hcomps. cbn [bind].
  pose proof (computer_shape_dict _ HC) as HCd. rewrite Forall_forall in HC.
  edestruct (for_each_total remembered_dicts (add_computer ("domain_" +:+ Py.str dom)) comps)
    as (g3 & -> & I3).
  { exact I2. }
  { intros u s1 Hin Hs1. apply add_computer_ok; auto. }
  cbn [bind].
  apply (for_each_total remembered_dicts); [exact I3|].
  intros u s1 Hin Hs1. eapply add_delegation_edges_ok; eauto.
  unfold remembered_dicts in I3. rewrite Forall_forall in I3. auto.
Qed.

(** The attack-path rules. *)

Lemma sam_default_str (u : json) :
  is_dict u -> field_if_present u "SamAccountName" is_str ->
  exists s, Py.get u "SamAccountName" (JStr EmptyString) = Ok (JStr s).
Proof.
  intros Hd Hn.
  destruct (get_field u "SamAccountName" (JStr EmptyString) is_str Hd Hn) as (v & -> & [s ->]);
    [eexists; reflexivity|eauto].
Qed.

Lemma group_membership_rule_ok (ids : gset string) (u : json) (acc : list attack_path) :
  user_shape u -> exists out, group_membership_rule ids u acc = Ok out.
Proof.
  intros (Hd & Hn & _). unfold group_membership_rule.
  destruct (sam_default_str u Hd Hn) as [s ->]. cbn [bind Py.lower].
  destruct (_ =? _)%string; [eauto|]. destruct (bool_decide _); [|eauto].
  destruct (get_member_of_ok u Hd) as [mo ->]. cbn [bind].
  destruct (Py.str_in _ mo); eauto.
Qed.

Lemma is_likely_service_ok (u : json) (lowered : string) :
  user_shape u -> exists b, is_likely_service u lowered = Ok b.
Proof.
  intros (Hd & _ & _ & _ & _ & _ & Hdesc). unfold is_likely_service.
  destruct (_ || _); [eauto|].
  destruct (get_field u "Description" (JStr EmptyString) is_str Hd Hdesc) as (v & -> & [s ->]);
    [eexists; reflexivity|]. simpl. eauto.
Qed.

Lemma shown_spns_ok (u : json) :
  user_shape u -> has_spns u = Ok true ->
  exists spns first3 shown,
    Py.get u "SPNs" (JList []) = Ok spns /\ Py.slice3 spns = Ok first3 /\
    Py.join_value ", " first3 = Ok shown.
Proof.
  intros ([f ->] & _ & Hs & _) H. unfold has_spns, nonempty_field in H.
  cbn [Py.get bind] in H. cbn [Py.get].
  destruct (Py.assoc "SPNs" f) as [v|] eqn:E; [|discriminate H].
  cbn [default from_option] in *. change (id v) with v in *.
  destruct (Py.truthy v) eqn:Ht; [|discriminate H].
  destruct (Hs f v eq_refl E) as [Hf|(l & -> & Hl)]; [congruence|].
  destruct (strings_of_ok (take 3 l)) as [r Hr].
  { apply Forall_take. exact Hl. }
  exists (JList l), (JList (take 3 l)), (Py.join ", " r).
  split; [reflexivity|]. split; [reflexivity|].
  unfold Py.join_value. cbn [Py.iter bind]. rewrite Hr. reflexivity.
Qed.

Lemma kerberoasting_rule_ok (ids : gset string) (u : json) (acc : list attack_path) :
  user_shape u -> exists out, kerberoasting_rule ids u acc = Ok out.
Proof.
  intros Hu. pose proof Hu as (Hd & Hn & _). unfold kerberoasting_rule.
  destruct (sam_default_str u Hd Hn) as [s ->]. cbn [bind Py.lower].
  destruct (_ =? _)%string; [eauto|].
  destruct (has_spns_ok u Hu) as [b Hb]. rewrite Hb. cbn [bind]. destruct b; [|eauto].
  destruct (bool_decide _); [|eauto].
  destruct (is_likely_service_ok u (Py.lower_string s) Hu) as [lk ->]. cbn [bind].
  destruct (shown_spns_ok u Hu Hb) as (spns & first3 & shown & -> & H3 & Hj).
  cbn [bind]. rewrite H3. cbn [bind]. rewrite Hj. cbn [bind]. eauto.
Qed.

Lemma delegation_rule_ok (ids : gset string) (u : json) (acc : list attack_path) :
  is_dict u -> exists out, delegation_rule ids u acc = Ok out.
Proof.
  intros Hd. unfold delegation_rule.
  destruct (has_delegation_flag_ok u Hd) as [b ->]. cbn [bind]. destruct b; [|eauto].
  destruct (user_id_of_ok u Hd) as [i ->]. cbn [bind].
  destruct (bool_decide _); [|eauto]. destruct Hd as [f ->]. simpl. eauto.
Qed.

Lemma asrep_rule_ok (ids : gset string) (u : json) (acc : list attack_path) :
  user_shape u -> exists out, asrep_rule ids u acc = Ok out.
Proof.
  intros (Hd & Hn & _). unfold asrep_rule.
  destruct (sam_default_str u Hd Hn) as [s ->]. cbn [bind Py.lower].
  destruct (existsb _ _); [eauto|].
  destruct (get_dict u "DoesNotRequirePreAuth" JNull Hd) as [v ->]. cbn [bind].
  destruct (Py.truthy v); [|eauto]. destruct (bool_decide _); eauto.
Qed.

Lemma computer_delegation_rule_ok (ids : gset string) (c : json) (acc : list attack_path) :
  computer_shape c -> exists out, computer_delegation_rule ids c acc = Ok out.
Proof.
  intros (Hd & Hn & _). unfold computer_delegation_rule.
  destruct (get_dict c "TrustedForDelegation" JNull Hd) as [v ->]. cbn [bind].
  assert (exists w, (if Py.truthy v
                     then let* dc := Py.get c "IsDomainController" JNull
                          in Ok (negb (Py.truthy dc))
                     else Ok false) = Ok w) as [w ->].
  { destruct (Py.truthy v); [|eauto]. destruct Hd as [f ->]. simpl. eauto. }
  cbn [bind]. destruct w; [|eauto].
  destruct (comp_id_of_ok c Hd) as [i ->]. cbn [bind].
  destruct (bool_decide _); [|eauto].
  destruct (sam_default_str c Hd Hn) as [s ->]. simpl. eauto.
Qed.

Lemma for_each_rule_total {A : Type} (P : A -> Prop)
    (rule : A -> list attack_path -> result (list attack_path))
    (l : list A) (acc : list attack_path) :
  Forall P l -> (forall x acc', P x -> exists out, rule x acc' = Ok out) ->
  exists out, for_each l rule acc = Ok out.
Proof.
  intros Hl Hr.
  destruct (for_each_total (fun _ => True) rule l acc) as (out & Hout & _); [exact I| |eauto].
  intros x s1 Hx _. rewrite Forall_forall in Hl.
  destruct (Hr x s1 (Hl x Hx)) as [out Hout]. eauto.
Qed.

Lemma detect_attack_paths_total (data : json) (g : graph) :
  snapshot_shape data -> remembered_dicts g ->
  exists ps, detect_attack_paths data g = Ok ps.
Proof.
  intros (Hd & Hu & Hc & _ & _) Hg.
  destruct (section_shape data "Users" user_shape Hd Hu) as (users & Husers & HU).
  destruct (section_shape data "Computers" computer_shape Hd Hc) as (comps & Hcomps & HC).
  unfold detect_attack_paths. rewrite !Husers, Hcomps. cbn [bind].
  assert (exists p1,
            (if bool_decide (domain_admins_group_id ∈ node_id_map g)
             then for_each users (group_membership_rule (node_id_map g)) []
             else Ok []) = Ok p1) as [p1 ->].
  { destruct (bool_decide _); [|eauto].
    apply (for_each_rule_total user_shape); [exact HU|].
    intros. apply group_membership_rule_ok. assumption. }
  cbn [bind].
  destruct (for_each_rule_total user_shape (kerberoasting_rule (node_id_map g)) users p1 HU)
    as [p2 ->]; [intros; apply kerberoasting_rule_ok; assumption|]. cbn [bind].
  destruct (for_each_rule_total is_dict (delegation_rule (node_id_map g))
              (high_risk_users g) p2 Hg)
    as [p3 ->]; [intros; apply delegation_rule_ok; assumption|]. cbn [bind].
  destruct (for_each_rule_total user_shape (asrep_rule (node_id_map g)) users p3 HU)
    as [p4 ->]; [intros; apply asrep_rule_ok; assumption|]. cbn [bind].
  apply (for_each_rule_total computer_shape); [exact HC|].
  intros. apply computer_delegation_rule_ok. assumption.
Qed.

(** X1.  On every snapshot of the expected shape, with any of the listed fields
    absent, the scoring, the graph construction and the attack-path
    detection all return. *)
Theorem well_shaped_snapshot_runs (data : json) :
  snapshot_shape data ->
  (exists s, calculate_risk_scores data = Ok s) /\
  (exists ns es ps, generate_graph_visualization data = Ok (ns, es, ps)).
Proof.
  intros Hs. split; [apply calculate_risk_scores_total; exact Hs|].
  unfold generate_graph_visualization.
  destruct (build_graph_total data Hs) as (g & -> & Hg). cbn [bind].
  destruct (detect_attack_paths_total data g Hs Hg) as [ps ->]. cbn [bind]. eauto.
Qed.

(** A concrete field of a concrete dict. *)
Ltac field_case :=
  let f := fresh "f" in
  let v := fresh "v" in
  let Hf := fresh "Hf" in
  let Hv := fresh "Hv" in
  intros f v Hf Hv; injection Hf as <-; vm_compute in Hv;
  try discriminate Hv; try (injection Hv as <-).

Lemma snapshot_svc_sql_shape : snapshot_shape snapshot_svc_sql.
Proof.
  assert (Hu : user_shape (JObj [("SamAccountName", JStr "svc_sql");
                                 ("SPNs", JList [JStr "MSSQLSvc/host:1433"])])).
  { refine (conj _ (conj _ (conj _ (conj _ (conj _ (conj _ _)))))); try field_case.
    - eexists. reflexivity.
    - eexists. reflexivity.
    - right. eexists. split; [reflexivity|]. constructor; [|constructor].
      eexists. reflexivity. }
  refine (conj _ (conj _ (conj _ (conj _ _)))); try field_case.
  - eexists. reflexivity.
  - eexists. split; [reflexivity|]. constructor; [exact Hu|constructor].
Qed.

Lemma well_shaped_snapshot_runs_witness :
  snapshot_shape snapshot_svc_sql /\
  (exists s, calculate_risk_scores snapshot_svc_sql = Ok s) /\
  (exists ns es ps, generate_graph_visualization snapshot_svc_sql = Ok (ns, es, ps)).
Proof.
  split; [exact snapshot_svc_sql_shape|].
  apply (well_shaped_snapshot_runs snapshot_svc_sql), snapshot_svc_sql_shape.
Defined.

(** ** The edges of the graph *)

Lemma edges_inv_add_node (d : string) (n : node) (g : graph) :
  edges_inv d g -> edges_inv d (add_node n g).
Proof.
  intros [Hd Hf]. split; simpl; [set_solver|].
  eapply Forall_impl; [exact Hf|]. intros e (Hk & Ha & Hb).
  split; [exact Hk|]. split; set_solver.
Qed.

Lemma edges_inv_add_edge (d : string) (e : edge) (g : graph) :
  edges_inv d g -> edge_kind_ok d e ->
  edge_from e ∈ node_id_map g -> edge_to e ∈ node_id_map g ->
  edges_inv d (add_edge e g).
Proof.
  intros [Hd Hf] Hk Ha Hb. split; [exact Hd|]. simpl.
  apply Forall_app. split; [exact Hf|]. constructor; [auto|constructor].
Qed.

Lemma edges_inv_remember_user (d : string) (u : json) (g : graph) :
  edges_inv d g -> edges_inv d (remember_user u g).
Proof. intros H. exact H. Qed.

Lemma add_user_edges (d : string) (u : json) (g g' : graph) :
  edges_inv d g -> add_user d u g = Ok g' -> edges_inv d g'.
Proof.
  intros Hg H. unfold add_user in H. repeat run_step H; try exact Hg.
  match goal with Hn : user_node _ _ _ = Ok _ |- _ => apply user_node_id in Hn as Hid end.
  apply edges_inv_remember_user, edges_inv_add_edge.
  - apply edges_inv_add_node, Hg.
  - left. simpl. auto.
  - simpl. destruct Hg as [Hd _]. set_solver.
  - simpl. rewrite Hid. set_solver.
Qed.

Lemma add_member_edges (d gid : string) (m : json) (g g' : graph) :
  first_char gid = Some "g"%char ->
  edges_inv d g /\ gid ∈ node_id_map g ->
  add_member gid m g = Ok g' ->
  edges_inv d g' /\ gid ∈ node_id_map g'.
Proof.
  intros Hc [Hg Hin] H. unfold add_member in H. repeat run_step H; try (split; assumption).
  split; [|exact Hin]. apply edges_inv_add_edge; simpl; auto.
  - right. left. simpl. auto.
  - match goal with Hb : bool_decide _ = true |- _ => apply bool_decide_eq_true in Hb; exact Hb end.
Qed.

Lemma add_group_edges (d : string) (grp : json) (g g' : graph) :
  edges_inv d g -> add_group d grp g = Ok g' -> edges_inv d g'.
Proof.
  intros Hg H. unfold add_group in H. repeat run_step H; try exact Hg.
  refine (proj1 (for_each_inv
            (fun s => edges_inv d s /\ ("group_" +:+ Py.str v) ∈ node_id_map s)
            _ _ _ _ H _ _)).
  - split.
    + apply edges_inv_add_edge.
      * apply edges_inv_add_node, Hg.
      * left. simpl. auto.
      * simpl. destruct Hg as [Hd _]. set_solver.
      * simpl. set_solver.
    + simpl. set_solver.
  - intros m t1 t2 _ Ht Hm. eapply add_member_edges; [|exact Ht|exact Hm]. reflexivity.
Qed.

Lemma add_computer_edges (d : string) (c : json) (g g' : graph) :
  edges_inv d g -> add_computer d c g = Ok g' -> edges_inv d g'.
Proof.
  intros Hg H. unfold add_computer in H. repeat run_step H; try exact Hg.
  all: apply edges_inv_add_edge;
    [ apply edges_inv_add_node, Hg
    | left; simpl; auto
    | simpl; destruct Hg as [Hd _]; set_solver
    | simpl; set_solver ].
Qed.

Lemma add_delegation_edges_edges (d : string) (data u : json) (g g' : graph) :
  edges_inv d g -> add_delegation_edges data u g = Ok g' -> edges_inv d g'.
Proof.
  intros Hg H. unfold add_delegation_edges in H. repeat run_step H; try exact Hg.
  match goal with Hu : user_id_of _ = Ok ?i, Hb : bool_decide (?i ∈ _) = true |- _ =>
    apply user_id_of_account_name in Hu; apply bool_decide_eq_true in Hb;
    rename Hu into Hid; rename Hb into Hin end.
  refine (proj1 (for_each_inv (fun s => edges_inv d s /\ node_id_map s = node_id_map g)
            _ _ _ _ H _ _)); [split; [exact Hg|reflexivity]|].
  intros c t1 t2 _ [Ht Hsame] Hc. unfold add_delegation_edge in Hc.
  repeat run_step Hc; try (split; assumption).
  split; [|exact Hsame]. apply edges_inv_add_edge; simpl; auto.
  - right. right. simpl. try rewrite Hid. split; [reflexivity|auto].
  - rewrite Hsame. exact Hin.
  - match goal with Hb : bool_decide _ = true |- _ => apply bool_decide_eq_true in Hb; exact Hb end.
Qed.

Lemma build_graph_edges (data : json) (g : graph) :
  build_graph data = Ok g ->
  exists d, domain_id_of data = Ok d /\ edges_inv d g.
Proof.
  unfold build_graph. intros H. inv_binds H. exists v0. split; [exact E0|].
  assert (H0 : edges_inv v0
                 (add_node {| node_id := v0; node_label := v; node_type := "domain";
                              node_group := "domain"; node_risk := None;
                              node_spns := None; node_color := "#dc3545" |}
                    {| nodes := []; edges := []; node_id_map := ∅;
                       high_risk_users := [] |})).
  { split; simpl; [set_solver|constructor]. }
  assert (H1 : edges_inv v0 v2).
  { apply (for_each_inv (edges_inv v0) _ _ _ _ E2 H0).
    intros u s1 s2 _ Hs Hu. exact (add_user_edges _ _ _ _ Hs Hu). }
  assert (H2 : edges_inv v0 v4).
  { apply (for_each_inv (edges_inv v0) _ _ _ _ E4 H1).
    intros u s1 s2 _ Hs Hu. exact (add_group_edges _ _ _ _ Hs Hu). }
  assert (H3 : edges_inv v0 v6).
  { apply (for_each_inv (edges_inv v0) _ _ _ _ E6 H2).
    intros u s1 s2 _ Hs Hu. exact (add_computer_edges _ _ _ _ Hs Hu). }
  apply (for_each_inv (edges_inv v0) _ _ _ _ H H3).
  intros u s1 s2 _ Hs Hu. exact (add_delegation_edges_edges _ _ _ _ _ Hs Hu).
Qed.

Lemma mark_edge_ends (keys : gset string) (e : edge) :
  edge_from (mark_edge keys e) = edge_from e /\
  edge_to (mark_edge keys e) = edge_to e /\
  edge_label (mark_edge keys e) = edge_label e.
Proof. unfold mark_edge. destruct (_ || _); auto. Qed.

Lemma graph_ids_nodes (data : json) (g : graph) (x : string) :
  build_graph data = Ok g ->
  x ∈ node_id_map g -> exists n, n ∈ nodes g /\ node_id n = x.
Proof.
  intros Hb Hx.
  apply build_graph_ids in Hb as (users & groups & computers & _ & _ & _ & Hids & Hm).
  rewrite Hm, <- Hids in Hx. apply elem_of_list_to_set in Hx.
  apply list_elem_of_fmap in Hx as (n & -> & Hn). eauto.
Qed.

(** X2.  In every run that returns, both ends of every edge are ids of
    nodes of the graph. *)
Theorem edges_join_nodes (data : json) (ns : list node) (es : list edge)
    (ps : list attack_path) (e : edge) :
  generate_graph_visualization data = Ok (ns, es, ps) ->
  e ∈ es ->
  (exists n, n ∈ ns /\ node_id n = edge_from e) /\
  (exists n, n ∈ ns /\ node_id n = edge_to e).
Proof.
  intros H He.
  apply generate_parts in H as (g & Hb & _ & -> & ->).
  apply list_elem_of_fmap in He as (e0 & -> & He0).
  destruct (mark_edge_ends (attack_path_edge_ids ps) e0) as (-> & -> & _).
  destruct (build_graph_edges _ _ Hb) as (d & _ & _ & Hf).
  rewrite Forall_forall in Hf. destruct (Hf e0 He0) as (_ & Ha & Hz).
  split; eapply graph_ids_nodes; eauto.
Qed.

Lemma domain_id_first_char (data : json) (d : string) :
  domain_id_of data = Ok d -> first_char d = Some "d"%char.
Proof. unfold domain_id_of. intros H. inv_bind H. injection H as <-. reflexivity. Qed.

(** X3.  In every run that returns, an edge carries the attack-path flag
    after the marking if and only if it is a [DelegatesTo] edge: the
    marking loop flags no edge that was not born flagged. *)
Theorem flagged_edges_are_delegation_edges (data : json) (ns : list node)
    (es : list edge) (ps : list attack_path) (e : edge) :
  generate_graph_visualization data = Ok (ns, es, ps) ->
  e ∈ es ->
  (edge_attackPath e = true <-> edge_label e = "DelegatesTo").
Proof.
  intros H He.
  apply generate_parts in H as (g & Hb & Hd & _ & ->).
  apply list_elem_of_fmap in He as (e0 & -> & He0).
  destruct (mark_edge_ends (attack_path_edge_ids ps) e0) as (_ & _ & ->).
  destruct (build_graph_edges _ _ Hb) as (d & Hdom & _ & Hf).
  apply domain_id_first_char in Hdom.
  apply detect_attack_paths_by_rule in Hd.
  rewrite Forall_forall in Hf. destruct (Hf e0 He0) as (Hk & _ & _).
  assert (Hkey : bool_decide (edge_key (edge_from e0) (edge_to e0) ∈ attack_path_edge_ids ps)
                 = true -> first_char (edge_from e0) = Some "u"%char).
  { intros Hin. apply bool_decide_eq_true in Hin.
    apply (edge_ids_start_with_u data g) in Hin; [|exact Hd].
    unfold edge_key in Hin. destruct (edge_from e0); [discriminate Hin|exact Hin]. }
  unfold mark_edge.
  destruct Hk as [(Hfrom & Hl & Hflag) | [(Hfrom & Hl & Hflag) | (Hfrom & Hl & Hflag)]].
  - rewrite Hflag, orb_false_r.
    destruct (bool_decide _) eqn:Hin.
    + specialize (Hkey eq_refl). rewrite Hfrom, Hdom in Hkey. discriminate Hkey.
    + rewrite Hflag. split; [discriminate|]. intros Hl'. destruct Hl as [Hl|Hl]; congruence.
  - rewrite Hflag, orb_false_r.
    destruct (bool_decide _) eqn:Hin.
    + specialize (Hkey eq_refl). rewrite Hfrom in Hkey. discriminate Hkey.
    + rewrite Hflag. split; [discriminate|]. intros Hl'. congruence.
  - rewrite Hflag, orb_true_r. simpl. split; auto.
Qed.

Lemma edges_join_nodes_witness :
  exists ns es ps,
    generate_graph_visualization snapshot_delegation = Ok (ns, es, ps) /\
    edge_svc_web_srv01 ∈ es /\
    (exists n, n ∈ ns /\ node_id n = "user_svc_web") /\
    (exists n, n ∈ ns /\ node_id n = "comp_SRV01$").
Proof.
  eexists _, _, _. split; [vm_compute; reflexivity|].
  split; [do 2 right; left|].
  eapply (edges_join_nodes snapshot_delegation _ _ _ edge_svc_web_srv01);
    [vm_compute; reflexivity|do 2 right; left].
Defined.

Lemma flagged_edges_are_delegation_edges_witness :
  exists ns es ps,
    generate_graph_visualization snapshot_delegation = Ok (ns, es, ps) /\
    edge_label <$> es = ["Member"; "Contains"; "DelegatesTo"] /\
    Forall (fun e => edge_attackPath e = true <-> edge_label e = "DelegatesTo") es.
Proof.
  eexists _, _, _. split; [vm_compute; reflexivity|]. split; [reflexivity|].
  apply Forall_forall. intros e He.
  eapply (flagged_edges_are_delegation_edges snapshot_delegation);
    [vm_compute; reflexivity|exact He].
Defined.

(** ** Delegation findings *)

Lemma computer_in_graph_ids (data : json) (users groups computers : list json) (c : json) :
  c ∈ computers -> computer_wanted c = Ok true ->
  "comp_" +:+ account_name c ∈ graph_ids data users groups computers.
Proof.
  intros Hc Hw. unfold graph_ids. right. apply elem_of_app. right.
  apply elem_of_app. right.
  apply (list_elem_of_fmap_2 (fun c => "comp_" +:+ account_name c)).
  apply list_elem_of_filter. auto.
Qed.

Lemma computer_delegation_rule_emits (ids : gset string) (c flag dc : json)
    (out : list attack_path) :
  Py.get c "TrustedForDelegation" JNull = Ok flag -> Py.truthy flag = true ->
  Py.get c "IsDomainController" JNull = Ok dc -> Py.truthy dc = false ->
  "comp_" +:+ account_name c ∈ ids ->
  computer_delegation_rule ids c [] = Ok out ->
  exists p,
    out = [p] /\ path_type p = "Unconstrained Delegation" /\
    path_severity p = "critical" /\ path_path p = ["comp_" +:+ account_name c].
Proof.
  intros Hf Ht Hdc Hdcf Hin H. unfold computer_delegation_rule in H.
  rewrite Hf in H. cbn [bind] in H. rewrite Ht, Hdc in H. cbn [bind] in H.
  rewrite Hdcf in H. cbn [bind negb] in H.
  inv_bind H. apply comp_id_of_account_name in E. subst v.
  rewrite bool_decide_eq_true_2 in H by exact Hin.
  repeat run_step H. eexists. split; [reflexivity|]. auto.
Qed.

(** X4.  In every run that returns, a computer record with a true
    [TrustedForDelegation] and no true [IsDomainController] yields an
    Unconstrained Delegation finding of severity critical whose path is
    the node of the computer. *)
Theorem computer_delegation_finding (data : json) (computers : list json)
    (ns : list node) (es : list edge) (ps : list attack_path) (c flag dc : json) :
  generate_graph_visualization data = Ok (ns, es, ps) ->
  section data "Computers" = Ok computers ->
  c ∈ computers ->
  Py.get c "TrustedForDelegation" JNull = Ok flag -> Py.truthy flag = true ->
  Py.get c "IsDomainController" JNull = Ok dc -> Py.truthy dc = false ->
  exists p,
    p ∈ ps /\ path_type p = "Unconstrained Delegation" /\
    path_severity p = "critical" /\ path_path p = ["comp_" +:+ account_name c].
Proof.
  intros H Hcs Hc Hf Ht Hdc Hdcf.
  apply generate_parts in H as (g & Hb & Hd & _ & _).
  apply build_graph_ids in Hb as (users & groups & computers' & _ & _ & Hcs' & _ & Hm).
  rewrite Hcs in Hcs'. injection Hcs' as <-.
  assert (Hw : computer_wanted c = Ok true).
  { unfold computer_wanted, has_delegation_flag. rewrite Hf. cbn [bind]. rewrite Ht.
    reflexivity. }
  pose proof (computer_in_graph_ids data users groups computers c Hc Hw) as Hid.
  apply (elem_of_list_to_set (C := gset string)) in Hid. rewrite <- Hm in Hid.
  apply detect_attack_paths_by_rule in Hd.
  destruct Hd as [users' computers' o1 o2 o3 o4 o5 _ Hcs' _ _ _ _ F5].
  rewrite Hcs in Hcs'. injection Hcs' as <-.
  destruct (Forall2_elem_concat _ _ _ c F5 Hc) as (out & Hout & Hsub).
  simpl in Hout.
  destruct (computer_delegation_rule_emits _ _ _ _ _ Hf Ht Hdc Hdcf Hid Hout)
    as (p & -> & Hp).
  exists p. split; [|exact Hp].
  do 4 (apply elem_of_app; right). apply Hsub. left.
Qed.

Lemma computer_delegation_finding_witness :
  exists ns es ps p,
    generate_graph_visualization snapshot_delegation = Ok (ns, es, ps) /\
    p ∈ ps /\ path_type p = "Unconstrained Delegation" /\
    path_severity p = "critical" /\ path_path p = ["comp_SRV01$"].
Proof.
  eexists _, _, _.
  edestruct (computer_delegation_finding snapshot_delegation) as (p & Hp);
    [vm_compute; reflexivity|reflexivity|left|reflexivity|reflexivity
    |reflexivity|reflexivity|].
  exists p. split; [vm_compute; reflexivity|exact Hp].
Defined.

Lemma user_wanted_delegation (u : json) (w : bool) :
  user_wanted u = Ok w -> has_delegation_flag u = Ok true -> w = true.
Proof.
  unfold user_wanted, user_risk. intros H Hd.
  inv_bind H. repeat run_step E; try (rewrite Hd in *; discriminate).
  all: try (injection H as <-; reflexivity).
  all: match goal with Hx : has_delegation_flag _ = Ok false |- _ =>
         rewrite Hd in Hx; discriminate Hx end.
Qed.

(** The users kept for the delegation steps are the users that got a
    node, in order. *)
Lemma add_user_remembers (d : string) (u : json) (g g' : graph) :
  add_user d u g = Ok g' ->
  exists w, user_wanted u = Ok w /\
            high_risk_users g' = high_risk_users g ++ (if w then [u] else []).
Proof.
  unfold add_user, user_wanted. intros H. inv_bind H. rewrite E. cbn [bind].
  inv_bind H. rewrite E0. destruct v0.
  - repeat run_step H. exists true. split; reflexivity.
  - injection H as <-. exists false. split; [reflexivity|]. symmetry. apply app_nil_r.
Qed.

Lemma add_users_remember (d : string) (users : list json) (g g' : graph) :
  for_each users (add_user d) g = Ok g' ->
  high_risk_users g' =
    high_risk_users g ++ filter (fun u => user_wanted u = Ok true) users.
Proof.
  revert g. induction users as [|u users IH]; intros g H; simpl in H.
  - injection H as <-. symmetry. apply app_nil_r.
  - inv_bind H. apply add_user_remembers in E as (w & Hw & Hr).
    rewrite (IH _ H), Hr, <- app_assoc. f_equal.
    destruct w.
    + rewrite filter_cons_True by exact Hw. reflexivity.
    + rewrite filter_cons_False; [reflexivity|]. rewrite Hw. discriminate.
Qed.

Lemma add_member_keeps_users (gid : string) (m : json) (g g' : graph) :
  add_member gid m g = Ok g' -> high_risk_users g' = high_risk_users g.
Proof. unfold add_member. intros H. repeat run_step H; reflexivity. Qed.

Lemma for_each_keeps_users {A : Type} (body : A -> graph -> result graph)
    (l : list A) (g g' : graph) :
  (forall x g1 g2, body x g1 = Ok g2 -> high_risk_users g2 = high_risk_users g1) ->
  for_each l body g = Ok g' -> high_risk_users g' = high_risk_users g.
Proof.
  intros Hb H.
  apply (for_each_inv (fun s => high_risk_users s = high_risk_users g) _ _ _ _ H);
    [reflexivity|].
  intros x s1 s2 _ Hs Hx. rewrite (Hb _ _ _ Hx). exact Hs.
Qed.

Lemma add_group_keeps_users (d : string) (grp : json) (g g' : graph) :
  add_group d grp g = Ok g' -> high_risk_users g' = high_risk_users g.
Proof.
  unfold add_group. intros H. repeat run_step H; try reflexivity.
  apply for_each_keeps_users in H; [exact H|]. apply add_member_keeps_users.
Qed.

Lemma add_computer_keeps_users (d : string) (c : json) (g g' : graph) :
  add_computer d c g = Ok g' -> high_risk_users g' = high_risk_users g.
Proof. unfold add_computer. intros H. repeat run_step H; reflexivity. Qed.

Lemma add_delegation_edges_keeps_users (data u : json) (g g' : graph) :
  add_delegation_edges data u g = Ok g' -> high_risk_users g' = high_risk_users g.
Proof.
  unfold add_delegation_edges. intros H. repeat run_step H; try reflexivity.
  apply for_each_keeps_users in H; [exact H|].
  intros c g1 g2 Hc. unfold add_delegation_edge in Hc. repeat run_step Hc; reflexivity.
Qed.

Lemma build_graph_high_risk_users (data : json) (g : graph) (users : list json) :
  build_graph data = Ok g ->
  section data "Users" = Ok users ->
  high_risk_users g = filter (fun u => user_wanted u = Ok true) users.
Proof.
  unfold build_graph. intros H Hus. inv_binds H.
  rewrite Hus in E1. injection E1 as <-.
  apply add_users_remember in E2.
  apply for_each_keeps_users in E4; [|apply add_group_keeps_users].
  apply for_each_keeps_users in E6; [|apply add_computer_keeps_users].
  apply for_each_keeps_users in H; [|apply add_delegation_edges_keeps_users].
  rewrite H, E6, E4, E2. reflexivity.
Qed.

Lemma delegation_rule_emits (ids : gset string) (u t : json) (out : list attack_path) :
  has_delegation_flag u = Ok true ->
  Py.get u "TrustedForDelegation" JNull = Ok t ->
  "user_" +:+ account_name u ∈ ids ->
  delegation_rule ids u [] = Ok out ->
  exists p,
    out = [p] /\
    path_type p = (if Py.truthy t then "Unconstrained Delegation"
                   else "Constrained Delegation") /\
    path_severity p = "high" /\ path_path p = ["user_" +:+ account_name u].
Proof.
  intros Hd Ht Hin H. unfold delegation_rule in H.
  rewrite Hd in H. cbn [bind] in H.
  inv_bind H. apply user_id_of_account_name in E. subst v.
  rewrite bool_decide_eq_true_2 in H by exact Hin.
  rewrite Ht in H. cbn [bind] in H. inv_bind H. injection H as <-.
  eexists. split; [reflexivity|]. simpl. destruct (Py.truthy t); auto.
Qed.

(** X5.  In every run that returns, every user record that carries a
    delegation flag yields a delegation finding of severity high whose
    path is the node of the user: Unconstrained Delegation when
    [TrustedForDelegation] is true, Constrained Delegation otherwise. *)
Theorem user_delegation_finding (data : json) (users : list json)
    (ns : list node) (es : list edge) (ps : list attack_path) (u t : json) :
  generate_graph_visualization data = Ok (ns, es, ps) ->
  section data "Users" = Ok users ->
  u ∈ users ->
  has_delegation_flag u = Ok true ->
  Py.get u "TrustedForDelegation" JNull = Ok t ->
  exists p,
    p ∈ ps /\
    path_type p = (if Py.truthy t then "Unconstrained Delegation"
                   else "Constrained Delegation") /\
    path_severity p = "high" /\ path_path p = ["user_" +:+ account_name u].
Proof.
  intros H Hus Hu Hd Ht.
  apply generate_parts in H as (g & Hb & Hdet & _ & _).
  pose proof (build_graph_users_wanted _ _ _ Hb Hus) as Hws.
  rewrite Forall_forall in Hws. destruct (Hws u Hu) as [w Hw].
  rewrite (user_wanted_delegation _ _ Hw Hd) in Hw.
  pose proof (build_graph_high_risk_users _ _ _ Hb Hus) as Hr.
  apply build_graph_ids in Hb as (users' & groups & computers & Hus' & _ & _ & _ & Hm).
  rewrite Hus in Hus'. injection Hus' as <-.
  pose proof (user_in_graph_ids data users groups computers u Hu Hw) as Hid.
  apply (elem_of_list_to_set (C := gset string)) in Hid. rewrite <- Hm in Hid.
  apply detect_attack_paths_by_rule in Hdet.
  destruct Hdet as [users' computers' o1 o2 o3 o4 o5 _ _ _ _ F3 _ _].
  assert (Hin : u ∈ high_risk_users g).
  { rewrite Hr. apply list_elem_of_filter. auto. }
  destruct (Forall2_elem_concat _ _ _ u F3 Hin) as (out & Hout & Hsub).
  simpl in Hout.
  destruct (delegation_rule_emits _ _ _ _ Hd Ht Hid Hout) as (p & -> & Hp).
  exists p. split; [|exact Hp].
  do 2 (apply elem_of_app; right). apply elem_of_app. left. apply Hsub. left.
Qed.

Lemma user_delegation_finding_witness :
  exists ns es ps p,
    generate_graph_visualization snapshot_delegation = Ok (ns, es, ps) /\
    p ∈ ps /\ path_type p = "Unconstrained Delegation" /\
    path_severity p = "high" /\ path_path p = ["user_svc_web"].
Proof.
  eexists _, _, _.
  edestruct (user_delegation_finding snapshot_delegation) as (p & Hp);
    [vm_compute; reflexivity|reflexivity|left|reflexivity|reflexivity|].
  exists p. split; [vm_compute; reflexivity|exact Hp].
Defined.

(** ** The tier of the user nodes *)

Lemma user_risk_tiers (u : json) (r : string) :
  user_risk u = Ok r ->
  r = "high" \/ r = "medium" \/ (r = "low" /\ in_group "Domain Admins" u = Ok false).
Proof.
  unfold user_risk. intros H. repeat run_step H; auto.
  all: right; right; split; [reflexivity|].
  all: match goal with Hx : in_group "Domain Admins" _ = Ok ?b |- _ =>
         destruct b; [discriminate|exact Hx] end.
Qed.

Lemma user_included_tier (u : json) (r : string) :
  user_risk u = Ok r -> user_included r u = Ok true -> r = "high" \/ r = "medium".
Proof.
  intros Hr Hi. destruct (user_risk_tiers _ _ Hr) as [-> | [-> | [-> Hda]]]; auto.
  unfold user_included in Hi. simpl in Hi. rewrite Hda in Hi. discriminate Hi.
Qed.

Lemma user_node_tier_ok (u : json) (r i : string) (n : node) :
  r = "high" \/ r = "medium" -> user_node u r i = Ok n -> user_node_tier n.
Proof.
  intros Hr H. unfold user_node in H. repeat run_step H.
  all: intros _; destruct Hr as [-> | ->]; [left|right]; split; reflexivity.
Qed.

Lemma add_user_tiers (d : string) (u : json) (g g' : graph) :
  Forall user_node_tier (nodes g) -> add_user d u g = Ok g' ->
  Forall user_node_tier (nodes g').
Proof.
  intros Hg H. unfold add_user in H. repeat run_step H; try exact Hg.
  simpl. apply Forall_app. split; [exact Hg|]. constructor; [|constructor].
  match goal with
  | Hr : user_risk _ = Ok _, Hi : user_included _ _ = Ok true,
    Hn : user_node _ _ _ = Ok _ |- _ =>
      exact (user_node_tier_ok _ _ _ _ (user_included_tier _ _ Hr Hi) Hn)
  end.
Qed.

Lemma for_each_keeps_nodes {A : Type} (body : A -> graph -> result graph)
    (l : list A) (g g' : graph) :
  (forall x g1 g2, body x g1 = Ok g2 -> nodes g2 = nodes g1) ->
  for_each l body g = Ok g' -> nodes g' = nodes g.
Proof.
  intros Hb H.
  apply (for_each_inv (fun s => nodes s = nodes g) _ _ _ _ H); [reflexivity|].
  intros x s1 s2 _ Hs Hx. rewrite (Hb _ _ _ Hx). exact Hs.
Qed.

Lemma add_member_keeps_nodes (gid : string) (m : json) (g g' : graph) :
  add_member gid m g = Ok g' -> nodes g' = nodes g.
Proof. unfold add_member. intros H. repeat run_step H; reflexivity. Qed.

Lemma add_delegation_edges_keeps_nodes (data u : json) (g g' : graph) :
  add_delegation_edges data u g = Ok g' -> nodes g' = nodes g.
Proof.
  unfold add_delegation_edges. intros H. repeat run_step H; try reflexivity.
  apply for_each_keeps_nodes in H; [exact H|].
  intros c g1 g2 Hc. unfold add_delegation_edge in Hc. repeat run_step Hc; reflexivity.
Qed.

Lemma build_graph_tiers (data : json) (g : graph) :
  build_graph data = Ok g -> Forall user_node_tier (nodes g).
Proof.
  unfold build_graph. intros H. inv_binds H.
  apply for_each_keeps_nodes in H; [|apply add_delegation_edges_keeps_nodes].
  rewrite H.
  assert (H1 : Forall user_node_tier (nodes v2)).
  { apply (for_each_inv (fun s => Forall user_node_tier (nodes s)) _ _ _ _ E2).
    - simpl. constructor; [|constructor]. intros Hty. discriminate Hty.
    - intros u s1 s2 _ Hs Hu. exact (add_user_tiers _ _ _ _ Hs Hu). }
  assert (H2 : Forall user_node_tier (nodes v4)).
  { apply (for_each_inv (fun s => Forall user_node_tier (nodes s)) _ _ _ _ E4 H1).
    intros grp s1 s2 _ Hs Hgrp. unfold add_group in Hgrp.
    repeat run_step Hgrp; try exact Hs.
    apply for_each_keeps_nodes in Hgrp; [|apply add_member_keeps_nodes].
    rewrite Hgrp. simpl. apply Forall_app. split; [exact Hs|].
    constructor; [|constructor]. intros Hty. discriminate Hty. }
  apply (for_each_inv (fun s => Forall user_node_tier (nodes s)) _ _ _ _ E6 H2).
  intros c s1 s2 _ Hs Hc. unfold add_computer in Hc. repeat run_step Hc; try exact Hs.
  all: simpl; apply Forall_app; split; [exact Hs|].
  all: constructor; [|constructor]; intros Hty; discriminate Hty.
Qed.

(** X6.  In every run that returns, every user node is of the high tier
    and red or of the medium tier and amber: the membership clause of the
    inclusion test admits nobody of the low tier, and the third colour is
    never used. *)
Theorem user_nodes_high_or_medium (data : json) (ns : list node) (es : list edge)
    (ps : list attack_path) (n : node) :
  generate_graph_visualization data = Ok (ns, es, ps) ->
  n ∈ ns -> node_type n = "user" ->
  (node_risk n = Some "high" /\ node_color n = "#dc3545") \/
  (node_risk n = Some "medium" /\ node_color n = "#ffc107").
Proof.
  intros H Hn Hty.
  apply generate_parts in H as (g & Hb & _ & -> & _).
  apply build_graph_tiers in Hb. rewrite Forall_forall in Hb. exact (Hb n Hn Hty).
Qed.

Lemma user_nodes_high_or_medium_witness :
  exists ns es ps n,
    generate_graph_visualization snapshot_weak_encryption = Ok (ns, es, ps) /\
    n ∈ ns /\ node_id n = "user_legacy" /\
    ((node_risk n = Some "high" /\ node_color n = "#dc3545") \/
     (node_risk n = Some "medium" /\ node_color n = "#ffc107")).
Proof.
  eexists _, _, _, _. split; [vm_compute; reflexivity|].
  split; [right; left|]. split; [reflexivity|].
  eapply (user_nodes_high_or_medium snapshot_weak_encryption);
    [vm_compute; reflexivity|right; left|reflexivity].
Defined.

(** ** The order and the vocabulary of the findings *)

Lemma group_membership_rule_vocabulary (ids : gset string) (u : json)
    (out : list attack_path) :
  group_membership_rule ids u [] = Ok out ->
  Forall (finding_of ["Group Membership"] ["critical"; "high"]) out.
Proof.
  unfold group_membership_rule. intros H. repeat run_step H; each_finding.
  split; simpl; [left|]. destruct (Py.str_in "Protected Users" _); [right|]; left.
Qed.

Lemma kerberoasting_rule_vocabulary (ids : gset string) (u : json)
    (out : list attack_path) :
  kerberoasting_rule ids u [] = Ok out ->
  Forall (finding_of ["Kerberoasting"] ["high"; "medium"]) out.
Proof.
  unfold kerberoasting_rule. intros H. repeat run_step H; each_finding.
  split; simpl; [left|].
  match goal with |- (if ?b then _ else _) ∈ _ => destruct b; [right|]; left end.
Qed.

Lemma delegation_rule_vocabulary (ids : gset string) (u : json)
    (out : list attack_path) :
  delegation_rule ids u [] = Ok out ->
  Forall (finding_of ["Unconstrained Delegation"; "Constrained Delegation"] ["high"]) out.
Proof.
  unfold delegation_rule. intros H. repeat run_step H; each_finding.
  split; simpl; [|left]. destruct (Py.truthy _); [|right]; left.
Qed.

Lemma asrep_rule_vocabulary (ids : gset string) (u : json) (out : list attack_path) :
  asrep_rule ids u [] = Ok out ->
  Forall (finding_of ["AS-REP Roasting"] ["high"]) out.
Proof.
  unfold asrep_rule. intros H. repeat run_step H; each_finding.
  split; simpl; left.
Qed.

Lemma computer_delegation_rule_vocabulary (ids : gset string) (c : json)
    (out : list attack_path) :
  computer_delegation_rule ids c [] = Ok out ->
  Forall (finding_of ["Unconstrained Delegation"] ["critical"]) out.
Proof.
  unfold computer_delegation_rule. intros H. repeat run_step H; each_finding.
  split; simpl; left.
Qed.

(** X7.  The findings of a run are five consecutive runs of findings, one
    per rule in the order of the rules, and each rule emits only its own
    types with its own severities. *)
Theorem findings_in_rule_order (data : json) (ns : list node) (es : list edge)
    (ps : list attack_path) :
  generate_graph_visualization data = Ok (ns, es, ps) ->
  exists membership kerberoast deleg asrep computer,
    ps = membership ++ kerberoast ++ deleg ++ asrep ++ computer /\
    Forall (finding_of ["Group Membership"] ["critical"; "high"]) membership /\
    Forall (finding_of ["Kerberoasting"] ["high"; "medium"]) kerberoast /\
    Forall (finding_of ["Unconstrained Delegation"; "Constrained Delegation"] ["high"])
      deleg /\
    Forall (finding_of ["AS-REP Roasting"] ["high"]) asrep /\
    Forall (finding_of ["Unconstrained Delegation"] ["critical"]) computer.
Proof.
  intros H. apply generate_parts in H as (g & _ & Hd & _ & _).
  apply detect_attack_paths_by_rule in Hd.
  destruct Hd as [users computers o1 o2 o3 o4 o5 _ _ F1 F2 F3 F4 F5].
  exists (concat o1), (concat o2), (concat o3), (concat o4), (concat o5).
  split; [reflexivity|].
  refine (conj _ (conj _ (conj _ (conj _ _)))).
  - destruct (bool_decide _); [|subst o1; constructor].
    eapply Forall2_sound_concat; [|exact F1].
    intros u out. apply group_membership_rule_vocabulary.
  - eapply Forall2_sound_concat; [|exact F2].
    intros u out. apply kerberoasting_rule_vocabulary.
  - eapply Forall2_sound_concat; [|exact F3].
    intros u out. apply delegation_rule_vocabulary.
  - eapply Forall2_sound_concat; [|exact F4].
    intros u out. apply asrep_rule_vocabulary.
  - eapply Forall2_sound_concat; [|exact F5].
    intros u out. apply computer_delegation_rule_vocabulary.
Qed.

Lemma findings_in_rule_order_witness :
  exists ns es membership kerberoast deleg asrep computer,
    generate_graph_visualization snapshot_delegation
      = Ok (ns, es, membership ++ kerberoast ++ deleg ++ asrep ++ computer) /\
    Forall (finding_of ["Group Membership"] ["critical"; "high"]) membership /\
    Forall (finding_of ["Kerberoasting"] ["high"; "medium"]) kerberoast /\
    Forall (finding_of ["Unconstrained Delegation"; "Constrained Delegation"] ["high"])
      deleg /\
    Forall (finding_of ["AS-REP Roasting"] ["high"]) asrep /\
    Forall (finding_of ["Unconstrained Delegation"] ["critical"]) computer.
Proof.
  edestruct (findings_in_rule_order snapshot_delegation)
    as (l1 & l2 & l3 & l4 & l5 & Hps & Hl); [vm_compute; reflexivity|].
  eexists _, _, l1, l2, l3, l4, l5. split; [|exact Hl].
  rewrite <- Hps. vm_compute. reflexivity.
Defined.

(** ** Findings against scores *)

Lemma comprehension_filter {A : Type} (cond : A -> result bool) (l r : list A) :
  comprehension cond l = Ok r -> r = filter (fun x => cond x = Ok true) l.
Proof.
  revert r. induction l as [|x l IH]; intros r H; simpl in H.
  - injection H as <-. reflexivity.
  - inv_bind H. inv_bind H. injection H as <-. rewrite (IH _ E0). destruct v.
    + rewrite filter_cons_True by exact E. reflexivity.
    + rewrite filter_cons_False; [reflexivity|]. rewrite E. discriminate.
Qed.

Lemma filter_none {A : Type} (Q : A -> Prop) `{forall x, Decision (Q x)} (l : list A) :
  Forall (fun x => ~ Q x) l -> filter Q l = [].
Proof.
  induction 1 as [|x l Hx _ IH]; [reflexivity|].
  rewrite filter_cons_False by exact Hx. exact IH.
Qed.

(** When every item yields at most one finding of the kind [Q], and only
    if the item satisfies [P], the findings of that kind are at most as
    many as the items that satisfy [P]. *)
Lemma count_concat_le {A B : Type} (P : A -> Prop) `{forall x, Decision (P x)}
    (Q : B -> Prop) `{forall y, Decision (Q y)} (f : A -> result (list B))
    (l : list A) (outs : list (list B)) :
  (forall x out, f x = Ok out ->
     (length (filter Q out) <= 1)%nat /\ (filter Q out <> [] -> P x)) ->
  Forall2 (fun x out => f x = Ok out) l outs ->
  (length (filter Q (concat outs)) <= length (filter P l))%nat.
Proof.
  intros Hf. induction 1 as [|x out l outs Hx _ IH]; [reflexivity|].
  simpl. rewrite filter_app, length_app.
  destruct (Hf _ _ Hx) as [Hle HP].
  destruct (filter Q out) as [|q rest] eqn:Hq.
  - simpl. etransitivity; [exact IH|]. destruct (decide (P x)).
    + rewrite filter_cons_True by assumption. simpl. lia.
    + rewrite filter_cons_False by assumption. lia.
  - rewrite filter_cons_True by (apply HP; discriminate). simpl in *. lia.
Qed.

Lemma kerberoasting_rule_counted (ids : gset string) (u : json) (out : list attack_path) :
  kerberoasting_rule ids u [] = Ok out ->
  (length (filter (fun p => path_type p = "Kerberoasting") out) <= 1)%nat /\
  (filter (fun p => path_type p = "Kerberoasting") out <> [] -> has_spns u = Ok true).
Proof.
  unfold kerberoasting_rule. intros H. repeat run_step H.
  all: try (split; [simpl; lia|intros Hne; exfalso; apply Hne; reflexivity]).
  simpl app. rewrite filter_cons_True by reflexivity.
  split; [simpl; lia|]. auto.
Qed.

Lemma group_membership_rule_counted (ids : gset string) (u : json)
    (out : list attack_path) :
  group_membership_rule ids u [] = Ok out ->
  let critical := fun p => path_type p = "Group Membership" /\
                           path_severity p = "critical" in
  (length (filter critical out) <= 1)%nat /\
  (filter critical out <> [] ->
   in_group "Domain Admins" u = Ok true /\ not_in_group "Protected Users" u = Ok true).
Proof.
  unfold group_membership_rule. intros H. cbv zeta. repeat run_step H.
  all: try (split; [simpl; lia|intros Hne; exfalso; apply Hne; reflexivity]).
  match goal with
  | Hm : _get_member_of u = Ok ?m, Hda : Py.str_in "Domain Admins" ?m = true |- _ =>
      unfold in_group, not_in_group; rewrite Hm; cbn [bind]; rewrite Hda;
      destruct (Py.str_in "Protected Users" m) eqn:Hpu
  end.
  - simpl app. rewrite filter_cons_False by (intros [_ Hs]; discriminate Hs).
    split; [simpl; lia|]. intros Hne. exfalso. apply Hne. reflexivity.
  - simpl app. rewrite filter_cons_True by (split; reflexivity).
    split; [simpl; lia|]. auto.
Qed.

(** X8.  When the scoring and the detection both return, ten points for
    every Kerberoasting finding do not exceed the kerberoasting
    sub-score, and twenty-five points for every critical Group
    Membership finding do not exceed the privileged sub-score. *)
Theorem findings_within_scores (data : json) (s : scores)
    (ns : list node) (es : list edge) (ps : list attack_path) :
  calculate_risk_scores data = Ok s ->
  generate_graph_visualization data = Ok (ns, es, ps) ->
  (10 * count (filter (fun p => path_type p = "Kerberoasting") ps) <= kerberoasting s)%Z /\
  (25 * count (filter (fun p => path_type p = "Group Membership" /\
                                path_severity p = "critical") ps) <= privileged s)%Z.
Proof.
  intros Hs H.
  apply generate_parts in H as (g & _ & Hd & _ & _).
  apply detect_attack_paths_by_rule in Hd.
  destruct Hd as [users computers o1 o2 o3 o4 o5 Hus _ F1 F2 F3 F4 F5].
  destruct (other_rules_types data g _ _ _ _ _ _ F2 F3 F4 F5) as (T2 & T3 & T4 & T5).
  unfold calculate_risk_scores in Hs. inv_binds Hs. injection Hs as <-.
  cbn [kerberoasting privileged].
  repeat match goal with
         | Hx : section data "Users" = Ok _ |- _ =>
             rewrite Hus in Hx; injection Hx as <-
         | Hx : comprehension _ _ = Ok _ |- _ => apply comprehension_filter in Hx; subst
         end.
  unfold count. split.
  - rewrite !filter_app, !length_app.
    rewrite (filter_type_none _ (concat o3)), (filter_type_none _ (concat o4)),
      (filter_type_none _ (concat o5)).
    + assert (H1 : filter (fun p => path_type p = "Kerberoasting") (concat o1) = []).
      { destruct (bool_decide _); [|subst o1; reflexivity].
        apply filter_none. eapply Forall2_sound_concat; [|exact F1].
        intros u out Hu. apply group_membership_rule_vocabulary in Hu.
        eapply Forall_impl; [exact Hu|]. intros p [Hp _] Hq. rewrite Hq in Hp.
        apply list_elem_of_singleton in Hp. discriminate Hp. }
      rewrite H1. simpl.
      pose proof (count_concat_le (fun u => has_spns u = Ok true)
                    (fun p => path_type p = "Kerberoasting")
                    (fun u => kerberoasting_rule (node_id_map g) u []) users o2
                    (kerberoasting_rule_counted _) F2). lia.
    + eapply Forall_impl; [exact T5|]. intros p ->. discriminate.
    + eapply Forall_impl; [exact T4|]. intros p [-> _]. discriminate.
    + eapply Forall_impl; [exact T3|]. intros p [-> | ->]; discriminate.
  - rewrite !filter_app, !length_app.
    rewrite (filter_none _ (concat o2)), (filter_none _ (concat o3)),
      (filter_none _ (concat o4)), (filter_none _ (concat o5)).
    + simpl. rewrite Nat.add_0_r.
      assert (H1 : (length (filter (fun p => path_type p = "Group Membership" /\
                                              path_severity p = "critical") (concat o1))
                    <= length (filter (fun u => in_group "Domain Admins" u = Ok true /\
                                                not_in_group "Protected Users" u = Ok true)
                                 users))%nat).
      { destruct (bool_decide _); [|subst o1; simpl; lia].
        apply (count_concat_le _ _ (fun u => group_membership_rule (node_id_map g) u []));
          [|exact F1].
        intros u out. apply group_membership_rule_counted. }
      rewrite list_filter_filter.
      erewrite (list_filter_iff _ (fun u => in_group "Domain Admins" u = Ok true /\
                                            not_in_group "Protected Users" u = Ok true))
        by (intros u; tauto).
      lia.
    + eapply Forall_impl; [exact T5|]. intros p -> [Hq _]. discriminate.
    + eapply Forall_impl; [exact T4|]. intros p [-> _] [Hq _]. discriminate.
    + eapply Forall_impl; [exact T3|]. intros p [-> | ->] [Hq _]; discriminate.
    + eapply Forall_impl; [exact T2|]. intros p -> [Hq _]. discriminate.
Qed.

Lemma findings_within_scores_witness :
  exists s ns es ps,
    calculate_risk_scores snapshot_admin_with_group = Ok s /\
    generate_graph_visualization snapshot_admin_with_group = Ok (ns, es, ps) /\
    privileged s = 25%Z /\
    (10 * count (filter (fun p => path_type p = "Kerberoasting") ps) <= kerberoasting s)%Z /\
    (25 * count (filter (fun p => path_type p = "Group Membership" /\
                                  path_severity p = "critical") ps) <= privileged s)%Z.
Proof.
  eexists _, _, _, _. split; [vm_compute; reflexivity|].
  split; [vm_compute; reflexivity|]. split; [reflexivity|].
  eapply (findings_within_scores snapshot_admin_with_group); vm_compute; reflexivity.
Defined.

(** ** Empty and malformed snapshots *)

(** X9.  A snapshot with no users, groups, computers or NTLM events
    scores zero on every axis, is rated Low Risk, and its graph is the
    domain node alone, without edges and without findings. *)
Theorem empty_snapshot_report (data domain : json) :
  Py.get data "Domain" (JStr "DOMAIN") = Ok domain ->
  section data "Users" = Ok [] ->
  section data "SecurityGroups" = Ok [] ->
  section data "Computers" = Ok [] ->
  ntlm_event_count data = Ok (JInt 0) ->
  calculate_risk_scores data
    = Ok {| kerberoasting := 0; delegation := 0; encryption := 0; ntlm := 0;
            privileged := 0; inactive := 0 |} /\
  overall_of_snapshot data = Ok (0%Z, "risk-low", "Low Risk") /\
  generate_graph_visualization data
    = Ok ([{| node_id := "domain_" +:+ Py.str domain; node_label := domain;
              node_type := "domain"; node_group := "domain"; node_risk := None;
              node_spns := None; node_color := "#dc3545" |}], [], []).
Proof.
  intros Hd Hu Hg Hc Hn.
  assert (Hs : calculate_risk_scores data
               = Ok {| kerberoasting := 0; delegation := 0; encryption := 0; ntlm := 0;
                       privileged := 0; inactive := 0 |}).
  { unfold calculate_risk_scores. rewrite Hu, Hc, Hn. reflexivity. }
  split; [exact Hs|]. split; [unfold overall_of_snapshot; rewrite Hs; reflexivity|].
  unfold generate_graph_visualization, build_graph, domain_id_of.
  rewrite Hd. cbn [bind]. rewrite Hu. cbn [bind for_each].
  rewrite Hg. cbn [bind for_each]. rewrite Hc. cbn [bind for_each high_risk_users add_node].
  unfold detect_attack_paths. rewrite Hu, Hc. cbn [bind for_each high_risk_users add_node].
  destruct (bool_decide _); reflexivity.
Qed.

Lemma empty_snapshot_report_witness :
  calculate_risk_scores (JObj [("Domain", JStr "corp.local")])
    = Ok {| kerberoasting := 0; delegation := 0; encryption := 0; ntlm := 0;
            privileged := 0; inactive := 0 |} /\
  overall_of_snapshot (JObj [("Domain", JStr "corp.local")])
    = Ok (0%Z, "risk-low", "Low Risk") /\
  generate_graph_visualization (JObj [("Domain", JStr "corp.local")])
    = Ok ([{| node_id := "domain_corp.local"; node_label := JStr "corp.local";
              node_type := "domain"; node_group := "domain"; node_risk := None;
              node_spns := None; node_color := "#dc3545" |}], [], []).
Proof.
  apply (empty_snapshot_report (JObj [("Domain", JStr "corp.local")]) (JStr "corp.local"));
    reflexivity.
Defined.

(** X10.  When the value under [Users] cannot be iterated ([null], a
    number, a boolean), the scoring and the graph construction both
    raise what the iteration raises. *)
Theorem non_iterable_users_raise (data v : json) (e : exn) :
  Py.get data "Users" (JList []) = Ok v ->
  Py.iter v = Raise e ->
  calculate_risk_scores data = Raise e /\
  generate_graph_visualization data = Raise e.
Proof.
  intros Hv He.
  assert (Hs : section data "Users" = Raise e).
  { unfold section. rewrite Hv. exact He. }
  split.
  - unfold calculate_risk_scores. rewrite Hs. reflexivity.
  - destruct data; try discriminate Hv.
    unfold generate_graph_visualization, build_graph. cbn [Py.get domain_id_of bind].
    rewrite Hs. reflexivity.
Qed.

Lemma non_iterable_users_raise_witness :
  calculate_risk_scores (JObj [("Users", JNull)]) = Raise TypeError /\
  generate_graph_visualization (JObj [("Users", JNull)]) = Raise TypeError.
Proof.
  apply (non_iterable_users_raise (JObj [("Users", JNull)]) JNull TypeError); reflexivity.
Defined.

Lemma comprehension_all {A : Type} (cond : A -> result bool) (l r : list A) :
  comprehension cond l = Ok r -> Forall (fun x => exists b, cond x = Ok b) l.
Proof.
  revert r. induction l as [|x l IH]; intros r H; [constructor|].
  simpl in H. inv_bind H. inv_bind H. constructor; eauto.
Qed.

Lemma get_ok_dict (x : json) (k : string) (d v : json) :
  Py.get x k d = Ok v -> is_dict x.
Proof. destruct x; try discriminate. intros _. eexists. reflexivity. Qed.

Lemma has_spns_dict (x : json) (b : bool) : has_spns x = Ok b -> is_dict x.
Proof.
  unfold has_spns, nonempty_field. intros H. inv_bind H. exact (get_ok_dict _ _ _ _ E).
Qed.

Lemma has_delegation_flag_dict (x : json) (b : bool) :
  has_delegation_flag x = Ok b -> is_dict x.
Proof.
  unfold has_delegation_flag. intros H. inv_bind H. exact (get_ok_dict _ _ _ _ E).
Qed.

(** X11.  The scoring returns only if every item of [Users] and of
    [Computers] is an object, and the graph construction only if every
    item of [Users], [SecurityGroups] and [Computers] is one. *)
Theorem records_must_be_objects (data : json) (users groups computers : list json) :
  section data "Users" = Ok users ->
  section data "SecurityGroups" = Ok groups ->
  section data "Computers" = Ok computers ->
  ((exists s, calculate_risk_scores data = Ok s) ->
   Forall is_dict users /\ Forall is_dict computers) /\
  ((exists ns es ps, generate_graph_visualization data = Ok (ns, es, ps)) ->
   Forall is_dict users /\ Forall is_dict groups /\ Forall is_dict computers).
Proof.
  intros Hus Hgs Hcs. split.
  - intros [s Hs]. unfold calculate_risk_scores in Hs. rewrite Hus, Hcs in Hs.
    cbn [bind] in Hs. inv_bind Hs. inv_bind Hs. inv_bind Hs.
    apply comprehension_all in E, E1. split.
    + eapply Forall_impl; [exact E|]. intros u [b Hb]. exact (has_spns_dict _ _ Hb).
    + eapply Forall_impl; [exact E1|]. intros c [b Hb].
      unfold computer_with_delegation in Hb. inv_bind Hb. inv_bind E2.
      exact (has_delegation_flag_dict _ _ E3).
  - intros (ns & es & ps & H). apply generate_parts in H as (g & Hb & _).
    unfold build_graph in Hb. inv_binds Hb.
    rewrite Hus in E1. injection E1 as <-.
    rewrite Hgs in E3. injection E3 as <-.
    rewrite Hcs in E5. injection E5 as <-.
    refine (conj _ (conj _ _)).
    + apply (for_each_all is_dict _ _ _ _) in E2; [exact E2|].
      intros u s1 s2 Hu. unfold add_user in Hu. inv_bind Hu.
      unfold user_risk in E1. inv_bind E1. exact (has_spns_dict _ _ E3).
    + apply (for_each_all is_dict _ _ _ _) in E4; [exact E4|].
      intros grp s1 s2 Hgrp. unfold add_group in Hgrp. inv_bind Hgrp.
      exact (get_ok_dict _ _ _ _ E1).
    + apply (for_each_all is_dict _ _ _ _) in E6; [exact E6|].
      intros c s1 s2 Hc. unfold add_computer in Hc. inv_bind Hc.
      exact (has_delegation_flag_dict _ _ E1).
Qed.

Lemma records_must_be_objects_witness :
  (Forall is_dict [user_bob_admin] /\ Forall is_dict []) /\
  (Forall is_dict [user_bob_admin] /\ Forall is_dict [group_domain_admins] /\
   Forall is_dict []).
Proof.
  destruct (records_must_be_objects snapshot_admin_with_group
              [user_bob_admin] [group_domain_admins] [] eq_refl eq_refl eq_refl)
    as [Hs Hg].
  split.
  - apply Hs. eexists. vm_compute. reflexivity.
  - apply Hg. eexists _, _, _. vm_compute. reflexivity.
Defined.

(** ** The sub-scores as weighted counts *)

Lemma comprehension_fmap {A : Type} (f : A -> json) (cond : json -> result bool)
    (p : A -> bool) (l : list A) :
  (forall x, cond (f x) = Ok (p x)) ->
  comprehension cond (f <$> l) = Ok (f <$> List.filter p l).
Proof.
  intros H. induction l as [|x l IH]; [reflexivity|].
  rewrite fmap_cons. cbn [comprehension List.filter]. rewrite H, IH. cbn [bind].
  destruct (p x); reflexivity.
Qed.

Lemma count_fmap_filter {A : Type} (f : A -> json) (p : A -> bool) (l : list A) :
  count (f <$> List.filter p l) = how_many p l.
Proof. unfold count, how_many. rewrite length_fmap. reflexivity. Qed.

Lemma filter_filter_andb {A : Type} (p q : A -> bool) (l : list A) :
  List.filter q (List.filter p l) = List.filter (fun x => p x && q x) l.
Proof.
  induction l as [|x l IH]; [reflexivity|].
  cbn [List.filter]. destruct (p x); cbn [List.filter andb]; rewrite IH; reflexivity.
Qed.

Lemma str_in_strings (g : string) (l : list string) :
  Py.str_in g (JStr <$> l) = bool_decide (g ∈ l).
Proof.
  induction l as [|t l IH].
  - reflexivity.
  - rewrite fmap_cons. unfold Py.str_in in *. cbn [existsb Py.eq_str]. rewrite IH.
    destruct (String.eqb_spec t g) as [->|Hne]; cbn [orb].
    + symmetry. apply bool_decide_eq_true. left.
    + apply bool_decide_ext. rewrite elem_of_cons. split; [auto|].
      intros [->|H]; [contradiction|exact H].
Qed.

Lemma has_spns_record (u : user_record) :
  has_spns (json_of_user u) = Ok (spec_has_spns u).
Proof.
  destruct u as [? [|s l] ? ? ? ? ? ? ?]; reflexivity.
Qed.

Lemma has_delegation_flag_record (u : user_record) :
  has_delegation_flag (json_of_user u) = Ok (spec_user_delegates u).
Proof.
  destruct u as [? ? [|] [|] ? ? ? ? ?]; reflexivity.
Qed.

Lemma computer_with_delegation_record (c : computer_record) :
  computer_with_delegation (json_of_computer c) = Ok (spec_computer_delegates c).
Proof.
  destruct c as [? [|] [|] [|t l] [|]]; reflexivity.
Qed.

Lemma weak_encryption_user_record (u : user_record) :
  weak_encryption_user (json_of_user u) = Ok (spec_weak_encryption u).
Proof.
  destruct u as [? ? ? ? encs des ? ? ?].
  unfold weak_encryption_user, has_weak_encryption, spec_weak_encryption.
  cbn [json_of_user encryption_types use_des_key_only].
  change (Py.get _ "EncryptionTypes" (JList [])) with (Ok (json_strings encs)).
  change (Py.get _ "UseDESKeyOnly" (JBool false)) with (Ok (JBool des)).
  cbn [bind json_strings Py.iter Py.truthy].
  replace (existsb (fun enc => Py.in_strs enc ["DES"; "RC4"]) (JStr <$> encs))
    with (existsb (fun enc => String.eqb enc "DES" || String.eqb enc "RC4") encs).
  - destruct (existsb _ encs); reflexivity.
  - induction encs as [|e encs IH]; [reflexivity|].
    rewrite fmap_cons. cbn [existsb]. rewrite IH. f_equal.
    unfold Py.in_strs. cbn [existsb Py.eq_str]. rewrite orb_false_r. reflexivity.
Qed.

Lemma in_group_record (g : string) (u : user_record) :
  in_group g (json_of_user u) = Ok (bool_decide (g ∈ groups_of u)).
Proof.
  destruct u as [? ? ? ? ? ? gs ? ?]. unfold in_group, _get_member_of.
  cbn [json_of_user groups_of].
  change (Py.get _ "MemberOf" JNull) with (Ok (json_strings gs)).
  cbn [bind json_strings]. rewrite str_in_strings. reflexivity.
Qed.

Lemma not_in_group_record (g : string) (u : user_record) :
  not_in_group g (json_of_user u) = Ok (negb (bool_decide (g ∈ groups_of u))).
Proof.
  destruct u as [? ? ? ? ? ? gs ? ?]. unfold not_in_group, _get_member_of.
  cbn [json_of_user groups_of].
  change (Py.get _ "MemberOf" JNull) with (Ok (json_strings gs)).
  cbn [bind json_strings]. rewrite str_in_strings. reflexivity.
Qed.

Lemma counter_above_days (x : json) (k : string) (n : Z) (d : option Z) :
  (0 <= n)%Z ->
  Py.get x k JNull = Ok (json_days d) ->
  counter_above k n x = Ok (spec_days_above n d).
Proof.
  intros Hn Hx. unfold counter_above. rewrite Hx. cbn [bind].
  destruct d as [z|]; [|reflexivity]. cbn [json_days Py.truthy spec_days_above].
  destruct (Z.eqb_spec z 0) as [->|Hz]; cbn [negb].
  - symmetry. f_equal. apply Z.ltb_ge. exact Hn.
  - reflexivity.
Qed.

Lemma last_logon_record (u : user_record) :
  counter_above "DaysSinceLastLogon" 90 (json_of_user u)
  = Ok (spec_days_above 90 (days_since_last_logon u)).
Proof. apply counter_above_days; [lia|]. destruct u; reflexivity. Qed.

Lemma password_change_record (u : user_record) :
  counter_above "DaysSincePasswordChange" 365 (json_of_user u)
  = Ok (spec_days_above 365 (days_since_password_change u)).
Proof. apply counter_above_days; [lia|]. destruct u; reflexivity. Qed.

(** X12.  On the snapshot of any typed records the scoring returns, and
    each sub-score is the one of the formulas: 10 for every user with an
    SPN; 15 for every user with a delegation flag and 20 for every
    computer that is not a domain controller and has a delegation flag or
    constrained-delegation targets; 5 for every user with DES or RC4 among
    the encryption types or with DES only forced; the doubled event count
    capped at 100; 25 for every member of Domain Admins who is not a
    member of Protected Users; 2 for every user whose last logon is more
    than 90 days old and 3 for every user whose password is more than 365
    days old. *)
Theorem sub_scores_are_weighted_counts (us : list user_record)
    (cs : list computer_record) (events : Z) :
  calculate_risk_scores (snapshot_of_records us cs events) =
    Ok {| kerberoasting := 10 * how_many spec_has_spns us;
          delegation := 15 * how_many spec_user_delegates us
                        + 20 * how_many spec_computer_delegates cs;
          encryption := 5 * how_many spec_weak_encryption us;
          ntlm := Z.min (2 * events) 100;
          privileged := 25 * how_many spec_unprotected_admin us;
          inactive :=
            2 * how_many (fun u => spec_days_above 90 (days_since_last_logon u)) us
            + 3 * how_many (fun u => spec_days_above 365 (days_since_password_change u)) us |}.
Proof.
  unfold calculate_risk_scores.
  change (section (snapshot_of_records us cs events) "Users")
    with (Ok (A := list json) (json_of_user <$> us)).
  change (section (snapshot_of_records us cs events) "Computers")
    with (Ok (A := list json) (json_of_computer <$> cs)).
  change (ntlm_event_count (snapshot_of_records us cs events)) with (Ok (JInt events)).
  cbn [bind Py.min_double_100].
  rewrite (comprehension_fmap _ _ _ _ has_spns_record). cbn [bind].
  rewrite (comprehension_fmap _ _ _ _ has_delegation_flag_record). cbn [bind].
  rewrite (comprehension_fmap _ _ _ _ computer_with_delegation_record). cbn [bind].
  rewrite (comprehension_fmap _ _ _ _ weak_encryption_user_record). cbn [bind].
  rewrite (comprehension_fmap _ _ _ _ (in_group_record "Domain Admins")). cbn [bind].
  rewrite (comprehension_fmap _ _ _ _ (not_in_group_record "Protected Users")). cbn [bind].
  rewrite (comprehension_fmap _ _ _ _ last_logon_record). cbn [bind].
  rewrite (comprehension_fmap _ _ _ _ password_change_record). cbn [bind].
  rewrite filter_filter_andb, !count_fmap_filter.
  fold spec_unprotected_admin.
  f_equal. f_equal; lia.
Qed.

(** The formulas at work: svc_backup counts for its SPN, its delegation
    flag, RC4 and the logon 91 days ago, not for the password of 365
    days; alice, a protected administrator, counts for the password of
    366 days only; bob for DES only and as an unprotected administrator;
    WEB01 for its delegation targets; DC01, a domain controller, not at
    all; 60 events for the full 100. *)
Lemma sub_scores_are_weighted_counts_witness :
  calculate_risk_scores
    (snapshot_of_records [record_svc_backup; record_alice; record_bob]
       [record_web01; record_dc01] 60)
  = Ok {| kerberoasting := 10; delegation := 35; encryption := 10; ntlm := 100;
          privileged := 25; inactive := 5 |}.
Proof.
  rewrite (sub_scores_are_weighted_counts
             [record_svc_backup; record_alice; record_bob]
             [record_web01; record_dc01] 60).
  vm_compute. reflexivity.
Defined.

(** ** The order of the nodes *)

(** X13.  In every run that returns, the nodes are the domain node, then
    one node per user record that qualifies, then one per privileged
    group, then one per computer that qualifies, each kind in the order
    of the snapshot. *)
Theorem nodes_in_snapshot_order (data : json) (users groups computers : list json)
    (ns : list node) (es : list edge) (ps : list attack_path) :
  generate_graph_visualization data = Ok (ns, es, ps) ->
  section data "Users" = Ok users ->
  section data "SecurityGroups" = Ok groups ->
  section data "Computers" = Ok computers ->
  exists d,
    domain_id_of data = Ok d /\
    node_id <$> ns =
      d :: ((fun u => "user_" +:+ account_name u)
              <$> filter (fun u => user_wanted u = Ok true) users)
        ++ ((fun g => "group_" +:+ group_name g)
              <$> filter (fun g => group_wanted g = Ok true) groups)
        ++ ((fun c => "comp_" +:+ account_name c)
              <$> filter (fun c => computer_wanted c = Ok true) computers).
Proof.
  intros H Hus Hgs Hcs.
  apply generate_parts in H as (g & Hb & _ & -> & _).
  destruct (build_graph_ids _ _ Hb) as (us & gs & cs & Hus' & Hgs' & Hcs' & Hids & _).
  rewrite Hus in Hus'. injection Hus' as <-.
  rewrite Hgs in Hgs'. injection Hgs' as <-.
  rewrite Hcs in Hcs'. injection Hcs' as <-.
  unfold build_graph in Hb. inv_bind Hb. inv_bind Hb. exists v0. split; [exact E0|].
  unfold ids_of, graph_ids in Hids. rewrite Hids.
  unfold domain_id_of in E0. destruct data; try discriminate E.
  cbn [Py.get bind] in E0. injection E0 as <-. reflexivity.
Qed.

Lemma nodes_in_snapshot_order_witness :
  exists ns es ps,
    generate_graph_visualization snapshot_admin_with_group = Ok (ns, es, ps) /\
    node_id <$> ns = ["domain_DOMAIN"; "user_bob"; "group_Domain Admins"].
Proof.
  eexists _, _, _. split; [vm_compute; reflexivity|].
  edestruct (nodes_in_snapshot_order snapshot_admin_with_group) as (d & Hd & Hn);
    [vm_compute; reflexivity|reflexivity|reflexivity|reflexivity|].
  injection Hd as <-. rewrite Hn. vm_compute. reflexivity.
Defined.


(** ** The delegation edges *)

Lemma grows_nil_map (g g' : graph) : grows g g' [] -> node_id_map g' = node_id_map g.
Proof. intros [_ H]. rewrite H. simpl. set_solver. Qed.

Lemma add_delegation_edge_keeps_edge (uid : string) (c : json) (g g' : graph) (e : edge) :
  add_delegation_edge uid c g = Ok g' -> e ∈ edges g -> e ∈ edges g'.
Proof.
  unfold add_delegation_edge. intros H He. repeat run_step H; [|exact He].
  simpl. apply elem_of_app. left. exact He.
Qed.

Lemma add_delegation_edges_keeps_edge (data u : json) (g g' : graph) (e : edge) :
  add_delegation_edges data u g = Ok g' -> e ∈ edges g -> e ∈ edges g'.
Proof.
  unfold add_delegation_edges. intros H He. repeat run_step H; try exact He.
  apply (for_each_inv (fun s => e ∈ edges s) _ _ _ _ H He).
  intros c t1 t2 _ Ht Hc. exact (add_delegation_edge_keeps_edge _ _ _ _ _ Hc Ht).
Qed.

Lemma add_delegation_edges_draws (data u c : json) (computers : list json)
    (g g' : graph) :
  section data "Computers" = Ok computers ->
  c ∈ computers ->
  has_delegation_flag u = Ok true ->
  "user_" +:+ account_name u ∈ node_id_map g ->
  "comp_" +:+ account_name c ∈ node_id_map g ->
  add_delegation_edges data u g = Ok g' ->
  exists e,
    e ∈ edges g' /\ edge_from e = "user_" +:+ account_name u /\
    edge_to e = "comp_" +:+ account_name c /\ edge_label e = "DelegatesTo" /\
    edge_attackPath e = true.
Proof.
  intros Hcs Hc Hd Hu Hcn H. unfold add_delegation_edges in H.
  rewrite Hd in H. cbn [bind] in H. inv_bind H.
  apply user_id_of_account_name in E. subst v.
  rewrite bool_decide_eq_true_2 in H by exact Hu.
  rewrite Hcs in H. cbn [bind] in H.
  destruct (for_each_at _ _ _ _ _ Hc H) as (l1 & l2 & t1 & t2 & _ & H1 & Hbody & H2).
  assert (Hmap : node_id_map t1 = node_id_map g).
  { apply (for_each_inv (fun s => node_id_map s = node_id_map g) _ _ _ _ H1);
      [reflexivity|].
    intros x s1 s2 _ Hs Hx. apply add_delegation_edge_grows, grows_nil_map in Hx.
    rewrite Hx. exact Hs. }
  unfold add_delegation_edge in Hbody. inv_bind Hbody.
  apply comp_id_of_account_name in E. subst v.
  rewrite bool_decide_eq_true_2 in Hbody by (rewrite Hmap; exact Hcn).
  injection Hbody as <-.
  eexists. split.
  - apply (for_each_inv (fun s => _ ∈ edges s) _ _ _ _ H2).
    + simpl. apply elem_of_app. right. left.
    + intros x s1 s2 _ Hs Hx. exact (add_delegation_edge_keeps_edge _ _ _ _ _ Hx Hs).
  - repeat split; reflexivity.
Qed.

(** X14.  In every run that returns, a user with a delegation flag has a
    flagged [DelegatesTo] edge to every computer that has a node,
    whatever the targets of its delegation are. *)
Theorem delegation_edges_to_every_computer (data : json) (users computers : list json)
    (ns : list node) (es : list edge) (ps : list attack_path) (u c : json) :
  generate_graph_visualization data = Ok (ns, es, ps) ->
  section data "Users" = Ok users ->
  section data "Computers" = Ok computers ->
  u ∈ users -> has_delegation_flag u = Ok true ->
  c ∈ computers -> computer_wanted c = Ok true ->
  exists e,
    e ∈ es /\ edge_from e = "user_" +:+ account_name u /\
    edge_to e = "comp_" +:+ account_name c /\ edge_label e = "DelegatesTo" /\
    edge_attackPath e = true.
Proof.
  intros H Hus Hcs Hu Hd Hc Hcw.
  apply generate_parts in H as (g & Hb & _ & _ & ->).
  pose proof (build_graph_users_wanted _ _ _ Hb Hus) as Hws.
  rewrite Forall_forall in Hws. destruct (Hws u Hu) as [w Hw].
  rewrite (user_wanted_delegation _ _ Hw Hd) in Hw.
  pose proof (build_graph_high_risk_users _ _ _ Hb Hus) as Hr.
  destruct (build_graph_ids _ _ Hb)
    as (users' & groups & computers' & Hus' & _ & Hcs' & _ & Hm).
  rewrite Hus in Hus'. injection Hus' as <-.
  rewrite Hcs in Hcs'. injection Hcs' as <-.
  pose proof (user_in_graph_ids data users groups computers u Hu Hw) as Huid.
  pose proof (computer_in_graph_ids data users groups computers c Hc Hcw) as Hcid.
  apply (elem_of_list_to_set (C := gset string)) in Huid, Hcid.
  rewrite <- Hm in Huid, Hcid.
  unfold build_graph in Hb. inv_binds Hb.
  assert (Hin : u ∈ high_risk_users v6).
  { apply for_each_keeps_users in Hb; [|apply add_delegation_edges_keeps_users].
    rewrite <- Hb, Hr. apply list_elem_of_filter. auto. }
  destruct (for_each_at _ _ _ _ _ Hin Hb) as (l1 & l2 & s1 & s2 & _ & H1 & Hbody & H2).
  assert (Hmap2 : node_id_map g = node_id_map s2).
  { apply (for_each_inv (fun s => node_id_map s = node_id_map s2) _ _ _ _ H2);
      [reflexivity|].
    intros x t1 t2 _ Ht Hx. apply add_delegation_edges_grows, grows_nil_map in Hx.
    rewrite Hx. exact Ht. }
  assert (Hmap1 : node_id_map s2 = node_id_map s1).
  { apply add_delegation_edges_grows, grows_nil_map in Hbody. exact Hbody. }
  rewrite Hmap2, Hmap1 in Huid, Hcid.
  destruct (add_delegation_edges_draws _ _ _ _ _ _ Hcs Hc Hd Huid Hcid Hbody)
    as (e & He & Hfrom & Hto & Hl & Hflag).
  assert (He' : e ∈ edges g).
  { apply (for_each_inv (fun s => e ∈ edges s) _ _ _ _ H2 He).
    intros x t1 t2 _ Ht Hx. exact (add_delegation_edges_keeps_edge _ _ _ _ _ Hx Ht). }
  exists (mark_edge (attack_path_edge_ids ps) e).
  split; [apply list_elem_of_fmap_2; exact He'|].
  destruct (mark_edge_ends (attack_path_edge_ids ps) e) as (-> & -> & ->).
  refine (conj Hfrom (conj Hto (conj Hl _))).
  unfold mark_edge. rewrite Hflag, orb_true_r. reflexivity.
Qed.

Lemma delegation_edges_to_every_computer_witness :
  exists ns es ps,
    generate_graph_visualization snapshot_delegation = Ok (ns, es, ps) /\
    exists e,
      e ∈ es /\ edge_from e = "user_svc_web" /\ edge_to e = "comp_SRV01$" /\
      edge_label e = "DelegatesTo" /\ edge_attackPath e = true.
Proof.
  eexists _, _, _. split; [vm_compute; reflexivity|].
  eapply (delegation_edges_to_every_computer snapshot_delegation _ _ _ _ _
            (JObj [("SamAccountName", JStr "svc_web"); ("TrustedForDelegation", JBool true)])
            (JObj [("SamAccountName", JStr "SRV01$"); ("TrustedForDelegation", JBool true)]));
    [vm_compute; reflexivity|reflexivity|reflexivity|left|reflexivity|left|reflexivity].
Defined.

(** ** The membership edges *)

Lemma grows_keeps_id (g g' : graph) (out : list string) (x : string) :
  grows g g' out -> x ∈ node_id_map g -> x ∈ node_id_map g'.
Proof. intros [_ H] Hx. rewrite H. set_solver. Qed.

Lemma add_member_keeps_edge (gid : string) (m : json) (g g' : graph) (e : edge) :
  add_member gid m g = Ok g' -> e ∈ edges g -> e ∈ edges g'.
Proof.
  unfold add_member. intros H He. repeat run_step H; try exact He.
  simpl. apply elem_of_app. left. exact He.
Qed.

Lemma add_group_keeps_edge (d : string) (grp : json) (g g' : graph) (e : edge) :
  add_group d grp g = Ok g' -> e ∈ edges g -> e ∈ edges g'.
Proof.
  unfold add_group. intros H He. repeat run_step H; try exact He.
  apply (for_each_inv (fun s => e ∈ edges s) _ _ _ _ H).
  - simpl. apply elem_of_app. left. exact He.
  - intros m t1 t2 _ Ht Hm. exact (add_member_keeps_edge _ _ _ _ _ Hm Ht).
Qed.

Lemma add_computer_keeps_edge (d : string) (c : json) (g g' : graph) (e : edge) :
  add_computer d c g = Ok g' -> e ∈ edges g -> e ∈ edges g'.
Proof.
  unfold add_computer. intros H He. repeat run_step H; try exact He.
  all: simpl; apply elem_of_app; left; exact He.
Qed.

Lemma add_group_draws (d : string) (grp m : json) (members : list json) (name : string)
    (g g' : graph) :
  group_wanted grp = Ok true ->
  Py.get grp "Members" (JList []) = Ok (JList members) ->
  m ∈ members ->
  Py.get m "SamAccountName" JNull = Ok (JStr name) -> name <> EmptyString ->
  "user_" +:+ name ∈ node_id_map g ->
  add_group d grp g = Ok g' ->
  exists e,
    e ∈ edges g' /\ edge_from e = "group_" +:+ group_name grp /\
    edge_to e = "user_" +:+ name /\ edge_label e = "MemberOf".
Proof.
  intros Hw Hms Hm Hn Hne Hu H. unfold add_group in H.
  pose proof (group_wanted_name _ Hw) as Hname. rewrite Hname in H. cbn [bind] in H.
  assert (Hp : Py.in_strs (JStr (group_name grp)) privileged_groups = true).
  { unfold group_wanted in Hw. rewrite Hname in Hw. cbn [bind] in Hw. congruence. }
  rewrite Hp, Hms in H. cbn [bind Py.iter Py.str] in H.
  destruct (for_each_at _ _ _ _ _ Hm H) as (l1 & l2 & t1 & t2 & _ & H1 & Hbody & H2).
  assert (Hin : "user_" +:+ name ∈ node_id_map t1).
  { apply (for_each_inv (fun s => "user_" +:+ name ∈ node_id_map s) _ _ _ _ H1).
    - simpl. set_solver.
    - intros x s1 s2 _ Hs Hx. apply add_member_grows in Hx.
      exact (grows_keeps_id _ _ _ _ Hx Hs). }
  unfold add_member in Hbody. rewrite Hn in Hbody. cbn [bind Py.str] in Hbody.
  assert (Ht : Py.truthy (JStr name) = true) by (destruct name; [contradiction|reflexivity]).
  rewrite Ht in Hbody. rewrite bool_decide_eq_true_2 in Hbody by exact Hin.
  injection Hbody as <-.
  eexists. split.
  - apply (for_each_inv (fun s => _ ∈ edges s) _ _ _ _ H2).
    + simpl. apply elem_of_app. right. left.
    + intros x s1 s2 _ Hs Hx. exact (add_member_keeps_edge _ _ _ _ _ Hx Hs).
  - repeat split; reflexivity.
Qed.

(** X15.  In every run that returns, a named member of a privileged group
    whose account has a user node has a [MemberOf] edge, drawn from the
    group to the user and not flagged. *)
Theorem member_edges_from_group_to_user (data : json) (users groups members : list json)
    (ns : list node) (es : list edge) (ps : list attack_path)
    (grp m u : json) (name : string) :
  generate_graph_visualization data = Ok (ns, es, ps) ->
  section data "Users" = Ok users ->
  section data "SecurityGroups" = Ok groups ->
  grp ∈ groups -> group_wanted grp = Ok true ->
  Py.get grp "Members" (JList []) = Ok (JList members) ->
  m ∈ members ->
  Py.get m "SamAccountName" JNull = Ok (JStr name) -> name <> EmptyString ->
  u ∈ users -> user_wanted u = Ok true -> account_name u = name ->
  exists e,
    e ∈ es /\ edge_from e = "group_" +:+ group_name grp /\
    edge_to e = "user_" +:+ name /\ edge_label e = "MemberOf" /\
    edge_attackPath e = false.
Proof.
  intros H Hus Hgs Hgrp Hgw Hms Hm Hn Hne Hu Huw Hacc.
  pose proof H as Hrun.
  apply generate_parts in H as (g & Hb & _ & _ & ->).
  unfold build_graph in Hb. inv_binds Hb.
  rewrite Hus in E1. injection E1 as <-.
  rewrite Hgs in E3. injection E3 as <-.
  assert (Hin : "user_" +:+ name ∈ node_id_map v2).
  { apply (for_each_grows _ user_wanted (fun u => "user_" +:+ account_name u)) in E2;
      [|intros x g1 g2 Hx; exact (add_user_grows _ _ _ _ Hx)].
    destruct E2 as [_ Hmap]. rewrite Hmap. apply elem_of_union. left.
    apply elem_of_list_to_set. rewrite <- Hacc.
    apply (list_elem_of_fmap_2 (fun u => "user_" +:+ account_name u)).
    apply list_elem_of_filter. auto. }
  destruct (for_each_at _ _ _ _ _ Hgrp E4) as (l1 & l2 & s1 & s2 & _ & H1 & Hbody & H2).
  assert (Hin1 : "user_" +:+ name ∈ node_id_map s1).
  { apply (for_each_inv (fun s => "user_" +:+ name ∈ node_id_map s) _ _ _ _ H1 Hin).
    intros x t1 t2 _ Ht Hx. apply add_group_grows in Hx as (w & _ & Hx).
    exact (grows_keeps_id _ _ _ _ Hx Ht). }
  destruct (add_group_draws _ _ _ _ _ _ _ Hgw Hms Hm Hn Hne Hin1 Hbody)
    as (e & He & Hfrom & Hto & Hl).
  assert (He4 : e ∈ edges v4).
  { apply (for_each_inv (fun s => e ∈ edges s) _ _ _ _ H2 He).
    intros x t1 t2 _ Ht Hx. exact (add_group_keeps_edge _ _ _ _ _ Hx Ht). }
  assert (He6 : e ∈ edges v6).
  { apply (for_each_inv (fun s => e ∈ edges s) _ _ _ _ E6 He4).
    intros x t1 t2 _ Ht Hx. exact (add_computer_keeps_edge _ _ _ _ _ Hx Ht). }
  assert (Heg : e ∈ edges g).
  { apply (for_each_inv (fun s => e ∈ edges s) _ _ _ _ Hb He6).
    intros x t1 t2 _ Ht Hx. exact (add_delegation_edges_keeps_edge _ _ _ _ _ Hx Ht). }
  exists (mark_edge (attack_path_edge_ids ps) e).
  assert (Hes : mark_edge (attack_path_edge_ids ps) e
                ∈ mark_edge (attack_path_edge_ids ps) <$> edges g)
    by (apply list_elem_of_fmap_2; exact Heg).
  split; [exact Hes|].
  destruct (mark_edge_ends (attack_path_edge_ids ps) e) as (Ef & Et & El).
  rewrite Ef, Et, El. refine (conj Hfrom (conj Hto (conj Hl _))).
  apply (member_of_edges_never_flagged _ _ _ _ _ Hrun Hes). rewrite El. exact Hl.
Qed.

Lemma member_edges_from_group_to_user_witness :
  exists ns es ps,
    generate_graph_visualization snapshot_admin_with_group = Ok (ns, es, ps) /\
    exists e,
      e ∈ es /\ edge_from e = "group_Domain Admins" /\ edge_to e = "user_bob" /\
      edge_label e = "MemberOf" /\ edge_attackPath e = false.
Proof.
  eexists _, _, _. split; [vm_compute; reflexivity|].
  eapply (member_edges_from_group_to_user snapshot_admin_with_group _ _ _ _ _ _
            group_domain_admins (JObj [("SamAccountName", JStr "bob")]) user_bob_admin "bob");
    [vm_compute; reflexivity|reflexivity|reflexivity|left|reflexivity|reflexivity|left
    |reflexivity|discriminate|left|reflexivity|reflexivity].
Defined.

(** ** Every finding has a record behind it *)

Lemma group_membership_rule_justified (ids : gset string) (u : json)
    (out : list attack_path) :
  group_membership_rule ids u [] = Ok out -> Forall (by_membership u) out.
Proof.
  unfold group_membership_rule. intros H. inv_bind H. inv_bind H.
  apply lower_str in E0 as (name & -> & ->).
  repeat run_step H; each_finding.
  apply String.eqb_neq in C. eexists name, _.
  refine (conj E (conj C (conj _ (conj _ _)))); [eassumption|eassumption|].
  simpl. auto.
Qed.

Lemma kerberoasting_rule_justified (ids : gset string) (u : json)
    (out : list attack_path) :
  kerberoasting_rule ids u [] = Ok out -> Forall (by_spns u) out.
Proof.
  unfold kerberoasting_rule. intros H. inv_bind H. inv_bind H.
  apply lower_str in E0 as (name & -> & ->).
  repeat run_step H; each_finding.
  apply String.eqb_neq in C. exists name.
  refine (conj E (conj C (conj _ _))); [eassumption|]. simpl. auto.
Qed.

Lemma delegation_rule_justified (ids : gset string) (u : json)
    (out : list attack_path) :
  delegation_rule ids u [] = Ok out -> Forall (by_delegation u) out.
Proof.
  unfold delegation_rule. intros H. inv_bind H. destruct v; [|injection H as <-; constructor].
  inv_bind H. apply user_id_of_account_name in E0. subst v.
  repeat run_step H; each_finding.
  eexists. split; [exact E|]. split; [eassumption|]. simpl.
  destruct (Py.truthy _); auto.
Qed.

Lemma asrep_rule_justified (ids : gset string) (u : json) (out : list attack_path) :
  asrep_rule ids u [] = Ok out -> Forall (by_preauth u) out.
Proof.
  unfold asrep_rule. intros H. inv_bind H. inv_bind H.
  apply lower_str in E0 as (name & -> & ->).
  change (Py.lower_string <$> excluded_accounts)
    with ["administrator"; "krbtgt"; "guest"] in H.
  repeat run_step H; each_finding.
  eexists name, _. split; [exact E|]. split.
  - intros Hin. cbn [existsb] in C.
    repeat (apply elem_of_cons in Hin as [Hin|Hin];
            [rewrite Hin in C; discriminate C|]).
    apply elem_of_nil in Hin as [].
  - split; [eassumption|]. simpl. auto.
Qed.

Lemma computer_delegation_rule_justified (ids : gset string) (c : json)
    (out : list attack_path) :
  computer_delegation_rule ids c [] = Ok out -> Forall (by_computer_delegation c) out.
Proof.
  unfold computer_delegation_rule. intros H. inv_bind H.
  destruct (Py.truthy v) eqn:Ht; cbn [bind] in H; [|injection H as <-; constructor].
  inv_bind H. inv_bind E0. injection E0 as <-.
  destruct (Py.truthy v1) eqn:Hdc; cbn [negb] in H; [injection H as <-; constructor|].
  inv_bind H. apply comp_id_of_account_name in E0. subst v0.
  repeat run_step H; each_finding.
  exists v, v1. refine (conj E (conj Ht (conj E1 (conj Hdc _)))). simpl. auto.
Qed.

Lemma Forall2_justified {A B : Type} (f : A -> result (list B)) (P : A -> B -> Prop)
    (l : list A) (outs : list (list B)) :
  (forall x out, f x = Ok out -> Forall (P x) out) ->
  Forall2 (fun x out => f x = Ok out) l outs ->
  Forall (fun p => exists x, x ∈ l /\ P x p) (concat outs).
Proof.
  intros Hf. induction 1 as [|x out l outs Hx _ IH]; [constructor|].
  simpl. apply Forall_app. split.
  - eapply Forall_impl; [exact (Hf _ _ Hx)|]. intros p Hp. exists x. split; [left|exact Hp].
  - eapply Forall_impl; [exact IH|]. intros p (y & Hy & Hp). exists y.
    split; [right; exact Hy|exact Hp].
Qed.

(** X16.  Every finding of a run has a record of the snapshot behind it
    that meets the condition of the rule: a user other than Administrator
    in Domain Admins, a user other than krbtgt with SPNs, a user with a
    delegation flag, a user outside the excluded accounts that does not
    require pre-authentication, or a computer trusted for delegation that
    is not a domain controller; and the finding carries the type, the
    path and the severity the rule gives that record. *)
Theorem findings_are_justified (data : json) (users computers : list json)
    (ns : list node) (es : list edge) (ps : list attack_path) :
  generate_graph_visualization data = Ok (ns, es, ps) ->
  section data "Users" = Ok users ->
  section data "Computers" = Ok computers ->
  Forall (justified users computers) ps.
Proof.
  intros H Hus Hcs.
  apply generate_parts in H as (g & Hb & Hd & _ & _).
  pose proof (build_graph_high_risk_users _ _ _ Hb Hus) as Hr.
  apply detect_attack_paths_by_rule in Hd.
  destruct Hd as [users' computers' o1 o2 o3 o4 o5 Hus' Hcs' F1 F2 F3 F4 F5].
  rewrite Hus in Hus'. injection Hus' as <-.
  rewrite Hcs in Hcs'. injection Hcs' as <-.
  repeat (apply Forall_app; split).
  - destruct (bool_decide _); [|subst o1; constructor].
    apply (Forall2_justified _ by_membership) in F1;
      [|intros u out; apply group_membership_rule_justified].
    eapply Forall_impl; [exact F1|]. intros p (u & Hu & Hp). left. eauto.
  - apply (Forall2_justified _ by_spns) in F2;
      [|intros u out; apply kerberoasting_rule_justified].
    eapply Forall_impl; [exact F2|]. intros p (u & Hu & Hp). left. eauto.
  - apply (Forall2_justified _ by_delegation) in F3;
      [|intros u out; apply delegation_rule_justified].
    eapply Forall_impl; [exact F3|]. intros p (u & Hu & Hp). left. exists u.
    split; [|auto]. rewrite Hr in Hu. apply list_elem_of_filter in Hu as [_ Hu]. exact Hu.
  - apply (Forall2_justified _ by_preauth) in F4;
      [|intros u out; apply asrep_rule_justified].
    eapply Forall_impl; [exact F4|]. intros p (u & Hu & Hp). left. eauto 6.
  - apply (Forall2_justified _ by_computer_delegation) in F5;
      [|intros c out; apply computer_delegation_rule_justified].
    eapply Forall_impl; [exact F5|]. intros p (c & Hc & Hp). right. eauto.
Qed.

Lemma findings_are_justified_witness :
  exists ns es p1 p2,
    generate_graph_visualization snapshot_delegation = Ok (ns, es, [p1; p2]) /\
    path_path p1 = ["user_svc_web"] /\ path_path p2 = ["comp_SRV01$"] /\
    Forall (justified
              [JObj [("SamAccountName", JStr "svc_web");
                     ("TrustedForDelegation", JBool true)]]
              [JObj [("SamAccountName", JStr "SRV01$");
                     ("TrustedForDelegation", JBool true)]]) [p1; p2].
Proof.
  eexists _, _, _, _. split; [vm_compute; reflexivity|].
  split; [reflexivity|]. split; [reflexivity|].
  eapply (findings_are_justified snapshot_delegation);
    [vm_compute; reflexivity|reflexivity|reflexivity].
Defined.

(** ** The order of the user table *)

Lemma keyed_items {A : Type} (key : A -> result Z) (l : list A) (ks : list (Z * A)) :
  keyed key l = Ok ks ->
  snd <$> ks = l /\ Forall (fun p => key (snd p) = Ok (fst p)) ks.
Proof.
  revert ks. induction l as [|x l IH]; intros ks H; simpl in H.
  - injection H as <-. split; [reflexivity|constructor].
  - inv_bind H. inv_bind H. injection H as <-. destruct (IH _ E0) as [Hs Hf].
    split; [rewrite fmap_cons, Hs; reflexivity|]. constructor; [exact E|exact Hf].
Qed.

Lemma insert_by_key_perm {A : Type} (x : Z * A) (l : list (Z * A)) :
  insert_by_key x l ≡ₚ x :: l.
Proof.
  induction l as [|y l IH]; simpl; [reflexivity|].
  destruct (fst x <=? fst y)%Z; [reflexivity|].
  rewrite IH. apply Permutation_swap.
Qed.

Lemma stable_sort_perm {A : Type} (l : list (Z * A)) :
  foldr insert_by_key [] l ≡ₚ l.
Proof.
  induction l as [|x l IH]; simpl; [reflexivity|].
  rewrite insert_by_key_perm, IH. reflexivity.
Qed.

Lemma insert_by_key_sorted {A : Type} (x : Z * A) (l : list (Z * A)) :
  StronglySorted (fun a b => (fst a <= fst b)%Z) l ->
  StronglySorted (fun a b => (fst a <= fst b)%Z) (insert_by_key x l).
Proof.
  induction 1 as [|y l Hs IH Hy]; simpl.
  - constructor; constructor.
  - destruct (fst x <=? fst y)%Z eqn:Hc.
    + apply Z.leb_le in Hc. constructor; [constructor; assumption|].
      constructor; [exact Hc|]. eapply Forall_impl; [exact Hy|].
      intros z Hz. simpl in *. lia.
    + apply Z.leb_gt in Hc. constructor; [exact IH|].
      rewrite insert_by_key_perm. constructor; [lia|exact Hy].
Qed.

Lemma stable_sort_sorted {A : Type} (l : list (Z * A)) :
  StronglySorted (fun a b => (fst a <= fst b)%Z) (foldr insert_by_key [] l).
Proof.
  induction l as [|x l IH]; simpl; [constructor|].
  apply insert_by_key_sorted, IH.
Qed.

Lemma insert_by_key_stable {A : Type} (k : Z) (x : Z * A) (l : list (Z * A)) :
  filter (fun p => fst p = k) (insert_by_key x l)
  = filter (fun p => fst p = k) (x :: l).
Proof.
  induction l as [|y l IH]; simpl; [reflexivity|].
  destruct (fst x <=? fst y)%Z eqn:Hc; [reflexivity|].
  apply Z.leb_gt in Hc.
  destruct (decide (fst y = k)) as [Hy|Hy].
  - rewrite (filter_cons_True _ y) by exact Hy. rewrite IH.
    rewrite (filter_cons_False _ x) by lia.
    rewrite (filter_cons_False _ x) by lia.
    rewrite (filter_cons_True _ y) by exact Hy. reflexivity.
  - rewrite (filter_cons_False _ y) by exact Hy. rewrite IH.
    destruct (decide (fst x = k)) as [Hx|Hx].
    + rewrite !(filter_cons_True _ x) by exact Hx.
      rewrite (filter_cons_False _ y) by exact Hy. reflexivity.
    + rewrite !(filter_cons_False _ x) by exact Hx.
      rewrite (filter_cons_False _ y) by exact Hy. reflexivity.
Qed.

Lemma stable_sort_stable {A : Type} (k : Z) (l : list (Z * A)) :
  filter (fun p => fst p = k) (foldr insert_by_key [] l)
  = filter (fun p => fst p = k) l.
Proof.
  induction l as [|x l IH]; simpl; [reflexivity|].
  rewrite insert_by_key_stable.
  destruct (decide (fst x = k)) as [Hx|Hx].
  - rewrite !(filter_cons_True _ x) by exact Hx. rewrite IH. reflexivity.
  - rewrite !(filter_cons_False _ x) by exact Hx. exact IH.
Qed.

Lemma filter_fmap_snd {A B : Type} (P : B -> Prop) `{forall y, Decision (P y)}
    (l : list (A * B)) :
  filter P (snd <$> l) = snd <$> filter (fun p => P (snd p)) l.
Proof.
  induction l as [|x l IH]; [reflexivity|]. rewrite fmap_cons.
  destruct (decide (P (snd x))) as [Hx|Hx].
  - rewrite !filter_cons_True by exact Hx. rewrite fmap_cons, IH. reflexivity.
  - rewrite !filter_cons_False by exact Hx. exact IH.
Qed.

Lemma filter_Forall_iff {A : Type} (P Q : A -> Prop)
    `{forall x, Decision (P x)} `{forall x, Decision (Q x)} (l : list A) :
  Forall (fun x => P x <-> Q x) l -> filter P l = filter Q l.
Proof.
  induction 1 as [|x l Hx _ IH]; [reflexivity|].
  destruct (decide (P x)) as [HP|HP].
  - rewrite filter_cons_True by exact HP.
    rewrite filter_cons_True by (apply Hx; exact HP). rewrite IH. reflexivity.
  - rewrite filter_cons_False by exact HP.
    rewrite filter_cons_False by (intros HQ; apply HP, Hx; exact HQ). exact IH.
Qed.

Lemma sorted_by_key_fmap {A : Type} (w : A -> Z) (l : list (Z * A)) :
  Forall (fun p => w (snd p) = (- fst p)%Z) l ->
  StronglySorted (fun a b => (fst a <= fst b)%Z) l ->
  StronglySorted (fun a b => (w b <= w a)%Z) (snd <$> l).
Proof.
  intros Hw Hs. induction Hs as [|x l Hs IH Hx]; [constructor|].
  apply Forall_cons in Hw as [Hwx Hwl]. rewrite fmap_cons. constructor; [exact (IH Hwl)|].
  apply Forall_fmap. rewrite Forall_forall in Hx, Hwl. apply Forall_forall.
  intros y Hy. simpl. specialize (Hx y Hy). specialize (Hwl y Hy). simpl in *. lia.
Qed.

Lemma keyed_risk_of (l : list json) (ks : list (Z * json)) :
  keyed risk_sort_key l = Ok ks ->
  Forall (fun p => risk_of (snd p) = (- fst p)%Z) ks.
Proof.
  intros H. apply keyed_items in H as [_ H]. eapply Forall_impl; [exact H|].
  intros p Hp. unfold risk_of. rewrite Hp. reflexivity.
Qed.

(** X17.  The rows of the user table are the first 500 users of the stable
    sort by decreasing weight: together with the users left out they are
    a permutation of [Users], no user weighs more than one before it, and
    users of equal weight keep the order of the snapshot. *)
Theorem user_table_order (data : json) (users rows : list json) :
  displayed_users data = Ok rows ->
  section data "Users" = Ok users ->
  length rows = Nat.min 500 (length users) /\
  exists hidden,
    rows ++ hidden ≡ₚ users /\
    StronglySorted (fun a b => (risk_of b <= risk_of a)%Z) (rows ++ hidden) /\
    forall w, filter (fun u => risk_of u = w) (rows ++ hidden)
              = filter (fun u => risk_of u = w) users.
Proof.
  unfold displayed_users, sorted. intros H Hus. rewrite Hus in H. cbn [bind] in H.
  inv_bind H. inv_bind E. injection E as <-. injection H as <-.
  pose proof (keyed_risk_of _ _ E0) as Hw.
  apply keyed_items in E0 as [Hks _].
  assert (Hws : Forall (fun p => risk_of (snd p) = (- fst p)%Z)
                  (foldr insert_by_key [] v0)).
  { rewrite stable_sort_perm. exact Hw. }
  split.
  { rewrite length_take, length_fmap, (Permutation_length (stable_sort_perm v0)),
      <- Hks, length_fmap. lia. }
  exists (drop 500 (snd <$> foldr insert_by_key [] v0)).
  rewrite take_drop. refine (conj _ (conj _ _)).
  - rewrite stable_sort_perm, Hks. reflexivity.
  - apply sorted_by_key_fmap; [exact Hws|apply stable_sort_sorted].
  - intros w. rewrite <- Hks, !filter_fmap_snd. f_equal.
    rewrite (filter_Forall_iff (fun p => risk_of (snd p) = w) (fun p => fst p = (- w)%Z)
               (foldr insert_by_key [] v0)).
    2: { eapply Forall_impl; [exact Hws|]. intros p Hp. simpl in *. lia. }
    rewrite (filter_Forall_iff (fun p => risk_of (snd p) = w) (fun p => fst p = (- w)%Z) v0).
    2: { eapply Forall_impl; [exact Hw|]. intros p Hp. simpl in *. lia. }
    apply stable_sort_stable.
Qed.

Lemma user_table_order_witness :
  exists rows,
    displayed_users snapshot_three_users = Ok rows /\
    account_name <$> rows = ["da_legacy"; "svc_a"; "guest1"] /\
    length rows = Nat.min 500 (length three_users) /\
    exists hidden,
      rows ++ hidden ≡ₚ three_users /\
      StronglySorted (fun a b => (risk_of b <= risk_of a)%Z) (rows ++ hidden) /\
      forall w, filter (fun u => risk_of u = w) (rows ++ hidden)
                = filter (fun u => risk_of u = w) three_users.
Proof.
  eexists. split; [vm_compute; reflexivity|]. split; [reflexivity|].
  apply (user_table_order snapshot_three_users three_users); vm_compute; reflexivity.
Defined.

Lemma risk_sort_key_value (u : json) (k : Z) :
  risk_sort_key u = Ok k ->
  exists spn deleg weak da,
    has_spns u = Ok spn /\ has_delegation_flag u = Ok deleg /\
    has_weak_encryption u = Ok weak /\ in_group "Domain Admins" u = Ok da /\
    k = (- ((if spn then 1000 else 0) + (if deleg then 500 else 0)
            + (if weak then 200 else 0) + (if da then 300 else 0)))%Z.
Proof.
  unfold risk_sort_key. intros H. inv_binds H. injection H as <-.
  exists v, v0, v1, v2. refine (conj E (conj E0 (conj E1 (conj E2 _)))).
  destruct v, v0, v1, v2; reflexivity.
Qed.

Lemma sorted_users_ranked (users sorted_users : list json) :
  sorted risk_sort_key users = Ok sorted_users ->
  StronglySorted (fun a b => (risk_of b <= risk_of a)%Z) sorted_users /\
  Forall (fun u => risk_sort_key u = Ok (- risk_of u)%Z) sorted_users.
Proof.
  unfold sorted. intros H. inv_bind H. injection H as <-.
  pose proof (keyed_risk_of _ _ E) as Hw. apply keyed_items in E as [_ Hk].
  assert (Hws : Forall (fun p => risk_of (snd p) = (- fst p)%Z)
                  (foldr insert_by_key [] v)).
  { rewrite stable_sort_perm. exact Hw. }
  split; [apply sorted_by_key_fmap; [exact Hws|apply stable_sort_sorted]|].
  apply Forall_fmap. rewrite <- (stable_sort_perm v) in Hk.
  rewrite Forall_forall in Hk, Hws. apply Forall_forall. intros p Hp. simpl.
  rewrite (Hk p Hp), (Hws p Hp). f_equal. lia.
Qed.

(** X18.  In the user table a user without SPNs stands above a user with
    SPNs only when both weigh exactly 1000, that is when the former has a
    delegation flag, a weak encryption type and the Domain Admins
    membership at once and the latter has nothing but its SPNs. *)
Theorem spn_users_listed_first (data : json) (rows l1 l2 l3 : list json) (u v : json) :
  displayed_users data = Ok rows ->
  rows = l1 ++ v :: l2 ++ u :: l3 ->
  has_spns v = Ok false ->
  has_spns u = Ok true ->
  (risk_of v = 1000%Z /\ has_delegation_flag v = Ok true /\
   has_weak_encryption v = Ok true /\ in_group "Domain Admins" v = Ok true) /\
  (risk_of u = 1000%Z /\ has_delegation_flag u = Ok false /\
   has_weak_encryption u = Ok false /\ in_group "Domain Admins" u = Ok false).
Proof.
  unfold displayed_users. intros H Hrows Hv Hu. inv_bind H. inv_bind H. injection H as H.
  apply sorted_users_ranked in E0 as [Hs Hk].
  assert (Hs' : StronglySorted (fun a b => (risk_of b <= risk_of a)%Z) rows).
  { rewrite <- H. rewrite <- (take_drop 500 v1) in Hs.
    apply StronglySorted_app_1_l in Hs. exact Hs. }
  assert (Hk' : Forall (fun u => risk_sort_key u = Ok (- risk_of u)%Z) rows).
  { rewrite <- H. apply Forall_take. exact Hk. }
  rewrite Hrows in Hs', Hk'.
  apply StronglySorted_app_1_r in Hs'. apply StronglySorted_inv in Hs' as [_ Hle].
  rewrite Forall_app, Forall_cons in Hle. destruct Hle as (_ & Hle & _).
  rewrite Forall_app, Forall_cons, Forall_app, Forall_cons in Hk'.
  destruct Hk' as (_ & Hkv & _ & Hku & _).
  destruct (risk_sort_key_value _ _ Hkv) as (s1 & d1 & w1 & a1 & Hs1 & Hd1 & Hw1 & Ha1 & Kv).
  destruct (risk_sort_key_value _ _ Hku) as (s2 & d2 & w2 & a2 & Hs2 & Hd2 & Hw2 & Ha2 & Ku).
  rewrite Hv in Hs1. injection Hs1 as <-. rewrite Hu in Hs2. injection Hs2 as <-.
  rewrite Hd1, Hw1, Ha1, Hd2, Hw2, Ha2.
  destruct d1, w1, a1, d2, w2, a2; try lia; repeat split; lia.
Qed.

Lemma spn_users_listed_first_witness :
  exists rows,
    displayed_users snapshot_three_users = Ok rows /\
    rows = [] ++ user_admin_rc4_delegation :: [] ++ user_plain_spn "svc_a"
              :: [JObj [("SamAccountName", JStr "guest1")]] /\
    (risk_of user_admin_rc4_delegation = 1000%Z /\
     has_delegation_flag user_admin_rc4_delegation = Ok true /\
     has_weak_encryption user_admin_rc4_delegation = Ok true /\
     in_group "Domain Admins" user_admin_rc4_delegation = Ok true) /\
    (risk_of (user_plain_spn "svc_a") = 1000%Z /\
     has_delegation_flag (user_plain_spn "svc_a") = Ok false /\
     has_weak_encryption (user_plain_spn "svc_a") = Ok false /\
     in_group "Domain Admins" (user_plain_spn "svc_a") = Ok false).
Proof.
  eexists. split; [vm_compute; reflexivity|]. split; [reflexivity|].
  eapply (spn_users_listed_first snapshot_three_users _ [] []);
    [vm_compute; reflexivity|reflexivity|reflexivity|reflexivity].
Defined.

(** ** The recommendations *)

Ltac split_ifs :=
  repeat match goal with
         | |- context [if ?b then _ else _] => destruct b
         | |- context [match ?l with [] => _ | _ :: _ => _ end] => destruct l
         end.

Ltac emitted :=
  rewrite <- ?app_assoc;
  first
    [ exists []; split; [symmetry; apply app_nil_r|constructor]
    | eexists; split; [reflexivity|repeat (constructor; [reflexivity|]); constructor] ].

Ltac run_all :=
  repeat match goal with
         | H : bind _ _ = Ok _ |- _ => inv_bind H
         | H : (if ?b then _ else _) = Ok _ |- _ => destruct b eqn:?
         | H : Ok _ = Ok _ |- _ => injection H as H; try subst
         | H : Raise _ = Ok _ |- _ => discriminate H
         end.

Ltac block_emits :=
  let H := fresh "H" in
  intros ? ? ? H; run_all; split_ifs; emitted.

Lemma recommend_kerberoasting_emits : emits ["Kerberoasting"] recommend_kerberoasting.
Proof. unfold recommend_kerberoasting. block_emits. Qed.

Lemma recommend_delegation_emits : emits ["Delegation"] recommend_delegation.
Proof. unfold recommend_delegation. block_emits. Qed.

Lemma recommend_computer_delegation_emits :
  emits ["Computer Delegation"] recommend_computer_delegation.
Proof. unfold recommend_computer_delegation. block_emits. Qed.

Lemma recommend_weak_encryption_emits :
  emits ["Weak Encryption"] recommend_weak_encryption.
Proof. unfold recommend_weak_encryption. block_emits. Qed.

Lemma recommend_protected_users_emits :
  emits ["Privileged Accounts"] recommend_protected_users.
Proof. unfold recommend_protected_users. block_emits. Qed.

Lemma recommend_inactive_emits : emits ["Inactive Accounts"] recommend_inactive.
Proof. unfold recommend_inactive. block_emits. Qed.

Lemma recommend_password_age_emits : emits ["Password Age"] recommend_password_age.
Proof. unfold recommend_password_age. block_emits. Qed.

Lemma recommend_krbtgt_emits : emits ["krbtgt Password"] recommend_krbtgt.
Proof. unfold recommend_krbtgt. block_emits. Qed.

Lemma recommend_password_policy_emits :
  emits ["Password Policy"] recommend_password_policy.
Proof. unfold recommend_password_policy. block_emits. Qed.

Lemma recommend_trust_emits : emits ["Trust Relationship"] recommend_trust.
Proof. unfold recommend_trust. block_emits. Qed.

Lemma recommend_trusts_emits : emits ["Trust Relationship"] recommend_trusts.
Proof.
  unfold recommend_trusts. intros data recs recs' H. inv_bind H.
  apply (for_each_inv
           (fun r => exists out, r = recs ++ out /\
                                 Forall (titled_in ["Trust Relationship"]) out)
           _ _ _ _ H).
  - exists []. split; [symmetry; apply app_nil_r|constructor].
  - intros trust r1 r2 _ (out & -> & Hout) Ht.
    apply recommend_trust_emits in Ht as (out' & -> & Hout').
    exists (out ++ out'). split; [symmetry; apply app_assoc|].
    apply Forall_app. auto.
Qed.

Lemma recommend_computer_security_emits :
  emits ["Antivirus"; "BitLocker"; "Firewall"] recommend_computer_security.
Proof. unfold recommend_computer_security. block_emits. Qed.

Lemma recommend_ldap_signing_emits : emits ["LDAP Signing"] recommend_ldap_signing.
Proof. unfold recommend_ldap_signing. block_emits. Qed.

Lemma recommend_smb_signing_emits : emits ["SMB Signing"] recommend_smb_signing.
Proof. unfold recommend_smb_signing. block_emits. Qed.

Lemma recommend_domain_mode_emits : emits ["Domain Mode"] recommend_domain_mode.
Proof. unfold recommend_domain_mode. block_emits. Qed.

Lemma recommend_forest_mode_emits : emits ["Forest Mode"] recommend_forest_mode.
Proof. unfold recommend_forest_mode. block_emits. Qed.

Lemma recommend_suspicious_emits : emits ["Suspicious Accounts"] recommend_suspicious.
Proof. unfold recommend_suspicious. block_emits. Qed.

Lemma recommend_failed_logons_emits : emits ["Failed Logons"] recommend_failed_logons.
Proof. unfold recommend_failed_logons. block_emits. Qed.

Lemma recommend_empty_groups_emits : emits ["Empty Groups"] recommend_empty_groups.
Proof. unfold recommend_empty_groups. block_emits. Qed.

Lemma recommend_large_groups_emits : emits ["Large Groups"] recommend_large_groups.
Proof. unfold recommend_large_groups. block_emits. Qed.

Lemma recommend_certificate_templates_emits :
  emits ["Certificate Templates"] recommend_certificate_templates.
Proof. unfold recommend_certificate_templates. block_emits. Qed.

Lemma recommend_certificates_emits : emits ["Certificates"] recommend_certificates.
Proof. unfold recommend_certificates. block_emits. Qed.

Lemma blocks_emit : Forall2 emits block_titles recommendation_blocks.
Proof.
  unfold block_titles, recommendation_blocks.
  repeat first
    [ apply Forall2_nil_2
    | apply Forall2_cons_2 ].
  - exact recommend_kerberoasting_emits.
  - exact recommend_delegation_emits.
  - exact recommend_computer_delegation_emits.
  - exact recommend_weak_encryption_emits.
  - exact recommend_protected_users_emits.
  - exact recommend_inactive_emits.
  - exact recommend_password_age_emits.
  - exact recommend_krbtgt_emits.
  - exact recommend_password_policy_emits.
  - exact recommend_trusts_emits.
  - exact recommend_computer_security_emits.
  - exact recommend_ldap_signing_emits.
  - exact recommend_smb_signing_emits.
  - exact recommend_domain_mode_emits.
  - exact recommend_forest_mode_emits.
  - exact recommend_suspicious_emits.
  - exact recommend_failed_logons_emits.
  - exact recommend_empty_groups_emits.
  - exact recommend_large_groups_emits.
  - exact recommend_certificate_templates_emits.
  - exact recommend_certificates_emits.
Qed.

Lemma blocks_run (tss : list (list string))
    (blocks : list (json -> list string -> result (list string)))
    (data : json) (recs r : list string) :
  Forall2 emits tss blocks ->
  for_each blocks (fun block => block data) recs = Ok r ->
  exists outs,
    Forall2 (fun ts out => Forall (titled_in ts) out) tss outs /\
    r = recs ++ concat outs.
Proof.
  intros Hb. revert recs. induction Hb as [|ts block tss blocks Hblock _ IH]; intros recs H.
  - injection H as <-. exists []. split; [constructor|]. symmetry. apply app_nil_r.
  - simpl in H. inv_bind H. apply Hblock in E as (out & -> & Hout).
    destruct (IH _ H) as (outs & Houts & ->).
    exists (out :: outs). split; [constructor; assumption|].
    simpl. symmetry. apply app_assoc.
Qed.

Lemma prefix_nil (s : string) : String.prefix EmptyString s = true.
Proof. destruct s; reflexivity. Qed.

Lemma prefix_app_l (a b s : string) :
  String.prefix (a +:+ b) s = true -> String.prefix a s = true.
Proof.
  revert s. induction a as [|c a IH]; intros s H; [destruct s; reflexivity|].
  destruct s as [|c' s]; [discriminate H|]. simpl in *.
  destruct (Ascii.ascii_dec c c'); [exact (IH _ H)|discriminate H].
Qed.

Lemma prefix_split (p s : string) :
  String.prefix p s = true -> exists t, s = p +:+ t.
Proof.
  revert s. induction p as [|c p IH]; intros s H.
  - exists s. reflexivity.
  - destruct s as [|c' s]; [discriminate H|]. simpl in H.
    destruct (Ascii.ascii_dec c c') as [<-|]; [|discriminate H].
    destruct (IH _ H) as [t ->]. exists t. reflexivity.
Qed.

Lemma titled_in_strong (ts : list string) (item : string) :
  titled_in ts item -> String.prefix "<li><strong>" item = true.
Proof.
  unfold titled_in, titled. intros H. apply existsb_exists in H as (t & _ & H).
  exact (prefix_app_l _ _ _ H).
Qed.

Lemma recommendations_of_blocks (data : json) :
  recommendations_of data =
    (let* recommendations :=
       for_each recommendation_blocks (fun block => block data) [] in
     Ok (match recommendations with
         | [] => [no_issues_item]
         | _ => recommendations
         end)).
Proof.
  unfold recommendations_of, recommendation_blocks. cbn [for_each].
  repeat match goal with
         | |- bind ?m _ = _ => destruct m; cbn [bind]; [|reflexivity]
         end.
  reflexivity.
Qed.

Lemma recommendations_titled (data : json) (r : list string) :
  for_each recommendation_blocks (fun block => block data) [] = Ok r ->
  Forall (fun item => String.prefix "<li><strong>" item = true) r.
Proof.
  intros H. apply (blocks_run _ _ _ _ _ blocks_emit) in H as (outs & Houts & ->).
  simpl. apply Forall_concat.
  clear -Houts. induction Houts as [|ts out tss outs Hout _ IH]; constructor; [|exact IH].
  eapply Forall_impl; [exact Hout|]. intros item. apply titled_in_strong.
Qed.

(** X19.  The list of recommendations is never empty: it holds either the
    titled items of the blocks that fired or, when none fired, the one
    item that reports no critical issue; the HTML list always opens
    with an item. *)
Theorem recommendations_never_empty (data : json) (r : list string) :
  recommendations_of data = Ok r ->
  (r = [no_issues_item] \/
   (r <> [] /\ Forall (fun item => String.prefix "<li><strong>" item = true) r)) /\
  exists html,
    generate_recommendations data = Ok html /\ String.prefix "<ul><li>" html = true.
Proof.
  intros H. unfold generate_recommendations. rewrite H. cbn [bind].
  rewrite recommendations_of_blocks in H. inv_bind H. injection H as <-.
  apply recommendations_titled in E. destruct v as [|item rest].
  - split; [left; reflexivity|]. eexists. split; reflexivity.
  - split; [right; split; [discriminate|exact E]|].
    eexists. split; [reflexivity|].
    apply Forall_cons in E as [Hitem _].
    apply (prefix_app_l "<li>" "<strong>") in Hitem.
    apply prefix_split in Hitem as [t ->].
    destruct rest; simpl; apply prefix_nil.
Qed.

Lemma recommendations_never_empty_witness :
  recommendations_of snapshot_short_passwords = Ok [min_password_length_item "8"] /\
  ([min_password_length_item "8"] = [no_issues_item] \/
   ([min_password_length_item "8"] <> [] /\
    Forall (fun item => String.prefix "<li><strong>" item = true)
      [min_password_length_item "8"])) /\
  exists html,
    generate_recommendations snapshot_short_passwords = Ok html /\
    String.prefix "<ul><li>" html = true.
Proof.
  split; [vm_compute; reflexivity|].
  apply (recommendations_never_empty snapshot_short_passwords).
  vm_compute. reflexivity.
Defined.

(** ** Recommendations against scores *)

Lemma prefix_both (a b s : string) :
  String.prefix a s = true -> String.prefix b s = true ->
  String.prefix a b || String.prefix b a = true.
Proof.
  revert a b. induction s as [|c s IH]; intros a b Ha Hb.
  - destruct a; [|discriminate Ha]. destruct b; reflexivity.
  - destruct a as [|ca a]; [destruct b; reflexivity|].
    destruct b as [|cb b]; [reflexivity|].
    simpl in Ha, Hb |- *.
    destruct (Ascii.ascii_dec ca c) as [->|]; [|discriminate Ha].
    destruct (Ascii.ascii_dec cb c) as [->|]; [|discriminate Hb].
    destruct (Ascii.ascii_dec c c) as [_|Hc]; [|exfalso; apply Hc; reflexivity].
    exact (IH _ _ Ha Hb).
Qed.

Lemma untitled (T : string) (ts : list string) (item : string) :
  forallb (fun t => negb (titles_overlap T t)) ts = true ->
  titled_in ts item -> titled T item = false.
Proof.
  intros Hts Hitem. apply existsb_exists in Hitem as (t & Ht & Hitem).
  rewrite forallb_forall in Hts. specialize (Hts t Ht).
  destruct (titled T item) eqn:HT; [|reflexivity].
  unfold titled in HT, Hitem. pose proof (prefix_both _ _ _ HT Hitem) as Hb.
  unfold titles_overlap, title_tag in Hts. rewrite Hb in Hts. discriminate Hts.
Qed.

Lemma titled_in_concat (tss : list (list string)) (outs : list (list string)) :
  Forall2 (fun ts out => Forall (titled_in ts) out) tss outs ->
  Forall (titled_in (concat tss)) (concat outs).
Proof.
  induction 1 as [|ts out tss outs Hout _ IH]; [constructor|].
  simpl. apply Forall_app. split.
  - eapply Forall_impl; [exact Hout|]. intros item Hitem. unfold titled_in in *.
    rewrite existsb_app, Hitem. reflexivity.
  - eapply Forall_impl; [exact IH|]. intros item Hitem. unfold titled_in in *.
    rewrite existsb_app, Hitem. apply orb_true_r.
Qed.

Ltac exact_block H Hs Hl :=
  rewrite Hs in H; cbn [bind] in H; rewrite Hl in H; cbn [bind] in H;
  unfold item_if_positive;
  match type of H with
  | (if ?c then _ else _) = _ =>
      destruct c; injection H as <-; [reflexivity|symmetry; apply app_nil_r]
  end.

Lemma recommend_kerberoasting_exact (data : json) (recs recs' users l : list _) :
  section data "Users" = Ok users -> comprehension has_spns users = Ok l ->
  recommend_kerberoasting data recs = Ok recs' ->
  recs' = recs ++ item_if_positive kerberoasting_item (count l).
Proof. intros Hs Hl H. unfold recommend_kerberoasting in H. exact_block H Hs Hl. Qed.

Lemma recommend_delegation_exact (data : json) (recs recs' users l : list _) :
  section data "Users" = Ok users -> comprehension has_delegation_flag users = Ok l ->
  recommend_delegation data recs = Ok recs' ->
  recs' = recs ++ item_if_positive delegation_item (count l).
Proof. intros Hs Hl H. unfold recommend_delegation in H. exact_block H Hs Hl. Qed.

Lemma recommend_computer_delegation_exact (data : json)
    (recs recs' computers l : list _) :
  section data "Computers" = Ok computers ->
  comprehension computer_with_delegation computers = Ok l ->
  recommend_computer_delegation data recs = Ok recs' ->
  recs' = recs ++ item_if_positive computer_delegation_item (count l).
Proof.
  intros Hs Hl H. unfold recommend_computer_delegation in H. exact_block H Hs Hl.
Qed.

Lemma recommend_weak_encryption_exact (data : json) (recs recs' users l : list _) :
  section data "Users" = Ok users -> comprehension weak_encryption_user users = Ok l ->
  recommend_weak_encryption data recs = Ok recs' ->
  recs' = recs ++ item_if_positive weak_encryption_item (count l).
Proof. intros Hs Hl H. unfold recommend_weak_encryption in H. exact_block H Hs Hl. Qed.

Lemma recommend_protected_users_exact (data : json) (recs recs' users das l : list _) :
  section data "Users" = Ok users ->
  comprehension (in_group "Domain Admins") users = Ok das ->
  comprehension (not_in_group "Protected Users") das = Ok l ->
  recommend_protected_users data recs = Ok recs' ->
  recs' = recs ++ item_if_positive privileged_accounts_item (count l).
Proof.
  intros Hs Hd Hl H. unfold recommend_protected_users in H.
  rewrite Hs in H. cbn [bind] in H. rewrite Hd in H. cbn [bind] in H.
  rewrite Hl in H. cbn [bind] in H. unfold item_if_positive.
  destruct (0 <? count l)%Z; injection H as <-; [reflexivity|symmetry; apply app_nil_r].
Qed.

Lemma recommend_inactive_exact (data : json) (recs recs' users l : list _) :
  section data "Users" = Ok users ->
  comprehension (counter_above "DaysSinceLastLogon" 90) users = Ok l ->
  recommend_inactive data recs = Ok recs' ->
  recs' = recs ++ item_if_positive inactive_accounts_item (count l).
Proof. intros Hs Hl H. unfold recommend_inactive in H. exact_block H Hs Hl. Qed.

Lemma recommend_password_age_exact (data : json) (recs recs' users l : list _) :
  section data "Users" = Ok users ->
  comprehension (counter_above "DaysSincePasswordChange" 365) users = Ok l ->
  recommend_password_age data recs = Ok recs' ->
  recs' = recs ++ item_if_positive password_age_item (count l).
Proof. intros Hs Hl H. unfold recommend_password_age in H. exact_block H Hs Hl. Qed.

(** The list before the fallback: the items of the seven counts of the
    scoring, then the items of the other blocks. *)
Lemma scoring_items_first (data : json) (s : scores) (v : list string) :
  calculate_risk_scores data = Ok s ->
  for_each recommendation_blocks (fun block => block data) [] = Ok v ->
  exists n1 n2 n3 n4 n5 n6 n7 rest,
    (kerberoasting s = n1 * 10 /\ delegation s = n2 * 15 + n3 * 20 /\
     encryption s = n4 * 5 /\ privileged s = n5 * 25 /\ inactive s = n6 * 2 + n7 * 3 /\
     0 <= n2 /\ 0 <= n3 /\ 0 <= n6 /\ 0 <= n7)%Z /\
    v = item_if_positive kerberoasting_item n1
        ++ item_if_positive delegation_item n2
        ++ item_if_positive computer_delegation_item n3
        ++ item_if_positive weak_encryption_item n4
        ++ item_if_positive privileged_accounts_item n5
        ++ item_if_positive inactive_accounts_item n6
        ++ item_if_positive password_age_item n7
        ++ rest /\
    Forall (titled_in (concat (drop 7 block_titles))) rest.
Proof.
  intros Hs H. unfold calculate_risk_scores in Hs.
  inv_bind Hs. rename v0 into users, E into Hus. inv_binds Hs. injection Hs as <-.
  repeat match goal with
         | Hx : section data "Users" = Ok ?u |- _ =>
             lazymatch u with
             | users => fail
             | _ => rewrite Hus in Hx; injection Hx as <-
             end
         end.
  unfold recommendation_blocks in H. cbn [for_each] in H.
  do 7 inv_bind H.
  match type of H with
  | bind (recommend_krbtgt data ?recs) _ = _ =>
      change (for_each (drop 7 recommendation_blocks) (fun block => block data) recs
              = Ok v) in H
  end.
  apply (blocks_run (drop 7 block_titles)) in H;
    [|apply Forall2_drop, blocks_emit].
  destruct H as (outs & Houts & ->). apply titled_in_concat in Houts.
  repeat match goal with
         | Hb : recommend_kerberoasting _ _ = Ok _ |- _ =>
             eapply recommend_kerberoasting_exact in Hb; [|eassumption..]
         | Hb : recommend_delegation _ _ = Ok _ |- _ =>
             eapply recommend_delegation_exact in Hb; [|eassumption..]
         | Hb : recommend_computer_delegation _ _ = Ok _ |- _ =>
             eapply recommend_computer_delegation_exact in Hb; [|eassumption..]
         | Hb : recommend_weak_encryption _ _ = Ok _ |- _ =>
             eapply recommend_weak_encryption_exact in Hb; [|eassumption..]
         | Hb : recommend_protected_users _ _ = Ok _ |- _ =>
             eapply recommend_protected_users_exact in Hb; [|eassumption..]
         | Hb : recommend_inactive _ _ = Ok _ |- _ =>
             eapply recommend_inactive_exact in Hb; [|eassumption..]
         | Hb : recommend_password_age _ _ = Ok _ |- _ =>
             eapply recommend_password_age_exact in Hb; [|eassumption..]
         end.
  subst. cbn [kerberoasting delegation encryption privileged inactive].
  eexists _, _, _, _, _, _, _, _. split; [|split; [|exact Houts]].
  - repeat split; try reflexivity; apply count_nonneg.
  - rewrite app_nil_l, <- !app_assoc. reflexivity.
Qed.

Lemma mentions_final (v : list string) (T : string) :
  mentions (match v with [] => [no_issues_item] | _ => v end) T
  <-> Exists (fun item => titled T item = true) v.
Proof.
  unfold mentions. rewrite Exists_exists. destruct v as [|i v]; [|reflexivity].
  split.
  - intros (item & Hin & Ht). apply list_elem_of_singleton in Hin as ->.
    discriminate Ht.
  - intros (item & Hin & _). apply elem_of_nil in Hin as [].
Qed.

Lemma item_if_positive_titled (T : string) (item : string -> string) (n : Z) (b : bool) :
  (forall x, titled T (item x) = b) ->
  Exists (fun i => titled T i = true) (item_if_positive item n) <-> (0 < n)%Z /\ b = true.
Proof.
  intros Hb. unfold item_if_positive. destruct (0 <? n)%Z eqn:Hn.
  - apply Z.ltb_lt in Hn. rewrite Exists_cons, Exists_nil, Hb. tauto.
  - apply Z.ltb_ge in Hn. rewrite Exists_nil. split; [tauto|]. intros [Hp _]. lia.
Qed.

Lemma rest_untitled (T : string) (ts : list string) (rest : list string) :
  forallb (fun t => negb (titles_overlap T t)) ts = true ->
  Forall (titled_in ts) rest ->
  ~ Exists (fun item => titled T item = true) rest.
Proof.
  intros Hts Hrest Hex. apply Exists_exists in Hex as (item & Hin & Ht).
  rewrite Forall_forall in Hrest.
  rewrite (untitled T ts item Hts (Hrest item Hin)) in Ht. discriminate Ht.
Qed.

Ltac count_titles T :=
  rewrite (mentions_final _ T), !Exists_app,
    (item_if_positive_titled T kerberoasting_item _ _ (fun x => eq_refl)),
    (item_if_positive_titled T delegation_item _ _ (fun x => eq_refl)),
    (item_if_positive_titled T computer_delegation_item _ _ (fun x => eq_refl)),
    (item_if_positive_titled T weak_encryption_item _ _ (fun x => eq_refl)),
    (item_if_positive_titled T privileged_accounts_item _ _ (fun x => eq_refl)),
    (item_if_positive_titled T inactive_accounts_item _ _ (fun x => eq_refl)),
    (item_if_positive_titled T password_age_item _ _ (fun x => eq_refl)).

(** X20.  When the scoring and the recommendations both return, a
    sub-score is positive if and only if the recommendations mention its
    axis: Kerberoasting; Delegation or Computer Delegation; Weak
    Encryption; Privileged Accounts; Inactive Accounts or Password Age. *)
Theorem recommendations_follow_scores (data : json) (s : scores) (r : list string) :
  calculate_risk_scores data = Ok s ->
  recommendations_of data = Ok r ->
  ((0 < kerberoasting s)%Z <-> mentions r "Kerberoasting") /\
  ((0 < delegation s)%Z <-> mentions r "Delegation" \/ mentions r "Computer Delegation") /\
  ((0 < encryption s)%Z <-> mentions r "Weak Encryption") /\
  ((0 < privileged s)%Z <-> mentions r "Privileged Accounts") /\
  ((0 < inactive s)%Z <-> mentions r "Inactive Accounts" \/ mentions r "Password Age").
Proof.
  intros Hs H. rewrite recommendations_of_blocks in H. inv_bind H. injection H as <-.
  destruct (scoring_items_first _ _ _ Hs E)
    as (n1 & n2 & n3 & n4 & n5 & n6 & n7 & rest & Hn & -> & Hrest).
  destruct Hn as (-> & -> & -> & -> & -> & Hn2 & Hn3 & Hn6 & Hn7).
  pose proof (fun T Hts => rest_untitled T _ rest Hts Hrest) as Hno.
  pose proof (Hno "Kerberoasting" eq_refl).
  pose proof (Hno "Delegation" eq_refl).
  pose proof (Hno "Computer Delegation" eq_refl).
  pose proof (Hno "Weak Encryption" eq_refl).
  pose proof (Hno "Privileged Accounts" eq_refl).
  pose proof (Hno "Inactive Accounts" eq_refl).
  pose proof (Hno "Password Age" eq_refl).
  clear Hno Hrest E Hs.
  refine (conj _ (conj _ (conj _ (conj _ _)))).
  - count_titles "Kerberoasting". intuition (try discriminate; lia).
  - count_titles "Delegation". count_titles "Computer Delegation".
    intuition (try discriminate; lia).
  - count_titles "Weak Encryption". intuition (try discriminate; lia).
  - count_titles "Privileged Accounts". intuition (try discriminate; lia).
  - count_titles "Inactive Accounts". count_titles "Password Age".
    intuition (try discriminate; lia).
Qed.

Lemma recommendations_follow_scores_witness :
  exists s r,
    calculate_risk_scores snapshot_delegation_and_stale = Ok s /\
    recommendations_of snapshot_delegation_and_stale = Ok r /\
    (delegation s = 15 /\ inactive s = 7)%Z /\
    r = [delegation_item "1"; inactive_accounts_item "2"; password_age_item "1"] /\
    ((0 < kerberoasting s)%Z <-> mentions r "Kerberoasting") /\
    ((0 < delegation s)%Z <-> mentions r "Delegation" \/ mentions r "Computer Delegation") /\
    ((0 < encryption s)%Z <-> mentions r "Weak Encryption") /\
    ((0 < privileged s)%Z <-> mentions r "Privileged Accounts") /\
    ((0 < inactive s)%Z <-> mentions r "Inactive Accounts" \/ mentions r "Password Age").
Proof.
  eexists _, _. split; [vm_compute; reflexivity|]. split; [vm_compute; reflexivity|].
  split; [split; reflexivity|]. split; [reflexivity|].
  apply (recommendations_follow_scores snapshot_delegation_and_stale);
    vm_compute; reflexivity.
Defined.

(** ** The krbtgt panel against the recommendations *)

Lemma recommend_krbtgt_exact (data krbtgt : json) (days : Z) (recs recs' : list string) :
  Py.get data "KrbtgtInfo" JNull = Ok krbtgt ->
  Py.truthy krbtgt = true ->
  Py.get krbtgt "DaysSincePasswordChange" (JInt 0) = Ok (JInt days) ->
  recommend_krbtgt data recs = Ok recs' ->
  exists x,
    recs' = recs ++ (if (180 <? days)%Z then [krbtgt_password_item x] else []).
Proof.
  intros Hk Ht Hd H. unfold recommend_krbtgt in H.
  rewrite Hk in H. cbn [bind] in H. rewrite Ht, Hd in H. cbn [bind Py.gt] in H.
  destruct (180 <? days)%Z.
  - inv_bind H. injection H as <-. eexists. reflexivity.
  - injection H as <-. exists EmptyString. symmetry. apply app_nil_r.
Qed.

(** X21.  The panel calls the krbtgt key critical from 180 days on and
    asks for action from 150 days on, while the recommendations mention
    it only beyond 180 days: at exactly 180 days the panel says CRITICAL
    and no recommendation is made. *)
Theorem krbtgt_thresholds (data krbtgt : json) (days : Z) (r : list string) :
  Py.get data "KrbtgtInfo" JNull = Ok krbtgt ->
  Py.truthy krbtgt = true ->
  Py.get krbtgt "DaysSincePasswordChange" (JInt 0) = Ok (JInt days) ->
  recommendations_of data = Ok r ->
  (exists panel,
     generate_krbtgt_info data = Ok (Some panel) /\
     (panel_status_badge panel = badge_critical <-> (180 <= days)%Z) /\
     (panel_status_badge panel = badge_ok <-> (days < 180)%Z) /\
     (panel_alert_class panel = "alert-warning" <-> (150 <= days)%Z)) /\
  (mentions r "krbtgt Password" <-> (180 < days)%Z).
Proof.
  intros Hk Ht Hd H. split.
  - unfold generate_krbtgt_info. rewrite Hk. cbn [bind]. rewrite Ht, Hd.
    cbn [negb bind Py.lt Py.ge].
    destruct krbtgt; try discriminate Hd. cbn [Py.get bind].
    eexists. split; [reflexivity|]. cbn [panel_status_badge panel_alert_class].
    refine (conj _ (conj _ _)).
    + destruct (days <? 180)%Z eqn:Hc;
        [apply Z.ltb_lt in Hc|apply Z.ltb_ge in Hc]; split; try lia; try reflexivity.
      intros Hb. discriminate Hb.
    + destruct (days <? 180)%Z eqn:Hc;
        [apply Z.ltb_lt in Hc|apply Z.ltb_ge in Hc]; split; try lia; try reflexivity.
      intros Hb. discriminate Hb.
    + destruct (150 <=? days)%Z eqn:Hc;
        [apply Z.leb_le in Hc|apply Z.leb_gt in Hc]; split; try lia; try reflexivity.
      intros Hb. discriminate Hb.
  - rewrite recommendations_of_blocks in H. inv_bind H. injection H as <-.
    rewrite mentions_final.
    change recommendation_blocks
      with (take 7 recommendation_blocks ++ recommend_krbtgt :: drop 8 recommendation_blocks)
      in E.
    rewrite for_each_app in E. inv_bind E. cbn [for_each] in E. inv_bind E.
    apply (blocks_run (take 7 block_titles)) in E0; [|apply Forall2_take, blocks_emit].
    apply (blocks_run (drop 8 block_titles)) in E; [|apply Forall2_drop, blocks_emit].
    destruct E0 as (outs1 & Houts1 & ->). destruct E as (outs2 & Houts2 & ->).
    apply titled_in_concat in Houts1, Houts2.
    destruct (recommend_krbtgt_exact _ _ _ _ _ Hk Ht Hd E1) as (x & ->).
    apply (rest_untitled "krbtgt Password") in Houts1; [|reflexivity].
    apply (rest_untitled "krbtgt Password") in Houts2; [|reflexivity].
    rewrite !Exists_app, Exists_nil.
    destruct (180 <? days)%Z eqn:Hc; [apply Z.ltb_lt in Hc|apply Z.ltb_ge in Hc].
    + split; [intros _; exact Hc|]. intros _. left. right. left. reflexivity.
    + rewrite Exists_nil. split; [tauto|lia].
Qed.

Lemma krbtgt_thresholds_witness :
  (exists panel,
     generate_krbtgt_info snapshot_krbtgt_180 = Ok (Some panel) /\
     (panel_status_badge panel = badge_critical <-> (180 <= 180)%Z) /\
     (panel_status_badge panel = badge_ok <-> (180 < 180)%Z) /\
     (panel_alert_class panel = "alert-warning" <-> (150 <= 180)%Z)) /\
  (mentions [no_issues_item] "krbtgt Password" <-> (180 < 180)%Z).
Proof.
  apply (krbtgt_thresholds snapshot_krbtgt_180
           (JObj [("DaysSincePasswordChange", JInt 180)]) 180 [no_issues_item]);
    vm_compute; reflexivity.
Defined.
